(** * Medical emergency backend: hospital matching, capacity and dispatch

    A shallow embedding of the backend services of the emergency site
    (models/Emergency.js, models/Hospital.js, services/hospitalService.js,
    services/ambulanceService.js and the emergency routes), with the
    properties of the matching / reservation / dispatch core.

    Modelling conventions.
    - Mongoose collections are finite maps from document ids to documents.
      A hospital document is saved by one awaited [save], an atomic write.
      An emergency document carries the flag of a save in flight, because
      [updateStatus] calls [save] while the save that [addTimelineEvent]
      started is still in flight.
    - [new Date()] is a clock value handed to every operation.
    - JS numbers are IEEE 754 binary64 values ([Module Number], on the
      specification of floating-point arithmetic of the standard library)
      where a result depends on rounding, on NaN or on Infinity: in the
      ETA as the engine computes it, in the distances the dispatch
      compares and in the Haversine distance of [Module Haversine64],
      whose sine, cosine and arc tangent are parameters.
    - Bed and room counters are integers ([Z]) in [Module Hospital], the
      model on documents with whole-number counters, and rationals in
      [Module HospitalNumbers], the model on all documents; scores are
      rationals ([Q]), with the arithmetic on them taken exact.
    - [Module Haversine] is the Haversine distance over the real numbers,
      with sin, cos, sqrt and atan2 of the reals. *)

From Stdlib Require Import ZArith QArith Qround Qminmax Reals Lra String List Sorting.Sorted Sorting.Permutation Lia.
From Stdlib Require Lqa.
From Stdlib Require SpecFloat.
From stdpp Require Import gmap strings list fin_maps.

Local Open Scope string_scope.
Local Open Scope Z_scope.

(** ** Outcomes of a JS call: a returned value or a thrown error *)

Inductive error : Type :=
  | HospitalNotFound      (* new Error('Hospital not found') *)
  | NoAvailableBeds       (* new Error('No available beds') *)
  | AmbulanceNotFound     (* new Error('Ambulance not found') *)
  | AmbulanceNotAvailable (* new Error('Ambulance not available') *)
  | ValidationError       (* mongoose schema validation at save *)
  | ParallelSaveError     (* mongoose: save() while a save of the document is in flight *)
  | InvalidStateTransition. (* named by the specification only *)

Inductive outcome (A : Type) : Type :=
  | Returned (a : A)
  | Thrown (e : error).
Arguments Returned {A} a.
Arguments Thrown {A} e.

Definition Time := Z.

(** ** JS numbers

    A Number is an IEEE 754 binary64 value; [+], [-], [*], [/] and
    [Math.sqrt] round to nearest, ties to even. *)

Module Number.

Definition number : Type := SpecFloat.spec_float.

Definition prec : Z := 53.
Definition emax : Z := 1024.

Definition add : number -> number -> number := SpecFloat.SFadd prec emax.
Definition sub : number -> number -> number := SpecFloat.SFsub prec emax.
Definition mul : number -> number -> number := SpecFloat.SFmul prec emax.
Definition div : number -> number -> number := SpecFloat.SFdiv prec emax.
Definition sqrt : number -> number := SpecFloat.SFsqrt prec emax.

Definition opp : number -> number := SpecFloat.SFopp.

(** [x < y] and [x <= y]: false when one of the two is NaN. *)
Definition lt : number -> number -> bool := SpecFloat.SFltb.
Definition le : number -> number -> bool := SpecFloat.SFleb.

Definition Infinity : number := SpecFloat.S754_infinity false.
Definition NaN : number := SpecFloat.S754_nan.

(** An integer literal. *)
Definition of_Z (z : Z) : number := SpecFloat.binary_normalize prec emax z 0 false.

(** A decimal literal [n / d] with [d] a power of ten: the double nearest
    to it, which is what the correctly rounded quotient of the two
    integers is. *)
Definition decimal (n d : Z) : number := div (of_Z n) (of_Z d).

(** [Math.ceil]: a finite number with a non-negative exponent is an
    integer already; otherwise the value is [v * 2^e] with [e < 0], and a
    result between -1 and 0 is the negative zero. *)
Definition Math_ceil (x : number) : number :=
  match x with
  | SpecFloat.S754_finite s m e =>
      if 0 <=? e then x
      else
        let v := SpecFloat.cond_Zopp s (Zpos m) in
        let c := - ((- v) / 2 ^ (- e)) in
        if c =? 0 then SpecFloat.S754_zero s else of_Z c
  | _ => x
  end.

(** [Math.max] of two numbers: NaN when one of them is NaN, and the
    positive zero is the larger zero. *)
Definition Math_max (x y : number) : number :=
  match x, y with
  | SpecFloat.S754_nan, _ | _, SpecFloat.S754_nan => SpecFloat.S754_nan
  | SpecFloat.S754_zero sx, SpecFloat.S754_zero sy => SpecFloat.S754_zero (sx && sy)
  | _, _ => if SpecFloat.SFltb x y then y else x
  end.

(** The place of a number that is not NaN in the order of [<]: its class
    (negative infinity, negative, zero, positive, positive infinity),
    then exponent and mantissa. *)
Definition key (x : number) : Z * Z * Z :=
  match x with
  | SpecFloat.S754_nan => (0, 0, 0)
  | SpecFloat.S754_zero _ => (0, 0, 0)
  | SpecFloat.S754_infinity true => (-2, 0, 0)
  | SpecFloat.S754_infinity false => (2, 0, 0)
  | SpecFloat.S754_finite true m e => (-1, - e, Zneg m)
  | SpecFloat.S754_finite false m e => (1, e, Zpos m)
  end.

Definition key_lt (a b : Z * Z * Z) : Prop :=
  let '(a1, a2, a3) := a in
  let '(b1, b2, b3) := b in
  a1 < b1 \/ (a1 = b1 /\ (a2 < b2 \/ (a2 = b2 /\ a3 < b3))).

Definition is_NaN (x : number) : bool :=
  match x with SpecFloat.S754_nan => true | _ => false end.

End Number.

(** ** models/Emergency.js *)

Module Emergency.

(** [response.status] enum of the schema. *)
Inductive Status : Type :=
  | submitted | processing | ambulance_dispatched | en_route
  | arrived_at_scene | transported | arrived_at_hospital
  | completed | cancelled.

Definition Status_eqb (a b : Status) : bool :=
  match a, b with
  | submitted, submitted | processing, processing
  | ambulance_dispatched, ambulance_dispatched | en_route, en_route
  | arrived_at_scene, arrived_at_scene | transported, transported
  | arrived_at_hospital, arrived_at_hospital
  | completed, completed | cancelled, cancelled => true
  | _, _ => false
  end.

Definition status_name (s : Status) : string :=
  match s with
  | submitted => "submitted"
  | processing => "processing"
  | ambulance_dispatched => "ambulance_dispatched"
  | en_route => "en_route"
  | arrived_at_scene => "arrived_at_scene"
  | transported => "transported"
  | arrived_at_hospital => "arrived_at_hospital"
  | completed => "completed"
  | cancelled => "cancelled"
  end.

(** GeoJSON point, [coordinates: [longitude, latitude]]. *)
Record Point : Type := mkPoint { longitude : Q; latitude : Q }.

Record TimelineEvent : Type := mkEvent {
  timestamp : Time;
  event : string;
  details : string;
  updatedBy : string;
  location : option Point
}.

Record Response : Type := mkResponse {
  status : Status;
  dispatchTime : option Time;
  arrivalTime : option Time;
  transportTime : option Time;
  hospitalArrivalTime : option Time;
  completionTime : option Time
}.

(** The [ambulance] sub-document ([ambulance.status] has the schema
    default 'dispatched'). *)
Record AmbulanceInfo : Type := mkAmbulanceInfo {
  gpsLocation : option Point;
  ambulanceStatus : string;
  lastUpdate : Time
}.

(** The [enum] of [ambulance.status]. *)
Definition ambulance_status_enum : list string :=
  ["dispatched"; "en_route_to_scene"; "at_scene"; "en_route_to_hospital";
   "at_hospital"; "available"].

Record t : Type := mkEmergency {
  emergencyId : string;
  response : Response;
  ambulance : AmbulanceInfo;
  timeline : list TimelineEvent;
  updatedAt : Time
}.

Definition with_response (r : Response) (e : t) : t :=
  mkEmergency (emergencyId e) r (ambulance e) (timeline e) (updatedAt e).

Definition with_status (s : Status) (r : Response) : Response :=
  mkResponse s (dispatchTime r) (arrivalTime r) (transportTime r)
             (hospitalArrivalTime r) (completionTime r).

(** Schema validation at [save], for the modelled paths: the status of the
    ambulance sub-document has to be one of its enum ([response.status]
    is in its enum by its type). *)
Definition validate (e : t) : bool :=
  existsb (String.eqb (ambulanceStatus (ambulance e))) ambulance_status_enum.

(** [emergencySchema.pre('save')]: stamps [updatedAt]. The priority
    recomputation only fires when severity or type were modified, which
    none of the methods below does. *)
Definition pre_save (now : Time) (e : t) : t :=
  mkEmergency (emergencyId e) (response e) (ambulance e) (timeline e) now.

(** A document in memory: its paths and whether a [save] of it is in
    flight ([$__.saving]). [findOne] hands out a document with no save in
    flight. *)
Record Doc : Type := mkDoc { fields : t; saving : bool }.

Definition loaded (e : t) : Doc := mkDoc e false.

(** The promise a [save] call returns, as it is when the call returns. *)
Inductive Promise : Type :=
  | InFlight
  | Rejected (e : error).

(** [doc.save()], the call itself. While a save of the document is in
    flight, mongoose (package.json asks for ^8.0.3) rejects the promise
    with a ParallelSaveError and does nothing else.
    Otherwise the save starts; validation and the write happen later,
    after the synchronous code that called [save] has run to its end. *)
Definition save (d : Doc) : Doc * Promise :=
  if saving d then (d, Rejected ParallelSaveError)
  else (mkDoc (fields d) true, InFlight).

(** What a started save does when it runs: schema validation of the
    document as it then is, then the middleware; the outcome is the
    document that is written. *)
Definition write (now : Time) (e : t) : outcome t :=
  if validate e then Returned (pre_save now e) else Thrown ValidationError.

(** [addTimelineEvent(event, details, updatedBy, location = null)]: the
    push, then [return this.save()]. *)
Definition addTimelineEvent (now : Time) (ev det by_ : string)
    (loc : option Point) (d : Doc) : Doc * Promise :=
  let e := fields d in
  let e' := mkEmergency (emergencyId e) (response e) (ambulance e)
              (timeline e ++ [mkEvent now ev det by_ loc]) (updatedAt e) in
  save (mkDoc e' (saving d)).

(** The [switch(newStatus)] of [updateStatus]. *)
Definition stamp (now : Time) (newStatus : Status) (r : Response) : Response :=
  match newStatus with
  | ambulance_dispatched =>
      mkResponse (status r) (Some now) (arrivalTime r) (transportTime r)
                 (hospitalArrivalTime r) (completionTime r)
  | arrived_at_scene =>
      mkResponse (status r) (dispatchTime r) (Some now) (transportTime r)
                 (hospitalArrivalTime r) (completionTime r)
  | transported =>
      mkResponse (status r) (dispatchTime r) (arrivalTime r) (Some now)
                 (hospitalArrivalTime r) (completionTime r)
  | arrived_at_hospital =>
      mkResponse (status r) (dispatchTime r) (arrivalTime r) (transportTime r)
                 (Some now) (completionTime r)
  | completed =>
      mkResponse (status r) (dispatchTime r) (arrivalTime r) (transportTime r)
                 (hospitalArrivalTime r) (Some now)
  | _ => r
  end.

(** [updateStatus(newStatus, updatedBy, details = '')]: assigns the new
    status, calls [addTimelineEvent] and drops the promise it returns,
    stamps the milestone, and returns the promise of a second
    [this.save()]. There is no check of the current status. *)
Definition updateStatus (now : Time) (newStatus : Status)
    (by_ det : string) (d : Doc) : Doc * Promise :=
  let d1 := mkDoc (with_response (with_status newStatus (response (fields d)))
                     (fields d)) (saving d) in
  let '(d2, _) := addTimelineEvent now ("Status changed to " ++ status_name newStatus)
                    det by_ None d1 in
  let d3 := mkDoc (with_response (stamp now newStatus (response (fields d2)))
                     (fields d2)) (saving d2) in
  save d3.

(** [updateAmbulanceLocation(longitude, latitude, status)] *)
Definition updateAmbulanceLocation (now : Time) (lon lat : Q) (s : string)
    (d : Doc) : Doc * Promise :=
  let e := fields d in
  save (mkDoc (mkEmergency (emergencyId e) (response e)
                 (mkAmbulanceInfo (Some (mkPoint lon lat)) s now)
                 (timeline e) (updatedAt e))
              (saving d)).

(** [await] on the promise a method returned: a rejected promise throws
    at once; a save in flight is waited for, and what it does is thrown
    or returned. *)
Definition await (now : Time) (r : Doc * Promise) : outcome Doc :=
  match snd r with
  | Rejected e => Thrown e
  | InFlight =>
      match write now (fields (fst r)) with
      | Returned e' => Returned (mkDoc e' false)
      | Thrown e => Thrown e
      end
  end.

End Emergency.

(** ** models/Hospital.js *)

Module Hospital.

Record Capacity : Type := mkCapacity {
  totalBeds : Z;
  availableBeds : Z;
  icuBeds : Z;
  availableIcuBeds : Z;
  emergencyRooms : Z;
  availableEmergencyRooms : Z;
  lastUpdated : Time
}.

Inductive TraumaLevel : Type := LevelI | LevelII | LevelIII | LevelIV | NoTrauma.

Record EmergencyServices : Type := mkServices {
  traumaLevel : TraumaLevel;
  strokeCenter : bool;
  heartAttackCenter : bool;
  burnCenter : bool;
  poisonControl : bool
}.

Record Equipment : Type := mkEquipment {
  mriMachine : bool;
  ctScan : bool;
  defibrillators : Z;
  ventilators : Z;
  bloodBank : bool
}.

Record Rating : Type := mkRating { overall : Q; emergency : Q }.

Inductive OperationalStatus : Type := Active | Inactive | Maintenance | EmergencyOnly.

Record t : Type := mkHospital {
  name : string;
  coordinates : Q * Q;            (* [longitude, latitude] *)
  capacity : Capacity;
  specialties : list string;
  emergencyServices : EmergencyServices;
  equipment : Equipment;
  rating : Rating;
  status : OperationalStatus;
  lastCapacityUpdate : Time;
  updatedAt : Time
}.

Definition with_capacity (c : Capacity) (h : t) : t :=
  mkHospital (name h) (coordinates h) c (specialties h) (emergencyServices h)
             (equipment h) (rating h) (status h) (lastCapacityUpdate h)
             (updatedAt h).

Definition with_updatedAt (now : Time) (h : t) : t :=
  mkHospital (name h) (coordinates h) (capacity h) (specialties h)
             (emergencyServices h) (equipment h) (rating h) (status h)
             (lastCapacityUpdate h) now.

Definition with_lastCapacityUpdate (now : Time) (h : t) : t :=
  mkHospital (name h) (coordinates h) (capacity h) (specialties h)
             (emergencyServices h) (equipment h) (rating h) (status h)
             now (updatedAt h).

(** Schema validators of the modelled paths: [min: 0] on the six capacity
    counters, [min: 1, max: 5] on the ratings, the coordinates validator,
    and [required] with [maxlength: 200] on the name. Mongoose runs them
    on every [save], before the pre-save middleware. *)
Definition capacity_valid (c : Capacity) : bool :=
  (0 <=? totalBeds c) && (0 <=? availableBeds c) &&
  (0 <=? icuBeds c) && (0 <=? availableIcuBeds c) &&
  (0 <=? emergencyRooms c) && (0 <=? availableEmergencyRooms c).

Definition Q_between (lo hi x : Q) : bool := Qle_bool lo x && Qle_bool x hi.

Definition coordinates_valid (v : Q * Q) : bool :=
  Q_between (-180) 180 (fst v) && Q_between (-90) 90 (snd v).

Definition rating_valid (r : Rating) : bool :=
  Q_between 1 5 (overall r) && Q_between 1 5 (emergency r).

(** [name]: [required], [maxlength: 200]. The name is held as it is after
    the [trim] setter, one character of the string for each UTF-16 code
    unit (names with code units above 255 are not represented). *)
Definition name_valid (n : string) : bool :=
  negb (String.eqb n "") && (String.length n <=? 200)%nat.

Definition validate (h : t) : bool :=
  capacity_valid (capacity h) && coordinates_valid (coordinates h) &&
  rating_valid (rating h) && name_valid (name h).

(** [hospitalSchema.pre('save')]: the three available counters are cut
    down to their capacities. *)
Definition clamp (available cap : Z) : Z :=
  if cap <? available then cap else available.

Definition pre_save (now : Time) (h : t) : t :=
  let c := capacity h in
  with_capacity
    (mkCapacity (totalBeds c) (clamp (availableBeds c) (totalBeds c))
                (icuBeds c) (clamp (availableIcuBeds c) (icuBeds c))
                (emergencyRooms c)
                (clamp (availableEmergencyRooms c) (emergencyRooms c))
                (lastUpdated c))
    (with_updatedAt now h).

(** [doc.save()]: validation, then the pre-save middleware; the outcome is
    the document that is written. *)
Definition save (now : Time) (h : t) : outcome t :=
  if validate h then Returned (pre_save now h) else Thrown ValidationError.

(** [Array.prototype.includes] on strings. *)
Definition includes (s : string) (l : list string) : bool :=
  existsb (String.eqb s) l.

(** The property names every object literal inherits; indexing the
    mapping object with one of them yields a function or an object, which
    counts as true. *)
Definition inherited_keys : list string :=
  ["constructor"; "hasOwnProperty"; "isPrototypeOf"; "propertyIsEnumerable";
   "toLocaleString"; "toString"; "valueOf"; "__proto__"; "__defineGetter__";
   "__defineSetter__"; "__lookupGetter__"; "__lookupSetter__"].

(** [canHandleEmergency(emergencyType)], as the truth value of what it
    returns: the mapping object is indexed by the type, and a key that is
    not there gives [undefined || false]. *)

Definition canHandleEmergency (h : t) (emergencyType : string) : bool :=
  let es := emergencyServices h in
  if String.eqb emergencyType "cardiac" then heartAttackCenter es
  else if String.eqb emergencyType "stroke" then strokeCenter es
  else if String.eqb emergencyType "trauma" then
    match traumaLevel es with NoTrauma => false | _ => true end
  else if String.eqb emergencyType "burns" then burnCenter es
  else if String.eqb emergencyType "poisoning" then poisonControl es
  else if String.eqb emergencyType "neurological" then
    includes "Neurology" (specialties h)
  else if String.eqb emergencyType "respiratory" then
    0 <? ventilators (equipment h)
  else if String.eqb emergencyType "childbirth" then
    includes "Maternity" (specialties h)
  else if String.eqb emergencyType "other" then true
  else includes emergencyType inherited_keys.

Definition pts (b : bool) (n : Z) : Z := if b then n else 0.

(** [calculateEmergencyScore(emergencyType, severity)] *)
Definition calculateEmergencyScore (h : t) (emergencyType severity : string) : Z :=
  let c := capacity h in
  let score := pts (0 <? availableBeds c) 30 in
  let score := score + pts (0 <? availableEmergencyRooms c) 20 in
  let score := score + pts (canHandleEmergency h emergencyType) 25 in
  let score :=
    if String.eqb severity "critical" then
      score
      + match traumaLevel (emergencyServices h) with
        | LevelI => 15 | LevelII => 10 | _ => 0
        end
      + pts (0 <? availableIcuBeds c) 10
    else score in
  let score := score + pts (ctScan (equipment h)) 5 in
  let score := score + pts (mriMachine (equipment h)) 5 in
  let score := score + pts (0 <? ventilators (equipment h)) 5 in
  Z.min score 100.

(** The argument of [updateCapacity]: an object holding any subset of the
    capacity keys. *)
Record CapacityData : Type := mkCapacityData {
  d_totalBeds : option Z;
  d_availableBeds : option Z;
  d_icuBeds : option Z;
  d_availableIcuBeds : option Z;
  d_emergencyRooms : option Z;
  d_availableEmergencyRooms : option Z
}.

Definition assign (new : option Z) (old : Z) : Z :=
  match new with Some v => v | None => old end.

(** [Object.assign(this.capacity, capacityData)] *)
Definition assign_capacity (c : Capacity) (d : CapacityData) : Capacity :=
  mkCapacity (assign (d_totalBeds d) (totalBeds c))
             (assign (d_availableBeds d) (availableBeds c))
             (assign (d_icuBeds d) (icuBeds c))
             (assign (d_availableIcuBeds d) (availableIcuBeds c))
             (assign (d_emergencyRooms d) (emergencyRooms c))
             (assign (d_availableEmergencyRooms d) (availableEmergencyRooms c))
             (lastUpdated c).

Definition with_lastUpdated (now : Time) (c : Capacity) : Capacity :=
  mkCapacity (totalBeds c) (availableBeds c) (icuBeds c) (availableIcuBeds c)
             (emergencyRooms c) (availableEmergencyRooms c) now.

(** [updateCapacity(capacityData)] *)
Definition updateCapacity (now : Time) (d : CapacityData) (h : t) : outcome t :=
  let h1 := with_capacity (with_lastUpdated now (assign_capacity (capacity h) d)) h in
  save now (with_lastCapacityUpdate now h1).

End Hospital.

(** ** [Array.prototype.sort] with a comparator

    The engine's sort is stable (ECMAScript 2019): elements the comparator
    does not separate keep their input order. A stable insertion sort has
    the same input/output behaviour for a consistent comparator. *)

Section JsSort.
Context {A : Type} (cmp : A -> A -> Z).


End JsSort.

(** ** services/hospitalService.js *)

Module HospitalService.

Import Hospital.

(** One element of [scoredHospitals]. *)
Record Scored : Type := mkScored {
  hospital : Hospital.t;
  distance : Q;
  score : Z;
  emergencyScore : Z;
  distanceScore : Q;
  capacityScore : Q
}.

(** [calculateDistanceScore(distance, maxDistance)] *)
Definition calculateDistanceScore (distance maxDistance : Q) : Q :=
  if Qle_bool maxDistance distance then 0%Q
  else Qmax 0 (100 - (distance / maxDistance * 100))%Q.

Definition qpts (b : bool) (n : Q) : Q := if b then n else 0%Q.

(** [calculateCapacityScore(hospital)]. The bed ratio divides by
    [totalBeds]; JS gives NaN or Infinity when it is 0, which [Q] does not
    have, so statements about this function are for [totalBeds <> 0]. *)
Definition calculateCapacityScore (h : Hospital.t) : Q :=
  let c := capacity h in
  let e := equipment h in
  let score := 0%Q in
  let bedUtilization := (inject_Z (availableBeds c) / inject_Z (totalBeds c))%Q in
  let score := (score + bedUtilization * 30)%Q in
  let score := (score + qpts (0 <? availableEmergencyRooms c) 25)%Q in
  let score := (score + qpts (0 <? availableIcuBeds c) 20)%Q in
  let score := (score + qpts (ctScan e) 5)%Q in
  let score := (score + qpts (mriMachine e) 5)%Q in
  let score := (score + qpts (0 <? ventilators e) 5)%Q in
  let score := (score + qpts (0 <? defibrillators e) 5)%Q in
  let score := (score + qpts (bloodBank e) 5)%Q in
  Qmin score 100.

(** [Math.round]: the nearest integer, halves upwards. *)
Definition Math_round (x : Q) : Z := Qfloor (x + (1 # 2)).


Section WithDistance.
(** [this.calculateDistance]: the ranking only consumes the number it
    returns, so it is a parameter here; the function itself is
    [Haversine.calculateDistance]. *)
Variable calculateDistance : Q -> Q -> Q -> Q -> Q.

(** The body of [hospitals.map(hospital => ...)]. *)
Definition scoreHospital (longitude latitude : Q) (emergencyType severity : string)
    (maxDistance : Q) (h : Hospital.t) : Scored :=
  let distance := calculateDistance latitude longitude
                    (snd (coordinates h)) (fst (coordinates h)) in
  let emergencyScore := calculateEmergencyScore h emergencyType severity in
  let distanceScore := calculateDistanceScore distance maxDistance in
  let capacityScore := calculateCapacityScore h in
  let finalScore := (inject_Z emergencyScore * (4 # 10)
                     + distanceScore * (3 # 10)
                     + capacityScore * (3 # 10))%Q in
  mkScored h distance (Math_round finalScore) emergencyScore distanceScore
           capacityScore.

End WithDistance.

(** What [reserveBed] returns. *)
Record Reservation : Type := mkReservation {
  hospitalName : string;
  reservedBedType : string;
  reservationTime : Time
}.

Definition is_icu_type (emergencyType : string) : bool :=
  String.eqb emergencyType "cardiac" || String.eqb emergencyType "stroke"
  || String.eqb emergencyType "trauma".

(** The two decrements of [reserveBed], on the loaded document. *)
Definition take_bed (emergencyType : string) (c : Capacity) : Capacity :=
  let c1 := mkCapacity (totalBeds c) (availableBeds c - 1) (icuBeds c)
                       (availableIcuBeds c) (emergencyRooms c)
                       (availableEmergencyRooms c) (lastUpdated c) in
  if is_icu_type emergencyType then
    if 0 <? availableIcuBeds c1 then
      mkCapacity (totalBeds c1) (availableBeds c1) (icuBeds c1)
                 (availableIcuBeds c1 - 1) (emergencyRooms c1)
                 (availableEmergencyRooms c1) (lastUpdated c1)
    else c1
  else c1.

(** [reserveBed(hospitalId, emergencyId, emergencyType)] on the hospital
    collection: the new collection and the reservation record, or the
    error that is rethrown (the collection is then as before). *)
Definition reserveBed (now : Time) (hospitals : gmap string Hospital.t)
    (hospitalId emergencyId emergencyType : string)
    : outcome (gmap string Hospital.t * Reservation) :=
  match hospitals !! hospitalId with
  | None => Thrown HospitalNotFound
  | Some h =>
      if availableBeds (capacity h) =? 0 then Thrown NoAvailableBeds
      else
        match save now (with_capacity (take_bed emergencyType (capacity h)) h) with
        | Thrown e => Thrown e
        | Returned h' =>
            Returned (<[hospitalId := h']> hospitals,
                      mkReservation (name h') "general" now)
        end
  end.

(** [updateHospitalCapacity(hospitalId, capacityData)] *)
Definition updateHospitalCapacity (now : Time) (hospitals : gmap string Hospital.t)
    (hospitalId : string) (capacityData : CapacityData)
    : outcome (gmap string Hospital.t) :=
  match hospitals !! hospitalId with
  | None => Thrown HospitalNotFound
  | Some h =>
      match updateCapacity now capacityData h with
      | Thrown e => Thrown e
      | Returned h' => Returned (<[hospitalId := h']> hospitals)
      end
  end.

End HospitalService.

(** ** services/ambulanceService.js *)

Module AmbulanceService.

Record LatLon : Type := mkLatLon { latitude : Q; longitude : Q }.

Record CurrentEmergency : Type := mkCurrentEmergency {
  ce_emergencyId : string;
  ce_location : LatLon;
  ce_severity : string;
  ce_emergencyType : string;
  ce_dispatchTime : Time
}.

(** One element of [this.ambulanceUnits]. The three optional properties
    are absent ([None]) until a dispatch or a reservation sets them and
    again after [delete]. *)
Record Unit : Type := mkUnit {
  id : string;
  unit : string;
  status : string;
  location : LatLon;
  equipment : list string;
  crew : list (string * string * string);
  currentEmergency : option CurrentEmergency;
  reservedFor : option string;
  reservationTime : option Time
}.

Definition has_id (ambulanceId : string) (u : Unit) : bool :=
  String.eqb (id u) ambulanceId.

(** [this.ambulanceUnits.find(unit => unit.id === ambulanceId)] *)
Definition find_unit (ambulanceId : string) (units : list Unit) : option Unit :=
  List.find (has_id ambulanceId) units.

(** Mutation of the object that [find] returned: the array keeps its
    shape and the first unit with the id is the one that changes. *)
Fixpoint update_found (ambulanceId : string) (f : Unit -> Unit)
    (units : list Unit) : list Unit :=
  match units with
  | [] => []
  | u :: rest =>
      if has_id ambulanceId u then f u :: rest
      else u :: update_found ambulanceId f rest
  end.

Definition with_status (s : string) (u : Unit) : Unit :=
  mkUnit (id u) (unit u) s (location u) (equipment u) (crew u)
         (currentEmergency u) (reservedFor u) (reservationTime u).

Definition with_location (l : LatLon) (u : Unit) : Unit :=
  mkUnit (id u) (unit u) (status u) l (equipment u) (crew u)
         (currentEmergency u) (reservedFor u) (reservationTime u).

(** The body of the [if (ambulance)] of [releaseAmbulance]. *)
Definition released (u : Unit) : Unit :=
  mkUnit (id u) (unit u) "available" (location u) (equipment u) (crew u)
         None None None.

(** [releaseAmbulance(ambulanceId)] *)
Definition releaseAmbulance (ambulanceId : string) (units : list Unit) : list Unit :=
  match find_unit ambulanceId units with
  | Some _ => update_found ambulanceId released units
  | None => units
  end.

(** [reserveAmbulance(ambulanceId, emergencyId)] *)
Definition reserveAmbulance (now : Time) (ambulanceId emergencyId : string)
    (units : list Unit) : outcome (list Unit) :=
  match find_unit ambulanceId units with
  | None => Thrown AmbulanceNotFound
  | Some u =>
      if negb (String.eqb (status u) "available") then Thrown AmbulanceNotAvailable
      else
        Returned (update_found ambulanceId
          (fun u => mkUnit (id u) (unit u) "reserved" (location u) (equipment u)
                           (crew u) (currentEmergency u) (Some emergencyId)
                           (Some now))
          units)
  end.

(** [updateAmbulanceStatus(ambulanceId, newStatus, location = null)] *)
Definition updateAmbulanceStatus (ambulanceId newStatus : string)
    (loc : option LatLon) (units : list Unit) : list Unit :=
  match find_unit ambulanceId units with
  | Some _ =>
      update_found ambulanceId
        (fun u => let u1 := with_status newStatus u in
                  match loc with Some l => with_location l u1 | None => u1 end)
        units
  | None => units
  end.

(** [calculateETA(distance, severity)]: distance in meters, result in
    minutes. This is the method with its arithmetic taken exact: the two
    quotients and the product are not rounded. *)
Definition calculateETA (distance : Q) (severity : string) : Z :=
  let averageSpeed : Q := 60%Q in
  let averageSpeed :=
    if String.eqb severity "critical" then 80%Q
    else if String.eqb severity "urgent" then 70%Q
    else if String.eqb severity "moderate" then 60%Q
    else averageSpeed in
  let distanceKm := (distance / 1000)%Q in
  let timeHours := (distanceKm / averageSpeed)%Q in
  let timeMinutes := Qceiling (timeHours * 60)%Q in
  Z.max (timeMinutes + 2) 5.

(** [calculateETA(distance, severity)] as the engine computes it: every
    operation rounds to the nearest double, and [Math.ceil] is applied to
    the rounded product. *)
Module Binary64.
Import Number.

Definition calculateETA (distance : number) (severity : string) : number :=
  let averageSpeed := of_Z 60 in
  let averageSpeed :=
    if String.eqb severity "critical" then of_Z 80
    else if String.eqb severity "urgent" then of_Z 70
    else if String.eqb severity "moderate" then of_Z 60
    else averageSpeed in
  let distanceKm := div distance (of_Z 1000) in
  let timeHours := div distanceKm averageSpeed in
  let timeMinutes := Math_ceil (mul timeHours (of_Z 60)) in
  Math_max (add timeMinutes (of_Z 2)) (of_Z 5).

End Binary64.

(** The assignments of [dispatchAmbulance] on the chosen unit. Its timer
    (two seconds later, [updateAmbulanceStatus(id, 'en_route')]) is a
    separate later call. *)
Definition dispatched (now : Time) (emergencyId : string) (loc : LatLon)
    (severity emergencyType : string) (u : Unit) : Unit :=
  mkUnit (id u) (unit u) "dispatched" (location u) (equipment u) (crew u)
         (Some (mkCurrentEmergency emergencyId loc severity emergencyType now))
         (reservedFor u) (reservationTime u).

(** [dispatchAmbulance(ambulance, ...)]: [ambulance] is the array element
    at position [i]. *)
Definition dispatchAmbulance (now : Time) (i : nat) (emergencyId : string)
    (loc : LatLon) (severity emergencyType : string) (units : list Unit)
    : list Unit :=
  match units !! i with
  | Some u => <[i := dispatched now emergencyId loc severity emergencyType u]> units
  | None => units
  end.

Record DispatchResult : Type := mkDispatchResult {
  success : bool;
  ambulanceId : option string;
  estimatedArrival : option Number.number
}.

Section WithDistance.
(** [this.calculateDistance]: the dispatch only consumes the number it
    returns, which may be NaN, so it is a parameter here. *)
Variable calculateDistance : Q -> Q -> Q -> Q -> Number.number.

(** The [forEach] of [findNearestAvailableAmbulance], over the units
    from position [i] on, with the current [nearest] (the position of the
    unit, [None] for [null]) and [minDistance]. A unit whose distance is
    not below [minDistance] is passed over: so is every unit whose
    distance is NaN. *)
Fixpoint nearest_from (loc : LatLon) (i : nat) (units : list Unit)
    (nearest : option nat) (minDistance : Number.number)
    : option nat * Number.number :=
  match units with
  | [] => (nearest, minDistance)
  | u :: rest =>
      if String.eqb (status u) "available" then
        let distance := calculateDistance (latitude loc) (longitude loc)
                          (latitude (location u)) (longitude (location u)) in
        if Number.lt distance minDistance then
          nearest_from loc (S i) rest (Some i) distance
        else nearest_from loc (S i) rest nearest minDistance
      else nearest_from loc (S i) rest nearest minDistance
  end.

(** [findNearestAvailableAmbulance(location)]: the position of the unit
    that is returned, [None] for [null]. *)
Definition findNearestAvailableAmbulance (loc : LatLon) (units : list Unit)
    : option nat :=
  fst (nearest_from loc 0 units None Number.Infinity).

(** [requestAmbulance(emergencyId, location, severity, emergencyType)] *)
Definition requestAmbulance (now : Time) (emergencyId : string) (loc : LatLon)
    (severity emergencyType : string) (units : list Unit)
    : list Unit * DispatchResult :=
  match findNearestAvailableAmbulance loc units with
  | None => (units, mkDispatchResult false None None)
  | Some i =>
      match units !! i with
      | None => (units, mkDispatchResult false None None)
      | Some nearestAmbulance =>
          let distance :=
            calculateDistance (latitude loc) (longitude loc)
              (latitude (location nearestAmbulance))
              (longitude (location nearestAmbulance)) in
          let estimatedArrival := Binary64.calculateETA distance severity in
          (dispatchAmbulance now i emergencyId loc severity emergencyType units,
           mkDispatchResult true (Some (id nearestAmbulance))
                            (Some estimatedArrival))
      end
  end.
End WithDistance.

End AmbulanceService.

(** ** routes/emergency.js *)

Module EmergencyRoutes.

Import Emergency.

(** The collections and the in-memory unit pool the routes work on. *)
Record State : Type := mkState {
  emergencies : gmap string Emergency.t;
  hospitals : gmap string Hospital.t;
  ambulanceUnits : list AmbulanceService.Unit
}.

Inductive HttpStatus : Type := Ok200 | BadRequest400 | NotFound404 | ServerError500.

Definition with_emergencies (es : gmap string Emergency.t) (st : State) : State :=
  mkState es (hospitals st) (ambulanceUnits st).

(** [isFloat({ min, max })] of express-validator. *)
Definition isFloat (lo hi x : Q) : bool := Qle_bool lo x && Qle_bool x hi.

(** The [location.latitude] / [location.longitude] validators that the
    submit route and the status route share. *)
Definition location_valid (latitude longitude : Q) : bool :=
  isFloat (-90) 90 latitude && isFloat (-180) 180 longitude.


(** Body of [PATCH /status/:emergencyId]; [status] has passed [isIn]. *)
Record StatusBody : Type := mkStatusBody {
  b_status : Status;
  b_updatedBy : option string;
  b_details : option string;
  b_location : option (Q * Q)        (* latitude, longitude *)
}.

Definition default {A : Type} (d : A) (o : option A) : A :=
  match o with Some a => a | None => d end.

(** JS truthiness of a number. *)
Definition truthy (x : Q) : bool := negb (Qeq_bool x 0).


(** The write of a saved emergency into the collection. *)
Definition persist (emergencyId : string) (e : Emergency.t) (st : State) : State :=
  with_emergencies (<[emergencyId := e]> (emergencies st)) st.

(** The save a handler has left in flight writes the document once it
    runs, whatever the handler has answered in the meantime. *)
Definition settle (now : Time) (emergencyId : string) (d : Doc) (st : State) : State :=
  if saving d then
    match write now (fields d) with
    | Returned e' => persist emergencyId e' st
    | Thrown _ => st
    end
  else st.

(** [PATCH /status/:emergencyId]. An error thrown by an awaited call ends
    in the [catch] block, which answers 500. The state is the one after
    the saves of the request have settled. *)
Definition patch_status (now : Time) (st : State) (emergencyId : string)
    (body : StatusBody) : HttpStatus * State :=
  let valid :=
    match b_location body with
    | Some (lat, lon) => location_valid lat lon
    | None => true
    end in
  if negb valid then (BadRequest400, st)
  else
    match emergencies st !! emergencyId with
    | None => (NotFound404, st)
    | Some e =>
        let emergency := loaded e in
        let located : outcome (Doc * State) :=
          match b_location body with
          | Some (lat, lon) =>
              if truthy lat && truthy lon then
                match await now (updateAmbulanceLocation now lon lat
                                   (status_name (b_status body)) emergency) with
                | Returned d1 => Returned (d1, persist emergencyId (fields d1) st)
                | Thrown err => Thrown err
                end
              else Returned (emergency, st)
          | None => Returned (emergency, st)
          end in
        match located with
        | Thrown _ => (ServerError500, st)
        | Returned (emergency, st1) =>
            let r := updateStatus now (b_status body)
                       (default "system" (b_updatedBy body))
                       (default "" (b_details body)) emergency in
            match await now r with
            | Thrown _ => (ServerError500, settle now emergencyId (fst r) st1)
            | Returned d2 => (Ok200, persist emergencyId (fields d2) st1)
            end
        end
    end.



End EmergencyRoutes.

(** ** [calculateDistance] (both services carry the same method) *)

Module Haversine.

Local Open Scope R_scope.

(** [toRadians(degrees)] *)
Definition toRadians (degrees : R) : R := degrees * (PI / 180).

(** [Math.atan2(y, x)]: the angle of the point [(x, y)], in (-PI, PI]. *)
Definition atan2 (y x : R) : R :=
  if Rlt_dec 0 x then atan (y / x)
  else if Rlt_dec x 0 then
    if Rle_dec 0 y then atan (y / x) + PI else atan (y / x) - PI
  else if Rlt_dec 0 y then PI / 2
  else if Rlt_dec y 0 then - (PI / 2)
  else 0.

(** The quantity [a] of the method. *)
Definition hav_a (lat1 lon1 lat2 lon2 : R) : R :=
  let dLat := toRadians (lat2 - lat1) in
  let dLon := toRadians (lon2 - lon1) in
  sin (dLat / 2) * sin (dLat / 2) +
  cos (toRadians lat1) * cos (toRadians lat2) *
  sin (dLon / 2) * sin (dLon / 2).

(** [calculateDistance(lat1, lon1, lat2, lon2)], in meters. The method has
    no [throw] and no range test: every call returns. *)
Definition calculateDistance (lat1 lon1 lat2 lon2 : R) : R :=
  let R := 6371000 in
  let a := hav_a lat1 lon1 lat2 lon2 in
  let c := 2 * atan2 (sqrt a) (sqrt (1 - a)) in
  R * c.

End Haversine.

(** The same method on double-precision numbers. The language leaves
    [Math.sin], [Math.cos] and [Math.atan2] to the implementation (their
    results are approximations), so they are the fields of an engine;
    the arithmetic and [Math.sqrt] round to nearest. *)

Module Haversine64.

Import Number.

Record Engine : Type := mkEngine {
  Math_sin : number -> number;
  Math_cos : number -> number;
  Math_atan2 : number -> number -> number
}.

(** [Math.PI], the double nearest to pi. *)
Definition Math_PI : number := SpecFloat.S754_finite false 7074237752028440 (-51).

(** [toRadians(degrees)] *)
Definition toRadians (degrees : number) : number :=
  mul degrees (div Math_PI (of_Z 180)).

Section WithEngine.
Variable engine : Engine.

(** The quantity [a] of the method. *)
Definition hav_a (lat1 lon1 lat2 lon2 : number) : number :=
  let dLat := toRadians (sub lat2 lat1) in
  let dLon := toRadians (sub lon2 lon1) in
  add (mul (Math_sin engine (div dLat (of_Z 2))) (Math_sin engine (div dLat (of_Z 2))))
      (mul (mul (mul (Math_cos engine (toRadians lat1)) (Math_cos engine (toRadians lat2)))
                (Math_sin engine (div dLon (of_Z 2))))
           (Math_sin engine (div dLon (of_Z 2)))).

(** [calculateDistance(lat1, lon1, lat2, lon2)], in meters. *)
Definition calculateDistance (lat1 lon1 lat2 lon2 : number) : number :=
  let R := of_Z 6371000 in
  let a := hav_a lat1 lon1 lat2 lon2 in
  let c := mul (of_Z 2) (Math_atan2 engine (sqrt a) (sqrt (sub (of_Z 1) a))) in
  mul R c.


Definition in_range (lo hi x : number) : bool := le lo x && le x hi.

Definition in_ranges (lat1 lon1 lat2 lon2 : number) : bool :=
  in_range (of_Z (-90)) (of_Z 90) lat1 && in_range (of_Z (-180)) (of_Z 180) lon1 &&
  in_range (of_Z (-90)) (of_Z 90) lat2 && in_range (of_Z (-180)) (of_Z 180) lon2.


End WithEngine.

(** Two points of the sphere opposite to each other: latitude 36.97 on
    the meridian 0 and latitude -36.97 on the meridian 180. *)
Definition north : number := decimal 3697 100.
Definition south : number := decimal (-3697) 100.

(** The latitude 36.97 in radians, and its sine and cosine rounded to
    nearest (0.6013967761004443 and 0.7989505101669265). *)
Definition angle : number := toRadians north.
Definition sine : number := SpecFloat.S754_finite false 5416900593495557 (-53).
Definition cosine : number := SpecFloat.S754_finite false 7196306439750476 (-53).

(** Half of [toRadians(180)]. *)
Definition quarter_turn : number := div (toRadians (of_Z 180)) (of_Z 2).

(** The number after 1: 1.0000000000000002. *)
Definition above_one : number := SpecFloat.S754_finite false 4503599627370497 (-52).

Definition same (x y : number) : bool :=
  match x, y with
  | SpecFloat.S754_zero a, SpecFloat.S754_zero b => Bool.eqb a b
  | SpecFloat.S754_infinity a, SpecFloat.S754_infinity b => Bool.eqb a b
  | SpecFloat.S754_nan, SpecFloat.S754_nan => true
  | SpecFloat.S754_finite a m e, SpecFloat.S754_finite b n f =>
      Bool.eqb a b && Pos.eqb m n && Z.eqb e f
  | _, _ => false
  end.

(** A function given by its values at finitely many arguments (NaN
    elsewhere), and an engine with the values above. *)
Fixpoint table (rows : list (number * number)) (x : number) : number :=
  match rows with
  | [] => NaN
  | (arg, value) :: rest => if same arg x then value else table rest x
  end.

Definition sample_engine : Engine :=
  mkEngine (table [(opp angle, opp sine); (quarter_turn, of_Z 1)])
           (table [(angle, cosine); (opp angle, cosine)])
           (fun _ _ => NaN).

End Haversine64.

(** ** The behaviour the specification words, for comparison *)

Module Spec.

Import Emergency.





(** The capacity score as the specification words it: the equipment
    points are capped at 20. *)
Definition capacityScore (h : Hospital.t) : Q :=
  let c := Hospital.capacity h in
  let e := Hospital.equipment h in
  let equipmentPoints :=
    (HospitalService.qpts (Hospital.ctScan e) 5
     + HospitalService.qpts (Hospital.mriMachine e) 5
     + HospitalService.qpts (0 <? Hospital.ventilators e) 5
     + HospitalService.qpts (0 <? Hospital.defibrillators e) 5
     + HospitalService.qpts (Hospital.bloodBank e) 5)%Q in
  Qmin (30 * (inject_Z (Hospital.availableBeds c) / inject_Z (Hospital.totalBeds c))
        + HospitalService.qpts (0 <? Hospital.availableEmergencyRooms c) 25
        + HospitalService.qpts (0 <? Hospital.availableIcuBeds c) 20
        + Qmin equipmentPoints 20)%Q 100.

(** The number of equipment items, out of the five the capacity score
    looks at, that a hospital has. *)
Definition equipment_items (h : Hospital.t) : Z :=
  let e := Hospital.equipment h in
  Z.b2z (Hospital.ctScan e) + Z.b2z (Hospital.mriMachine e)
  + Z.b2z (0 <? Hospital.ventilators e) + Z.b2z (0 <? Hospital.defibrillators e)
  + Z.b2z (Hospital.bloodBank e).

(** The ETA as the specification words it. *)
Definition avgSpeedKmH (severity : string) : Q :=
  if String.eqb severity "critical" then 80%Q
  else if String.eqb severity "urgent" then 70%Q
  else 60%Q.

Definition etaMinutes (d : Q) (severity : string) : Z :=
  Z.max (Qceiling ((d / 1000) / avgSpeedKmH severity * 60)%Q + 2) 5.


End Spec.

(** ** Auxiliary definitions for the statements *)

Module StatusRoute.
Import Emergency EmergencyRoutes.


End StatusRoute.

(** Sample collections for the status lifecycle. *)
Module StatusExamples.
Import Emergency EmergencyRoutes.


Definition fresh : Emergency.t :=
  mkEmergency "EMG-00000002"
    (mkResponse submitted None None None None None)
    (mkAmbulanceInfo None "dispatched" 0) [] 0.



End StatusExamples.

(** The capacity invariant, and the documents and collections it is
    stated for. *)
Module CapacityRegistry.
Import Hospital HospitalService.

Definition capacity_inv (c : Capacity) : Prop :=
  0 <= availableBeds c <= totalBeds c /\
  0 <= availableIcuBeds c <= icuBeds c /\
  0 <= availableEmergencyRooms c <= emergencyRooms c.

(** A document as [save] writes it: it passes the schema validators and
    its available counters are within their capacities. *)
Definition stored (h : Hospital.t) : Prop :=
  validate h = true /\ capacity_inv (capacity h).

(** One exposed operation on the hospital collection: a bed reservation, a
    capacity update, or the save of a document (any document, under any
    id: creation or re-save). *)
Inductive step (hs : gmap string Hospital.t) : gmap string Hospital.t -> Prop :=
  | step_reserveBed now hospitalId emergencyId emergencyType hs' r :
      reserveBed now hs hospitalId emergencyId emergencyType = Returned (hs', r) ->
      step hs hs'
  | step_updateCapacity now hospitalId capacityData hs' :
      updateHospitalCapacity now hs hospitalId capacityData = Returned hs' ->
      step hs hs'
  | step_save now hospitalId h h' :
      save now h = Returned h' ->
      step hs (<[hospitalId := h']> hs).


Definition all_stored (hs : gmap string Hospital.t) : Prop :=
  forall hospitalId h, hs !! hospitalId = Some h -> stored h.

(** A sample document: 5 of 10 beds, 1 of 2 ICU beds, 1 of 3 rooms free. *)
Definition sample : Hospital.t :=
  mkHospital "City General" ((-73986 # 1000)%Q, (40748 # 1000)%Q)
    (mkCapacity 10 5 2 1 3 1 0) ["Cardiology"; "Emergency Medicine"]
    (mkServices LevelI true true false false)
    (mkEquipment true true 4 6 true)
    (mkRating 4 4) Active 0 0.

(** The same hospital with every bed taken. *)
Definition sample_full : Hospital.t :=
  with_capacity (mkCapacity 10 0 2 0 3 0 0) sample.

Definition sample_store : gmap string Hospital.t :=
  <["H2" := sample_full]> {["H1" := sample]}.





End CapacityRegistry.

(** A cancellation after a bed reservation and a dispatch. *)
Module CancelExample.
Import EmergencyRoutes.

(** The two units the service is constructed with. *)
Definition units0 : list AmbulanceService.Unit :=
  [AmbulanceService.mkUnit "AMB001" "Unit Alpha-1" "available"
     (AmbulanceService.mkLatLon (40758 # 1000) (-739855 # 10000))
     ["AED"; "Oxygen"; "Stretcher"; "IV Kit"]
     [("John Smith", "Paramedic", "EMT-P"); ("Sarah Johnson", "EMT", "EMT-B")]
     None None None;
   AmbulanceService.mkUnit "AMB002" "Unit Beta-2" "available"
     (AmbulanceService.mkLatLon (407505 # 10000) (-739934 # 10000))
     ["AED"; "Oxygen"; "Stretcher"; "IV Kit"; "Cardiac Monitor"]
     [("Mike Wilson", "Paramedic", "EMT-P"); ("Lisa Brown", "Paramedic", "EMT-P")]
     None None None].

Definition before : State :=
  mkState {["EMG-00000002" := StatusExamples.fresh]}
          {["H1" := CapacityRegistry.sample]} units0.

(** After [reserveBed] on H1 and [dispatchAmbulance] of the first unit. *)
Definition reserved : State :=
  mkState (emergencies before)
    (match HospitalService.reserveBed 7 (hospitals before) "H1" "EMG-00000002"
             "cardiac" with
     | Returned (hs, _) => hs
     | Thrown _ => hospitals before
     end)
    (AmbulanceService.dispatchAmbulance 7 0 "EMG-00000002"
       (AmbulanceService.mkLatLon (4075 # 100) (-7399 # 100)) "critical" "cardiac"
       (ambulanceUnits before)).

Definition free_beds (st : State) (hospitalId : string) : option Z :=
  (fun h => Hospital.availableBeds (Hospital.capacity h)) <$> hospitals st !! hospitalId.


Definition unit_status (st : State) (ambulanceId : string) : option string :=
  AmbulanceService.status <$> AmbulanceService.find_unit ambulanceId (ambulanceUnits st).

End CancelExample.

(** Predicates and samples for the ranking. *)
Module Ranking.
Import HospitalService.






End Ranking.

(** ** Further code of the services and routes *)

(** Notions for the ambulance pool. *)
Module Dispatch.
Import AmbulanceService.

(** [unit.status === 'available'] *)
Definition is_available (u : Unit) : bool := String.eqb (status u) "available".

(** The number of units a dispatch can choose from. *)
Definition count_available (units : list Unit) : nat :=
  length (List.filter is_available units).

(** The reserved state [reserveAmbulance] gives a unit. *)
Definition reserved (now : Time) (emergencyId : string) (u : Unit) : Unit :=
  mkUnit (id u) (unit u) "reserved" (location u) (equipment u) (crew u)
         (currentEmergency u) (Some emergencyId) (Some now).

(** A unit without the three optional properties. *)
Definition idle (u : Unit) : Prop :=
  status u = "available" /\ currentEmergency u = None /\
  reservedFor u = None /\ reservationTime u = None.

(** One call of [requestAmbulance]. *)
Record Request : Type := mkRequest {
  r_now : Time;
  r_emergencyId : string;
  r_location : LatLon;
  r_severity : string;
  r_emergencyType : string
}.

(** A distance used in examples: the sum of the squared coordinate
    differences. *)
Definition grid_distance (lat1 lon1 lat2 lon2 : Q) : Q :=
  ((lat2 - lat1) * (lat2 - lat1) + (lon2 - lon1) * (lon2 - lon1))%Q.

(** The same as a distance method of the dispatch: in units of 1e-8,
    rounded down to an integer, as a number. *)
Definition grid_number (lat1 lon1 lat2 lon2 : Q) : Number.number :=
  Number.of_Z (Qfloor (100000000 * grid_distance lat1 lon1 lat2 lon2)%Q).

(** A distance method that returns NaN for every pair of points. *)
Definition no_distance (lat1 lon1 lat2 lon2 : Q) : Number.number := Number.NaN.

(** A caller at Times Square. *)
Definition caller : LatLon := mkLatLon (40758 # 1000) (-73985 # 1000).

Section WithDistance.
Variable calculateDistance : Q -> Q -> Q -> Q -> Number.number.

(** The distance [findNearestAvailableAmbulance] computes for a unit. *)
Definition distance_to (loc : LatLon) (u : Unit) : Number.number :=
  calculateDistance (latitude loc) (longitude loc)
    (latitude (location u)) (longitude (location u)).

(** A unit the search can choose: it is available and its distance is
    below [Infinity], that is, a number and not NaN. *)
Definition in_reach (loc : LatLon) (u : Unit) : bool :=
  is_available u && Number.lt (distance_to loc u) Number.Infinity.

(** The number of units the search can choose from. *)
Definition count_in_reach (loc : LatLon) (units : list Unit) : nat :=
  length (List.filter (in_reach loc) units).

(** What [nearest_from] holds after the units [seen]: [minDistance] is
    [Infinity] while no unit has been taken, otherwise the distance of
    the unit taken, which is available; no available unit of [seen] is
    below [minDistance]; and every available unit before the one taken
    whose distance is a number is strictly farther. *)
Definition is_nearest (loc : LatLon) (seen : list Unit)
    (nearest : option nat) (minDistance : Number.number) : Prop :=
  (forall j v, seen !! j = Some v -> is_available v = true ->
     Number.lt (distance_to loc v) minDistance = false) /\
  match nearest with
  | None => minDistance = Number.Infinity
  | Some b =>
      exists u, seen !! b = Some u /\ is_available u = true /\
        minDistance = distance_to loc u /\
        Number.lt minDistance Number.Infinity = true /\
        (forall j v, (j < b)%nat -> seen !! j = Some v -> is_available v = true ->
           Number.lt (distance_to loc v) Number.Infinity = true ->
           Number.lt minDistance (distance_to loc v) = true)
  end.

(** A series of [requestAmbulance] calls on the pool, in order. *)
Fixpoint request_all (requests : list Request) (units : list Unit)
    : list Unit * list DispatchResult :=
  match requests with
  | [] => (units, [])
  | r :: rest =>
      let '(units1, result) :=
        requestAmbulance calculateDistance (r_now r) (r_emergencyId r)
          (r_location r) (r_severity r) (r_emergencyType r) units in
      let '(units2, results) := request_all rest units1 in
      (units2, result :: results)
  end.
End WithDistance.

End Dispatch.

(** The capacity route. *)
Module HospitalQueries.
Import Hospital HospitalService.

(** The validators of [PATCH /:id/capacity]: each of the three available
    counters, when present, is an integer with [min: 0]. *)
Definition optional_min0 (v : option Z) : bool :=
  match v with Some x => 0 <=? x | None => true end.

Definition capacity_body_valid (body : CapacityData) : bool :=
  optional_min0 (d_availableBeds body) && optional_min0 (d_availableIcuBeds body)
  && optional_min0 (d_availableEmergencyRooms body).

(** [PATCH /:id/capacity]: the whole body is the capacity data; every
    error of the service, an unknown hospital included, ends in the
    [catch] block, which answers 500. *)
Definition patch_capacity (now : Time) (hospitals : gmap string Hospital.t)
    (hospitalId : string) (body : CapacityData)
    : EmergencyRoutes.HttpStatus * gmap string Hospital.t :=
  if negb (capacity_body_valid body) then (EmergencyRoutes.BadRequest400, hospitals)
  else
    match updateHospitalCapacity now hospitals hospitalId body with
    | Thrown _ => (EmergencyRoutes.ServerError500, hospitals)
    | Returned hospitals' => (EmergencyRoutes.Ok200, hospitals')
    end.

(** All values a capacity body carries are non-negative. *)
Definition body_nonneg (body : CapacityData) : bool :=
  optional_min0 (d_totalBeds body) && optional_min0 (d_availableBeds body)
  && optional_min0 (d_icuBeds body) && optional_min0 (d_availableIcuBeds body)
  && optional_min0 (d_emergencyRooms body)
  && optional_min0 (d_availableEmergencyRooms body).

End HospitalQueries.

(** ** Hospital counters as numbers

    The schema types the six capacity counters as [Number] with [min: 0]
    and nothing makes them whole numbers: a capacity update with
    [totalBeds: 2.5] is stored, and the pre-save middleware then cuts
    [availableBeds] down to 2.5. [Module Hospital] is the model on the
    documents whose counters are whole numbers. This module is the model
    on all documents: the counters are rationals, the other paths are
    those of a [Hospital.t]. Counter arithmetic is exact up to 2^53,
    which is where the statements about it stop. *)

Module HospitalNumbers.

Record Capacity : Type := mkCapacity {
  totalBeds : Q;
  availableBeds : Q;
  icuBeds : Q;
  availableIcuBeds : Q;
  emergencyRooms : Q;
  availableEmergencyRooms : Q;
  lastUpdated : Time
}.

(** A hospital document: the counters, and the other paths (the counters
    of [other] are not read). *)
Record t : Type := mkHospital { capacity : Capacity; other : Hospital.t }.

(** The document of [Module Hospital] as a document here. *)
Definition of_whole (h : Hospital.t) : t :=
  let c := Hospital.capacity h in
  mkHospital
    (mkCapacity (inject_Z (Hospital.totalBeds c)) (inject_Z (Hospital.availableBeds c))
       (inject_Z (Hospital.icuBeds c)) (inject_Z (Hospital.availableIcuBeds c))
       (inject_Z (Hospital.emergencyRooms c))
       (inject_Z (Hospital.availableEmergencyRooms c)) (Hospital.lastUpdated c))
    h.

(** [x > 0] *)
Definition positive (x : Q) : bool := negb (Qle_bool x 0).

(** The [min: 0] validators of the six counters. *)
Definition capacity_valid (c : Capacity) : bool :=
  Qle_bool 0 (totalBeds c) && Qle_bool 0 (availableBeds c) &&
  Qle_bool 0 (icuBeds c) && Qle_bool 0 (availableIcuBeds c) &&
  Qle_bool 0 (emergencyRooms c) && Qle_bool 0 (availableEmergencyRooms c).

Definition validate (h : t) : bool :=
  capacity_valid (capacity h) &&
  Hospital.coordinates_valid (Hospital.coordinates (other h)) &&
  Hospital.rating_valid (Hospital.rating (other h)) &&
  Hospital.name_valid (Hospital.name (other h)).

(** [hospitalSchema.pre('save')]: [if (available > cap) available = cap]. *)
Definition clamp (available cap : Q) : Q :=
  if negb (Qle_bool available cap) then cap else available.

Definition pre_save (now : Time) (h : t) : t :=
  let c := capacity h in
  mkHospital
    (mkCapacity (totalBeds c) (clamp (availableBeds c) (totalBeds c))
                (icuBeds c) (clamp (availableIcuBeds c) (icuBeds c))
                (emergencyRooms c)
                (clamp (availableEmergencyRooms c) (emergencyRooms c))
                (lastUpdated c))
    (Hospital.with_updatedAt now (other h)).

(** [doc.save()]: validation, then the pre-save middleware. *)
Definition save (now : Time) (h : t) : outcome t :=
  if validate h then Returned (pre_save now h) else Thrown ValidationError.

(** The two decrements of [reserveBed], on the loaded document. *)
Definition take_bed (emergencyType : string) (c : Capacity) : Capacity :=
  let c1 := mkCapacity (totalBeds c) (availableBeds c - 1) (icuBeds c)
                       (availableIcuBeds c) (emergencyRooms c)
                       (availableEmergencyRooms c) (lastUpdated c) in
  if HospitalService.is_icu_type emergencyType then
    if positive (availableIcuBeds c1) then
      mkCapacity (totalBeds c1) (availableBeds c1) (icuBeds c1)
                 (availableIcuBeds c1 - 1) (emergencyRooms c1)
                 (availableEmergencyRooms c1) (lastUpdated c1)
    else c1
  else c1.

(** [reserveBed(hospitalId, emergencyId, emergencyType)] *)
Definition reserveBed (now : Time) (hospitals : gmap string t)
    (hospitalId emergencyId emergencyType : string)
    : outcome (gmap string t * HospitalService.Reservation) :=
  match hospitals !! hospitalId with
  | None => Thrown HospitalNotFound
  | Some h =>
      if Qeq_bool (availableBeds (capacity h)) 0 then Thrown NoAvailableBeds
      else
        match save now (mkHospital (take_bed emergencyType (capacity h)) (other h)) with
        | Thrown e => Thrown e
        | Returned h' =>
            Returned (<[hospitalId := h']> hospitals,
                      HospitalService.mkReservation (Hospital.name (other h'))
                        "general" now)
        end
  end.

(** [n] calls of [reserveBed] for the same hospital, one after the other;
    the first error ends the series. *)
Fixpoint reserve_times (n : nat) (now : Time) (hospitals : gmap string t)
    (hospitalId emergencyId emergencyType : string) : outcome (gmap string t) :=
  match n with
  | O => Returned hospitals
  | S n' =>
      match reserveBed now hospitals hospitalId emergencyId emergencyType with
      | Thrown e => Thrown e
      | Returned (hospitals', _) =>
          reserve_times n' now hospitals' hospitalId emergencyId emergencyType
      end
  end.

(** The argument of [updateCapacity]: any subset of the capacity keys. *)
Record CapacityData : Type := mkCapacityData {
  d_totalBeds : option Q;
  d_availableBeds : option Q;
  d_icuBeds : option Q;
  d_availableIcuBeds : option Q;
  d_emergencyRooms : option Q;
  d_availableEmergencyRooms : option Q
}.

Definition assign (new : option Q) (old : Q) : Q :=
  match new with Some v => v | None => old end.

(** [updateCapacity(capacityData)] *)
Definition updateCapacity (now : Time) (d : CapacityData) (h : t) : outcome t :=
  let c := capacity h in
  save now
    (mkHospital
       (mkCapacity (assign (d_totalBeds d) (totalBeds c))
                   (assign (d_availableBeds d) (availableBeds c))
                   (assign (d_icuBeds d) (icuBeds c))
                   (assign (d_availableIcuBeds d) (availableIcuBeds c))
                   (assign (d_emergencyRooms d) (emergencyRooms c))
                   (assign (d_availableEmergencyRooms d) (availableEmergencyRooms c))
                   now)
       (Hospital.with_lastCapacityUpdate now (other h))).

(** [updateHospitalCapacity(hospitalId, capacityData)] *)
Definition updateHospitalCapacity (now : Time) (hospitals : gmap string t)
    (hospitalId : string) (capacityData : CapacityData) : outcome (gmap string t) :=
  match hospitals !! hospitalId with
  | None => Thrown HospitalNotFound
  | Some h =>
      match updateCapacity now capacityData h with
      | Thrown e => Thrown e
      | Returned h' => Returned (<[hospitalId := h']> hospitals)
      end
  end.

(** A whole number. *)
Definition whole (x : Q) : bool := Qeq_bool (inject_Z (Qfloor x)) x.

(** [optional().isInt({ min: 0 })] on a number of the JSON body. *)
Definition optional_isInt_min0 (v : option Q) : bool :=
  match v with Some x => whole x && Qle_bool 0 x | None => true end.

(** [PATCH /:id/capacity]: the three available counters are validated,
    the three capacities are not; the whole body goes to
    [updateHospitalCapacity], and every error ends in the [catch] block. *)
Definition patch_capacity (now : Time) (hospitals : gmap string t)
    (hospitalId : string) (body : CapacityData)
    : EmergencyRoutes.HttpStatus * gmap string t :=
  if negb (optional_isInt_min0 (d_availableBeds body)
           && optional_isInt_min0 (d_availableIcuBeds body)
           && optional_isInt_min0 (d_availableEmergencyRooms body))
  then (EmergencyRoutes.BadRequest400, hospitals)
  else
    match updateHospitalCapacity now hospitals hospitalId body with
    | Thrown _ => (EmergencyRoutes.ServerError500, hospitals)
    | Returned hospitals' => (EmergencyRoutes.Ok200, hospitals')
    end.

(** [calculateEmergencyScore(emergencyType, severity)] *)
Definition calculateEmergencyScore (h : t) (emergencyType severity : string) : Z :=
  let c := capacity h in
  let o := other h in
  let score := Hospital.pts (positive (availableBeds c)) 30 in
  let score := score + Hospital.pts (positive (availableEmergencyRooms c)) 20 in
  let score := score + Hospital.pts (Hospital.canHandleEmergency o emergencyType) 25 in
  let score :=
    if String.eqb severity "critical" then
      score
      + match Hospital.traumaLevel (Hospital.emergencyServices o) with
        | Hospital.LevelI => 15 | Hospital.LevelII => 10 | _ => 0
        end
      + Hospital.pts (positive (availableIcuBeds c)) 10
    else score in
  let score := score + Hospital.pts (Hospital.ctScan (Hospital.equipment o)) 5 in
  let score := score + Hospital.pts (Hospital.mriMachine (Hospital.equipment o)) 5 in
  let score := score + Hospital.pts (0 <? Hospital.ventilators (Hospital.equipment o)) 5 in
  Z.min score 100.

(** What [checkAvailability] returns. *)
Inductive Availability : Type :=
  | Unavailable (reason : string)
  | Available (capacity : Capacity) (estimatedWaitTime : Z) (emergencyScore : Z).

Section WithWaitTime.
(** [hospital.averageWaitTime], a path the records do not carry. *)
Variable averageWaitTime : t -> Z.

(** [checkAvailability(hospitalId, emergencyType)] *)
Definition checkAvailability (hospitals : gmap string t)
    (hospitalId emergencyType : string) : Availability :=
  match hospitals !! hospitalId with
  | None => Unavailable "Hospital not found"
  | Some hospital =>
      match Hospital.status (other hospital) with
      | Hospital.Active =>
          if Qeq_bool (availableBeds (capacity hospital)) 0 then
            Unavailable "No available beds"
          else if negb (Hospital.canHandleEmergency (other hospital) emergencyType) then
            Unavailable ("Hospital not equipped for " ++ emergencyType ++ " emergencies")
          else
            Available (capacity hospital) (averageWaitTime hospital)
              (calculateEmergencyScore hospital emergencyType "urgent")
      | _ => Unavailable "Hospital not active"
      end
  end.
End WithWaitTime.

(** A document as [save] writes it: it passes the schema validators and
    its available counters are within their capacities. *)
Definition stored (h : t) : Prop :=
  validate h = true /\
  (availableBeds (capacity h) <= totalBeds (capacity h))%Q /\
  (availableIcuBeds (capacity h) <= icuBeds (capacity h))%Q /\
  (availableEmergencyRooms (capacity h) <= emergencyRooms (capacity h))%Q.

(** The largest count up to which every whole number is a double. *)
Definition max_count : Q := 9007199254740992.

(** The counters [reserveBed] subtracts from are in the range where the
    subtraction of 1 is exact. *)
Definition countable (h : t) : Prop :=
  (availableBeds (capacity h) <= max_count)%Q /\
  (availableIcuBeds (capacity h) <= max_count)%Q.

(** A counter strictly between 0 and 1: part of a bed. *)
Definition part_of_one (x : Q) : Prop := (0 < x)%Q /\ (x < 1)%Q.

(** Whether a reservation of this type takes an ICU bed of the hospital. *)
Definition takes_icu (emergencyType : string) (h : t) : bool :=
  HospitalService.is_icu_type emergencyType && positive (availableIcuBeds (capacity h)).

(** The reservation touches no part of an ICU bed: the type takes none,
    or the ICU counter is a whole number. *)
Definition icu_counter_whole (emergencyType : string) (h : t) : Prop :=
  HospitalService.is_icu_type emergencyType = false \/
  whole (availableIcuBeds (capacity h)) = true.

Definition all_stored (hs : gmap string t) : Prop :=
  forall i h, hs !! i = Some h -> stored h.

(** A hospital with part of a bed free: the sample hospital (5 of 10 beds
    free), the collection after a capacity update with [totalBeds: 2.5],
    and after [n] reservations. *)
Definition sample_store : gmap string t := {["H1" := of_whole CapacityRegistry.sample]}.

Definition halved : gmap string t :=
  snd (patch_capacity 1 sample_store "H1"
         (mkCapacityData (Some (5 # 2)) None None None None None)).

Definition after (n : nat) : gmap string t :=
  match reserve_times n 2 halved "H1" "EMG-00000002" "other" with
  | Returned hs => hs
  | Thrown _ => halved
  end.

Definition free_beds (hs : gmap string t) (hospitalId : string) : option Q :=
  (fun h => availableBeds (capacity h)) <$> hs !! hospitalId.

End HospitalNumbers.

(** The reading route of the emergencies and series of writing requests. *)
Module EmergencyLog.
Import Emergency EmergencyRoutes.




(** A request to one of the two writing routes. *)
Inductive Request : Type :=
  | StatusRequest (body : StatusBody)
  | CancelRequest (reason cancelledBy : option string).












End EmergencyLog.

(** ** services/geocodingService.js: address components *)

Module Geocoding.

(** One element of [address_components] of a Google geocoding result. *)
Record Component : Type := mkComponent {
  types : list string;
  long_name : string;
  short_name : string
}.

(** The object [parseGoogleComponents] builds; a key that was never
    assigned is [None]. *)
Record Parsed : Type := mkParsed {
  streetNumber : option string;
  street : option string;
  city : option string;
  state : option string;
  zipCode : option string;
  country : option string
}.

Definition empty : Parsed := mkParsed None None None None None None.

(** The body of the [forEach]. *)
Definition parse_component (parsed : Parsed) (component : Component) : Parsed :=
  let types := types component in
  if Hospital.includes "street_number" types then
    mkParsed (Some (long_name component)) (street parsed) (city parsed)
             (state parsed) (zipCode parsed) (country parsed)
  else if Hospital.includes "route" types then
    mkParsed (streetNumber parsed) (Some (long_name component)) (city parsed)
             (state parsed) (zipCode parsed) (country parsed)
  else if Hospital.includes "locality" types then
    mkParsed (streetNumber parsed) (street parsed) (Some (long_name component))
             (state parsed) (zipCode parsed) (country parsed)
  else if Hospital.includes "administrative_area_level_1" types then
    mkParsed (streetNumber parsed) (street parsed) (city parsed)
             (Some (short_name component)) (zipCode parsed) (country parsed)
  else if Hospital.includes "postal_code" types then
    mkParsed (streetNumber parsed) (street parsed) (city parsed)
             (state parsed) (Some (long_name component)) (country parsed)
  else if Hospital.includes "country" types then
    mkParsed (streetNumber parsed) (street parsed) (city parsed)
             (state parsed) (zipCode parsed) (Some (long_name component))
  else parsed.

(** [parseGoogleComponents(components)] *)
Definition parseGoogleComponents (components : list Component) : Parsed :=
  fold_left parse_component components empty.

(** The six keys, and the type name that selects each. *)
Inductive Key : Type :=
  | StreetNumber | Street | City | State | ZipCode | Country.

Definition get (k : Key) (p : Parsed) : option string :=
  match k with
  | StreetNumber => streetNumber p
  | Street => street p
  | City => city p
  | State => state p
  | ZipCode => zipCode p
  | Country => country p
  end.

Definition type_name (k : Key) : string :=
  match k with
  | StreetNumber => "street_number"
  | Street => "route"
  | City => "locality"
  | State => "administrative_area_level_1"
  | ZipCode => "postal_code"
  | Country => "country"
  end.

(** The keys in the order the [if] chain tests them. *)
Definition keys : list Key := [StreetNumber; Street; City; State; ZipCode; Country].

(** The key a component is filed under: the first in the order of the
    chain whose type name is among the component's types. *)
Definition key_of (c : Component) : option Key :=
  List.find (fun k => Hospital.includes (type_name k) (types c)) keys.

Definition Key_eqb (a b : Key) : bool :=
  match a, b with
  | StreetNumber, StreetNumber | Street, Street | City, City
  | State, State | ZipCode, ZipCode | Country, Country => true
  | _, _ => false
  end.

(** What a component contributes to a key: its long name, or its short
    name for the state, when it is filed under that key. *)
Definition contribution (k : Key) (c : Component) : option string :=
  match key_of c with
  | Some k' =>
      if Key_eqb k' k then
        Some (match k with State => short_name c | _ => long_name c end)
      else None
  | None => None
  end.

End Geocoding.

(** ** routes/ambulance.js *)

Module AmbulanceRoutes.
Import AmbulanceService.

(** [PATCH /:id/status]: the status and the optional location of the body
    go to [updateAmbulanceStatus]; the answer is 200 in every case. *)
Definition patch_status (units : list Unit) (ambulanceId : string)
    (status : string) (location : option LatLon)
    : EmergencyRoutes.HttpStatus * list Unit :=
  (EmergencyRoutes.Ok200, updateAmbulanceStatus ambulanceId status location units).

End AmbulanceRoutes.
(** * Properties *)

(** ** The emergency status lifecycle *)

Section StatusLifecycle.
Import Emergency EmergencyRoutes StatusRoute.
Local Open Scope list_scope.


(** The document [updateStatus] leaves in memory, with the save that
    [addTimelineEvent] started in flight. *)
Lemma updateStatus_loaded now s by_ det e :
  exists e3,
    updateStatus now s by_ det (loaded e) = (mkDoc e3 true, Rejected ParallelSaveError) /\
    status (response e3) = s /\
    timeline e3 =
      timeline e ++ [mkEvent now ("Status changed to " ++ status_name s)%string
                       det by_ None] /\
    emergencyId e3 = emergencyId e /\
    ambulance e3 = ambulance e /\
    dispatchTime (response e3)
    = (if Status_eqb s ambulance_dispatched then Some now else dispatchTime (response e)) /\
    arrivalTime (response e3)
    = (if Status_eqb s arrived_at_scene then Some now else arrivalTime (response e)) /\
    transportTime (response e3)
    = (if Status_eqb s transported then Some now else transportTime (response e)) /\
    hospitalArrivalTime (response e3)
    = (if Status_eqb s arrived_at_hospital then Some now
       else hospitalArrivalTime (response e)) /\
    completionTime (response e3)
    = (if Status_eqb s completed then Some now else completionTime (response e)).
Proof.
  eexists. split; [reflexivity|]. destruct s; repeat split; reflexivity.
Qed.






End StatusLifecycle.





(** ** Hospital capacity: reservation and the counter invariant *)

Section Capacity.
Import Hospital HospitalService CapacityRegistry.

Lemma capacity_valid_spec c :
  capacity_valid c = true <->
  0 <= totalBeds c /\ 0 <= availableBeds c /\ 0 <= icuBeds c /\
  0 <= availableIcuBeds c /\ 0 <= emergencyRooms c /\
  0 <= availableEmergencyRooms c.
Proof.
  unfold capacity_valid. rewrite !andb_true_iff, !Z.leb_le. tauto.
Qed.

Lemma clamp_bounds available cap :
  0 <= available -> 0 <= cap -> 0 <= clamp available cap <= cap.
Proof.
  intros Ha Hc. unfold clamp. destruct (Z.ltb_spec cap available); lia.
Qed.

Lemma clamp_within available cap : available <= cap -> clamp available cap = available.
Proof.
  intros H. unfold clamp. destruct (Z.ltb_spec cap available); lia.
Qed.

(** Whatever [save] writes satisfies the validators and the invariant. *)
Lemma save_stored now h h' : save now h = Returned h' -> stored h'.
Proof.
  unfold save. destruct (validate h) eqn:Hv; [|discriminate].
  intros [= <-]. unfold validate in Hv.
  apply andb_true_iff in Hv as [Hv Hn]. apply andb_true_iff in Hv as [Hv Hr].
  apply andb_true_iff in Hv as [Hc Hco].
  pose proof (proj1 (capacity_valid_spec _) Hc) as (H1 & H2 & H3 & H4 & H5 & H6).
  pose proof (clamp_bounds _ _ H2 H1). pose proof (clamp_bounds _ _ H4 H3).
  pose proof (clamp_bounds _ _ H6 H5).
  split.
  - unfold validate. simpl. rewrite Hco, Hr, Hn, !andb_true_r.
    apply capacity_valid_spec. simpl. lia.
  - unfold capacity_inv. simpl. lia.
Qed.

(** On a stored document the middleware changes nothing but [updatedAt]. *)
Lemma save_of_valid now h :
  validate h = true ->
  availableBeds (capacity h) <= totalBeds (capacity h) ->
  availableIcuBeds (capacity h) <= icuBeds (capacity h) ->
  availableEmergencyRooms (capacity h) <= emergencyRooms (capacity h) ->
  save now h = Returned (with_updatedAt now h).
Proof.
  intros Hv H1 H2 H3. unfold save. rewrite Hv. f_equal.
  unfold pre_save. rewrite !clamp_within by assumption.
  destruct h as [n co c sp es eq ra st lc ua]. destruct c. reflexivity.
Qed.

Lemma is_icu_type_spec emergencyType :
  is_icu_type emergencyType = true <->
  emergencyType = "cardiac" \/ emergencyType = "stroke" \/ emergencyType = "trauma".
Proof.
  unfold is_icu_type. rewrite !orb_true_iff, !String.eqb_eq. tauto.
Qed.

Lemma take_bed_valid emergencyType h :
  stored h -> availableBeds (capacity h) <> 0 ->
  validate (with_capacity (take_bed emergencyType (capacity h)) h) = true.
Proof.
  intros [Hv Hi] Hne. unfold validate in *.
  apply andb_true_iff in Hv as [Hv Hn]. apply andb_true_iff in Hv as [Hv Hr].
  apply andb_true_iff in Hv as [Hc Hco].
  destruct h as [n co c sp es eq ra st lc ua]. cbn [name capacity coordinates rating with_capacity] in *.
  rewrite Hco, Hr, Hn, !andb_true_r. apply capacity_valid_spec.
  apply capacity_valid_spec in Hc. unfold capacity_inv in Hi.
  unfold take_bed. destruct (is_icu_type emergencyType); simpl;
    [destruct (Z.ltb_spec 0 (availableIcuBeds c)); simpl|]; lia.
Qed.

Lemma take_bed_fields emergencyType c :
  totalBeds (take_bed emergencyType c) = totalBeds c /\
  availableBeds (take_bed emergencyType c) = availableBeds c - 1 /\
  icuBeds (take_bed emergencyType c) = icuBeds c /\
  availableIcuBeds (take_bed emergencyType c) =
    (if is_icu_type emergencyType && (0 <? availableIcuBeds c)
     then availableIcuBeds c - 1 else availableIcuBeds c) /\
  emergencyRooms (take_bed emergencyType c) = emergencyRooms c /\
  availableEmergencyRooms (take_bed emergencyType c) = availableEmergencyRooms c.
Proof.
  unfold take_bed. destruct (is_icu_type emergencyType); simpl;
    [destruct (0 <? availableIcuBeds c); simpl|]; repeat split; reflexivity.
Qed.

Lemma reserveBed_no_bed now hospitals hospitalId emergencyId emergencyType h :
  hospitals !! hospitalId = Some h ->
  availableBeds (capacity h) = 0 ->
  reserveBed now hospitals hospitalId emergencyId emergencyType = Thrown NoAvailableBeds.
Proof. intros Hl H0. unfold reserveBed. rewrite Hl, H0. reflexivity. Qed.

Lemma reserveBed_success now hospitals hospitalId emergencyId emergencyType h :
  hospitals !! hospitalId = Some h ->
  stored h ->
  availableBeds (capacity h) <> 0 ->
  reserveBed now hospitals hospitalId emergencyId emergencyType =
  Returned
    (<[hospitalId :=
         with_updatedAt now (with_capacity (take_bed emergencyType (capacity h)) h)]>
       hospitals,
     mkReservation (name h) "general" now).
Proof.
  intros Hl Hs Hne. unfold reserveBed. rewrite Hl.
  destruct (Z.eqb_spec (availableBeds (capacity h)) 0) as [|_]; [contradiction|].
  pose proof (take_bed_valid emergencyType h Hs Hne) as Hv.
  pose proof (take_bed_fields emergencyType (capacity h)) as (F1 & F2 & F3 & F4 & F5 & F6).
  destruct Hs as [_ (B1 & B2 & B3)].
  rewrite save_of_valid; [reflexivity|exact Hv|simpl..].
  - rewrite F1, F2. lia.
  - rewrite F3, F4.
    destruct (is_icu_type emergencyType && (0 <? availableIcuBeds (capacity h))); lia.
  - rewrite F5, F6. lia.
Qed.

End Capacity.

(** C3. A hospital with part of a bed free. The sample hospital has 5 of
    10 beds free; the capacity route accepts [totalBeds: 2.5] (it
    validates the three available counters only) and the pre-save
    middleware cuts [availableBeds] down to 2.5. Two reservations succeed
    and leave 1.5 and 0.5; the third finds [availableBeds] different from
    0, decrements it to -0.5 and fails in [save] with a validation error,
    not with 'No available beds'. The three subtractions are exact in
    double precision. *)
Theorem reserveBed_fails_on_part_of_a_bed :
  let body := HospitalNumbers.mkCapacityData (Some (5 # 2)%Q) None None None None None in
  let reserve hs := HospitalNumbers.reserveBed 2 hs "H1" "EMG-00000002" "other" in
  HospitalNumbers.free_beds HospitalNumbers.sample_store "H1"
  = Some 5%Q /\
  HospitalNumbers.patch_capacity 1
    HospitalNumbers.sample_store "H1" body
  = (EmergencyRoutes.Ok200, HospitalNumbers.halved) /\
  HospitalNumbers.free_beds HospitalNumbers.halved "H1" = Some (5 # 2)%Q /\
  (exists r, reserve HospitalNumbers.halved = Returned (HospitalNumbers.after 1, r)) /\
  HospitalNumbers.free_beds (HospitalNumbers.after 1) "H1" = Some (3 # 2)%Q /\
  (exists r, reserve (HospitalNumbers.after 1) = Returned (HospitalNumbers.after 2, r)) /\
  HospitalNumbers.free_beds (HospitalNumbers.after 2) "H1" = Some (1 # 2)%Q /\
  reserve (HospitalNumbers.after 2) = Thrown ValidationError /\
  Number.sub (Number.decimal 5 2) (Number.of_Z 1) = Number.decimal 3 2 /\
  Number.sub (Number.decimal 3 2) (Number.of_Z 1) = Number.decimal 1 2 /\
  Number.lt (Number.sub (Number.decimal 1 2) (Number.of_Z 1)) (Number.of_Z 0) = true.
Proof.
  repeat split; try (eexists; vm_compute; reflexivity); vm_compute; reflexivity.
Qed.

Lemma sample_stored : CapacityRegistry.stored CapacityRegistry.sample.
Proof. split; [reflexivity|]. unfold CapacityRegistry.capacity_inv. simpl. lia. Qed.

Lemma sample_full_stored : CapacityRegistry.stored CapacityRegistry.sample_full.
Proof. split; [reflexivity|]. unfold CapacityRegistry.capacity_inv. simpl. lia. Qed.

Section Invariant.
Import Hospital HospitalService CapacityRegistry.

Lemma all_stored_insert hs hospitalId h :
  all_stored hs -> stored h -> all_stored (<[hospitalId := h]> hs).
Proof.
  intros Hall Hs i x. rewrite lookup_insert. case_decide.
  - intros [= <-]. exact Hs.
  - apply Hall.
Qed.

Lemma updateCapacity_stored now d h h' :
  updateCapacity now d h = Returned h' -> stored h'.
Proof. unfold updateCapacity. apply save_stored. Qed.

Lemma step_all_stored hs hs' : all_stored hs -> step hs hs' -> all_stored hs'.
Proof.
  intros Hall Hstep. destruct Hstep as [now i eid ty hs' r H | now i d hs' H | now i h h' H].
  - unfold reserveBed in H. destruct (hs !! i) as [h|]; [|discriminate].
    destruct (availableBeds (capacity h) =? 0); [discriminate|].
    destruct (save now _) as [h'|] eqn:Hsave; [|discriminate].
    injection H as <- _. apply all_stored_insert; [exact Hall|].
    eapply save_stored; exact Hsave.
  - unfold updateHospitalCapacity in H. destruct (hs !! i) as [h|]; [|discriminate].
    destruct (updateCapacity now d h) as [h'|] eqn:Hup; [|discriminate].
    injection H as <-. apply all_stored_insert; [exact Hall|].
    eapply updateCapacity_stored; exact Hup.
  - apply all_stored_insert; [exact Hall|]. eapply save_stored; exact H.
Qed.


End Invariant.




(** ** Cancellation *)




(** ** The ambulance pool *)

Section AmbulancePool.
Import AmbulanceService.

Lemma released_id u : id (released u) = id u.
Proof. reflexivity. Qed.

Lemma released_idem u : released (released u) = released u.
Proof. reflexivity. Qed.

Lemma find_update_found ambulanceId f units u :
  (forall v, id (f v) = id v) ->
  find_unit ambulanceId units = Some u ->
  find_unit ambulanceId (update_found ambulanceId f units) = Some (f u).
Proof.
  intros Hid. unfold find_unit. induction units as [|v rest IH]; simpl; [discriminate|].
  destruct (has_id ambulanceId v) eqn:Hv; simpl.
  - intros [= <-]. unfold has_id in *. rewrite Hid, Hv. reflexivity.
  - rewrite Hv. exact IH.
Qed.

Lemma find_update_other ambulanceId other f units :
  (forall v, id (f v) = id v) ->
  other <> ambulanceId ->
  find_unit other (update_found ambulanceId f units) = find_unit other units.
Proof.
  intros Hid Hne. unfold find_unit.
  induction units as [|v rest IH]; simpl; [reflexivity|].
  unfold has_id in *. destruct (String.eqb_spec (id v) ambulanceId) as [Hv|Hv]; simpl.
  - rewrite Hid.
    destruct (String.eqb_spec (id v) other) as [Ho|Ho]; [congruence|reflexivity].
  - rewrite IH. reflexivity.
Qed.

Lemma update_found_idem ambulanceId f units :
  (forall v, id (f v) = id v) ->
  (forall v, f (f v) = f v) ->
  update_found ambulanceId f (update_found ambulanceId f units) =
  update_found ambulanceId f units.
Proof.
  intros Hid Hff. induction units as [|v rest IH]; simpl; [reflexivity|].
  destruct (has_id ambulanceId v) eqn:Hv; simpl.
  - unfold has_id in *. rewrite Hid, Hv, Hff. reflexivity.
  - rewrite Hv, IH. reflexivity.
Qed.

Lemma update_found_length ambulanceId f units :
  length (update_found ambulanceId f units) = length units.
Proof.
  induction units as [|v rest IH]; simpl; [reflexivity|].
  destruct (has_id ambulanceId v); simpl; congruence.
Qed.

Lemma releaseAmbulance_unknown ambulanceId units :
  find_unit ambulanceId units = None -> releaseAmbulance ambulanceId units = units.
Proof. intros H. unfold releaseAmbulance. rewrite H. reflexivity. Qed.

Lemma releaseAmbulance_known ambulanceId units u :
  find_unit ambulanceId units = Some u ->
  releaseAmbulance ambulanceId units = update_found ambulanceId released units.
Proof. intros H. unfold releaseAmbulance. rewrite H. reflexivity. Qed.

Lemma releaseAmbulance_idem ambulanceId units :
  releaseAmbulance ambulanceId (releaseAmbulance ambulanceId units) =
  releaseAmbulance ambulanceId units.
Proof.
  destruct (find_unit ambulanceId units) as [u|] eqn:Hf.
  - rewrite (releaseAmbulance_known _ _ _ Hf).
    rewrite (releaseAmbulance_known _ _ (released u)).
    + apply update_found_idem; [apply released_id|apply released_idem].
    + apply find_update_found; [apply released_id|exact Hf].
  - rewrite !(releaseAmbulance_unknown _ _ Hf). reflexivity.
Qed.

End AmbulancePool.

(** C10. [releaseAmbulance] returns for every id and pool. If a unit has
    the id, that unit becomes 'available' and loses its
    [currentEmergency], [reservedFor] and [reservationTime], and keeps
    everything else; units with another id are as before. Releasing a
    second time changes nothing more. If no unit has the id, the pool is
    returned as it is. *)
Theorem releaseAmbulance_idempotent_total
    (ambulanceId : string) (units : list AmbulanceService.Unit) :
  let units' := AmbulanceService.releaseAmbulance ambulanceId units in
  (forall u, AmbulanceService.find_unit ambulanceId units = Some u ->
     exists u',
       AmbulanceService.find_unit ambulanceId units' = Some u' /\
       AmbulanceService.status u' = "available" /\
       AmbulanceService.currentEmergency u' = None /\
       AmbulanceService.reservedFor u' = None /\
       AmbulanceService.reservationTime u' = None /\
       AmbulanceService.id u' = AmbulanceService.id u /\
       AmbulanceService.unit u' = AmbulanceService.unit u /\
       AmbulanceService.location u' = AmbulanceService.location u /\
       AmbulanceService.equipment u' = AmbulanceService.equipment u /\
       AmbulanceService.crew u' = AmbulanceService.crew u) /\
  (forall other, other <> ambulanceId ->
     AmbulanceService.find_unit other units' = AmbulanceService.find_unit other units) /\
  length units' = length units /\
  AmbulanceService.releaseAmbulance ambulanceId units' = units' /\
  (AmbulanceService.find_unit ambulanceId units = None -> units' = units).
Proof.
  intros units'. subst units'. repeat split.
  - intros u Hf. exists (AmbulanceService.released u).
    rewrite (releaseAmbulance_known _ _ _ Hf).
    split; [|repeat split; reflexivity].
    apply find_update_found; [apply released_id|exact Hf].
  - intros other Hne.
    destruct (AmbulanceService.find_unit ambulanceId units) as [u|] eqn:Hf.
    + rewrite (releaseAmbulance_known _ _ _ Hf).
      apply find_update_other; [apply released_id|exact Hne].
    + rewrite (releaseAmbulance_unknown _ _ Hf). reflexivity.
  - destruct (AmbulanceService.find_unit ambulanceId units) as [u|] eqn:Hf.
    + rewrite (releaseAmbulance_known _ _ _ Hf). apply update_found_length.
    + rewrite (releaseAmbulance_unknown _ _ Hf). reflexivity.
  - apply releaseAmbulance_idem.
  - apply releaseAmbulance_unknown.
Qed.

Lemma releaseAmbulance_idempotent_total_witness :
  CancelExample.unit_status CancelExample.reserved "AMB001" = Some "dispatched" /\
  (exists u',
     AmbulanceService.find_unit "AMB001"
       (AmbulanceService.releaseAmbulance "AMB001"
          (EmergencyRoutes.ambulanceUnits CancelExample.reserved)) = Some u' /\
     AmbulanceService.status u' = "available" /\
     AmbulanceService.currentEmergency u' = None) /\
  AmbulanceService.releaseAmbulance "AMB009"
    (EmergencyRoutes.ambulanceUnits CancelExample.reserved)
  = EmergencyRoutes.ambulanceUnits CancelExample.reserved.
Proof.
  pose proof (releaseAmbulance_idempotent_total "AMB001"
                (EmergencyRoutes.ambulanceUnits CancelExample.reserved)) as H1.
  pose proof (releaseAmbulance_idempotent_total "AMB009"
                (EmergencyRoutes.ambulanceUnits CancelExample.reserved)) as H9.
  cbv zeta in H1, H9.
  destruct H1 as (Hk & _). destruct H9 as (_ & _ & _ & _ & Hu).
  split; [reflexivity|]. split.
  - destruct (Hk _ eq_refl) as (u' & Hf & Hs & Hc & _).
    exists u'. repeat split; assumption.
  - apply Hu. reflexivity.
Defined.

(** ** Ranking of the candidate hospitals *)

Section SortByScore.
Import HospitalService Ranking.







End SortByScore.




(** ** Scores and ETA *)

(** C6, counterexample. A hospital with 5 of 10 beds free, a free
    emergency room, a free ICU bed and all five equipment items scores
    15 + 25 + 20 + 25 = 85; with the equipment points capped at 20 the
    specification gives 80. *)
Lemma five_equipment_items_give_25 :
  Spec.equipment_items CapacityRegistry.sample = 5 /\
  (HospitalService.calculateCapacityScore CapacityRegistry.sample == 85)%Q /\
  (Spec.capacityScore CapacityRegistry.sample == 80)%Q /\
  ~ (HospitalService.calculateCapacityScore CapacityRegistry.sample
     == Spec.capacityScore CapacityRegistry.sample)%Q.
Proof.
  split; [reflexivity|]. split; [reflexivity|]. split; [reflexivity|].
  intros H. revert H. vm_compute. discriminate.
Qed.

(** C6, as the code has it. For a hospital with [totalBeds <> 0] the
    capacity score is 30 x (availableBeds / totalBeds), plus 25 if an
    emergency room is available, plus 20 if an ICU bed is available, plus
    5 for each of the five equipment items (CT scan, MRI, ventilators > 0,
    defibrillators > 0, blood bank), so up to 25 for the equipment, with
    no cap on the equipment part; the total is capped at 100. *)
Theorem calculateCapacityScore_formula (h : Hospital.t) :
  Hospital.totalBeds (Hospital.capacity h) <> 0 ->
  let c := Hospital.capacity h in
  (HospitalService.calculateCapacityScore h ==
   Qmin (30 * (inject_Z (Hospital.availableBeds c) / inject_Z (Hospital.totalBeds c))
         + HospitalService.qpts (0 <? Hospital.availableEmergencyRooms c) 25
         + HospitalService.qpts (0 <? Hospital.availableIcuBeds c) 20
         + inject_Z (5 * Spec.equipment_items h)) 100)%Q /\
  0 <= 5 * Spec.equipment_items h <= 25 /\
  (HospitalService.calculateCapacityScore h <= 100)%Q.
Proof.
  intros _ c. split; [|split].
  - unfold HospitalService.calculateCapacityScore, Spec.equipment_items. fold c.
    apply Q.min_compat; [|reflexivity].
    generalize (inject_Z (Hospital.availableBeds c) / inject_Z (Hospital.totalBeds c))%Q.
    intros ratio. unfold HospitalService.qpts.
    destruct (0 <? Hospital.availableEmergencyRooms c), (0 <? Hospital.availableIcuBeds c),
      (Hospital.ctScan _), (Hospital.mriMachine _),
      (0 <? Hospital.ventilators _), (0 <? Hospital.defibrillators _),
      (Hospital.bloodBank _);
      match goal with
      | |- context [inject_Z ?z] =>
          let v := eval vm_compute in (inject_Z z) in change (inject_Z z) with v
      end; ring.
  - unfold Spec.equipment_items.
    destruct (Hospital.ctScan _), (Hospital.mriMachine _),
      (0 <? Hospital.ventilators _), (0 <? Hospital.defibrillators _),
      (Hospital.bloodBank _); simpl; lia.
  - apply Q.le_min_r.
Qed.

Lemma calculateCapacityScore_formula_witness :
  (HospitalService.calculateCapacityScore CapacityRegistry.sample ==
   Qmin (30 * (inject_Z 5 / inject_Z 10) + 25 + 20 + inject_Z (5 * 5)) 100)%Q.
Proof.
  apply (calculateCapacityScore_formula CapacityRegistry.sample). discriminate.
Defined.

(** C7, at the failing input. For 31,000 m and severity moderate the
    formula of the claim gives ceil(31 / 60 x 60) + 2 = 33 minutes, and so
    does the method read in exact arithmetic. As the engine computes it,
    31000 / 1000 / 60 * 60 is a double above 31, [Math.ceil] makes it 32
    and the method returns 34. The worked example of the specification,
    10,000 m and critical, gives 10 minutes in both readings. *)
Theorem calculateETA_31km_moderate_is_34 :
  Spec.etaMinutes 31000 "moderate" = 33 /\
  AmbulanceService.calculateETA 31000 "moderate" = 33 /\
  Number.lt (Number.of_Z 31)
    (Number.mul (Number.div (Number.div (Number.of_Z 31000) (Number.of_Z 1000))
                   (Number.of_Z 60)) (Number.of_Z 60)) = true /\
  AmbulanceService.Binary64.calculateETA (Number.of_Z 31000) "moderate"
  = Number.of_Z 34 /\
  Spec.etaMinutes 10000 "critical" = 10 /\
  AmbulanceService.Binary64.calculateETA (Number.of_Z 10000) "critical"
  = Number.of_Z 10.
Proof. vm_compute. repeat split. Qed.

(** X25. With the arithmetic taken exact (the two quotients and the
    product not rounded), for every distance in meters and every severity
    [calculateETA] is ceil((d / 1000) / avgSpeedKmH x 60) + 2, at least 5,
    with an average speed of 80 km/h for critical, 70 for urgent and 60
    otherwise; for 10,000 m and critical it is 10 minutes. *)
Theorem calculateETA_formula (d : Q) (severity : string) :
  AmbulanceService.calculateETA d severity =
    Z.max (Qceiling ((d / 1000) / Spec.avgSpeedKmH severity * 60)%Q + 2) 5 /\
  (severity = "critical" -> Spec.avgSpeedKmH severity = 80%Q) /\
  (severity = "urgent" -> Spec.avgSpeedKmH severity = 70%Q) /\
  (severity <> "critical" -> severity <> "urgent" -> Spec.avgSpeedKmH severity = 60%Q) /\
  5 <= AmbulanceService.calculateETA d severity /\
  AmbulanceService.calculateETA 10000 "critical" = 10.
Proof.
  unfold AmbulanceService.calculateETA, Spec.avgSpeedKmH.
  repeat split.
  - destruct (String.eqb severity "critical"); [reflexivity|].
    destruct (String.eqb severity "urgent"); [reflexivity|].
    destruct (String.eqb severity "moderate"); reflexivity.
  - intros ->. reflexivity.
  - intros ->. reflexivity.
  - intros H1 H2.
    destruct (String.eqb_spec severity "critical"); [contradiction|].
    destruct (String.eqb_spec severity "urgent"); [contradiction|reflexivity].
  - apply Z.le_max_r.
Qed.

Lemma calculateETA_formula_witness :
  AmbulanceService.calculateETA 10000 "critical" = 10 /\
  AmbulanceService.calculateETA 7000 "urgent" = 8 /\
  AmbulanceService.calculateETA 1000 "unknown" = 5 /\
  Spec.avgSpeedKmH "unknown" = 60%Q.
Proof.
  split; [reflexivity|]. split; [reflexivity|]. split; [reflexivity|].
  apply (calculateETA_formula 1000 "unknown"); discriminate.
Defined.

(** ** The Haversine distance *)

Section HaversineProps.
Import Haversine.
Local Open Scope R_scope.

Lemma toRadians_opp d : toRadians (- d) = - toRadians d.
Proof. unfold toRadians. lra. Qed.

Lemma hav_a_sym lat1 lon1 lat2 lon2 :
  hav_a lat1 lon1 lat2 lon2 = hav_a lat2 lon2 lat1 lon1.
Proof.
  unfold hav_a.
  replace (lat1 - lat2) with (- (lat2 - lat1)) by lra.
  replace (lon1 - lon2) with (- (lon2 - lon1)) by lra.
  rewrite !toRadians_opp.
  replace (- toRadians (lat2 - lat1) / 2) with (- (toRadians (lat2 - lat1) / 2)) by lra.
  replace (- toRadians (lon2 - lon1) / 2) with (- (toRadians (lon2 - lon1) / 2)) by lra.
  rewrite !sin_neg. ring.
Qed.

Lemma hav_a_same lat lon : hav_a lat lon lat lon = 0.
Proof.
  unfold hav_a, toRadians.
  replace ((lat - lat) * (PI / 180) / 2) with 0 by lra.
  replace ((lon - lon) * (PI / 180) / 2) with 0 by lra.
  rewrite sin_0. ring.
Qed.

Lemma hav_algebra cw sw cq sq cp sp :
  sw * sw + cw * cw = 1 -> sq * sq + cq * cq = 1 -> sp * sp + cp * cp = 1 ->
  sq * sq + (cp * cq + sp * sq) * (cp * cq - sp * sq) * sw * sw =
  (sq * sq) * (cw * cw) + (cp * cp) * (sw * sw).
Proof.
  intros Hw Hq Hp.
  assert (Ecw : cw * cw = 1 - sw * sw) by lra.
  assert (Ecq : cq * cq = 1 - sq * sq) by lra.
  assert (Ecp : cp * cp = 1 - sp * sp) by lra.
  rewrite Ecw.
  replace ((cp * cq + sp * sq) * (cp * cq - sp * sq))
    with ((cp * cp) * (cq * cq) - (sp * sp) * (sq * sq)) by ring.
  rewrite Ecq, Ecp. ring.
Qed.

(** [a] written with half-sum and half-difference of the latitudes: a sum
    of two products of squares. *)
Lemma hav_a_squares lat1 lon1 lat2 lon2 :
  let p := (toRadians lat1 + toRadians lat2) / 2 in
  let q := toRadians (lat2 - lat1) / 2 in
  let w := toRadians (lon2 - lon1) / 2 in
  hav_a lat1 lon1 lat2 lon2 =
  (sin q * sin q) * (cos w * cos w) + (cos p * cos p) * (sin w * sin w).
Proof.
  intros p q w. unfold hav_a. fold q w.
  replace (toRadians lat1) with (p - q) by (unfold p, q, toRadians; lra).
  replace (toRadians lat2) with (p + q) by (unfold p, q, toRadians; lra).
  rewrite cos_minus, cos_plus.
  pose proof (sin2_cos2 p) as Hp. pose proof (sin2_cos2 q) as Hq.
  pose proof (sin2_cos2 w) as Hw. unfold Rsqr in *.
  rewrite <- (hav_algebra (cos w) (sin w) (cos q) (sin q) (cos p) (sin p) Hw Hq Hp).
  ring.
Qed.

(** Over the reals [a] is always within [0, 1], so both square roots of
    the method are taken of non-negative numbers. *)
Lemma hav_a_range lat1 lon1 lat2 lon2 : 0 <= hav_a lat1 lon1 lat2 lon2 <= 1.
Proof.
  rewrite hav_a_squares. cbv zeta.
  set (q := toRadians (lat2 - lat1) / 2). set (w := toRadians (lon2 - lon1) / 2).
  set (p := (toRadians lat1 + toRadians lat2) / 2).
  pose proof (sin2_cos2 p) as Hp. pose proof (sin2_cos2 q) as Hq.
  pose proof (sin2_cos2 w) as Hw. unfold Rsqr in *.
  pose proof (Rle_0_sqr (sin q)) as Sq. pose proof (Rle_0_sqr (cos q)) as Cq.
  pose proof (Rle_0_sqr (sin p)) as Sp. pose proof (Rle_0_sqr (cos p)) as Cp.
  pose proof (Rle_0_sqr (sin w)) as Sw. pose proof (Rle_0_sqr (cos w)) as Cw.
  unfold Rsqr in *. split; nra.
Qed.

Lemma atan2_nonneg y x : 0 <= y -> 0 <= atan2 y x.
Proof.
  intros Hy. unfold atan2.
  destruct (Rlt_dec 0 x) as [Hx|Hx].
  - destruct (Req_dec y 0) as [->|Hne].
    + unfold Rdiv. rewrite Rmult_0_l, atan_0. lra.
    + assert (0 < y / x) by (apply Rdiv_lt_0_compat; lra).
      pose proof (atan_increasing 0 (y / x) H) as Hi. rewrite atan_0 in Hi. lra.
  - destruct (Rlt_dec x 0) as [Hx'|Hx'].
    + destruct (Rle_dec 0 y) as [_|Hn]; [|contradiction].
      pose proof (atan_bound (y / x)). pose proof PI_RGT_0. lra.
    + destruct (Rlt_dec 0 y); [pose proof PI_RGT_0; lra|].
      destruct (Rlt_dec y 0); lra.
Qed.

Lemma atan2_0_1 : atan2 0 1 = 0.
Proof.
  unfold atan2. destruct (Rlt_dec 0 1) as [_|H]; [|lra].
  unfold Rdiv. rewrite Rmult_0_l. apply atan_0.
Qed.

Lemma calculateDistance_sym lat1 lon1 lat2 lon2 :
  calculateDistance lat1 lon1 lat2 lon2 = calculateDistance lat2 lon2 lat1 lon1.
Proof. unfold calculateDistance. rewrite (hav_a_sym lat1 lon1 lat2 lon2). reflexivity. Qed.

Lemma calculateDistance_nonneg lat1 lon1 lat2 lon2 :
  0 <= calculateDistance lat1 lon1 lat2 lon2.
Proof.
  unfold calculateDistance.
  pose proof (atan2_nonneg (sqrt (hav_a lat1 lon1 lat2 lon2))
                (sqrt (1 - hav_a lat1 lon1 lat2 lon2)) (sqrt_pos _)) as H.
  apply Rmult_le_pos; lra.
Qed.

Lemma calculateDistance_same lat lon : calculateDistance lat lon lat lon = 0.
Proof.
  unfold calculateDistance. rewrite hav_a_same.
  replace (1 - 0) with 1 by lra. rewrite sqrt_0, sqrt_1, atan2_0_1. ring.
Qed.

End HaversineProps.

(** X26. Over the real numbers the Haversine distance is symmetric in
    its two points, never negative, and zero from a point to itself. *)
Theorem calculateDistance_symmetric_nonnegative (latA lonA latB lonB : R) :
  Haversine.calculateDistance latA lonA latB lonB =
    Haversine.calculateDistance latB lonB latA lonA /\
  (0 <= Haversine.calculateDistance latA lonA latB lonB)%R /\
  Haversine.calculateDistance latA lonA latA lonA = 0%R.
Proof.
  split; [apply calculateDistance_sym|].
  split; [apply calculateDistance_nonneg|apply calculateDistance_same].
Qed.

Section Meridian.
Import Haversine.
Local Open Scope R_scope.

Lemma atan2_sin_cos y : 0 <= y < PI / 2 -> atan2 (sin y) (cos y) = y.
Proof.
  intros [H0 H1]. unfold atan2.
  assert (Hc : 0 < cos y) by (apply cos_gt_0; lra).
  destruct (Rlt_dec 0 (cos y)) as [_|Hn]; [|contradiction].
  change (sin y / cos y) with (tan y). apply atan_tan. lra.
Qed.

(** Along a meridian, up to half a turn, [c] is the difference of the
    latitudes in radians. *)
Lemma meridian_arc lat1 lat2 lon :
  0 <= lat2 - lat1 < 180 ->
  calculateDistance lat1 lon lat2 lon = 6371000 * toRadians (lat2 - lat1).
Proof.
  intros [H0 H1]. unfold calculateDistance, hav_a.
  replace (lon - lon) with 0 by lra.
  set (y := toRadians (lat2 - lat1) / 2).
  replace (toRadians 0 / 2) with 0 by (unfold toRadians; lra).
  rewrite sin_0.
  replace (sin y * sin y + cos (toRadians lat1) * cos (toRadians lat2) * 0 * 0)
    with (sin y * sin y) by ring.
  pose proof PI_RGT_0 as HPI.
  assert (Hy : 0 <= y < PI / 2).
  { unfold y, toRadians. split; [|nra]. apply Rmult_le_pos; [|lra].
    apply Rmult_le_pos; lra. }
  assert (Hs : 0 <= sin y) by (apply sin_ge_0; lra).
  assert (Hc : 0 < cos y) by (apply cos_gt_0; lra).
  rewrite (sqrt_square (sin y) Hs).
  replace (1 - sin y * sin y) with (cos y * cos y)
    by (pose proof (sin2_cos2 y) as E; unfold Rsqr in E; lra).
  rewrite (sqrt_square (cos y)) by lra.
  rewrite (atan2_sin_cos y Hy). unfold y. lra.
Qed.

End Meridian.


(** ** The distance in double precision *)

Section Haversine64Props.
Import Number Haversine64.

Lemma antipodes_arguments :
  div (toRadians (sub south north)) (of_Z 2) = opp angle /\
  toRadians north = angle /\
  toRadians south = opp angle /\
  div (toRadians (sub (of_Z 180) (of_Z 0))) (of_Z 2) = quarter_turn.
Proof. vm_compute. repeat split. Qed.

Lemma hav_a_antipodes engine :
  Math_sin engine (opp angle) = opp sine ->
  Math_cos engine angle = cosine ->
  Math_cos engine (opp angle) = cosine ->
  Math_sin engine quarter_turn = of_Z 1 ->
  hav_a engine north (of_Z 0) south (of_Z 180) = above_one.
Proof.
  intros Hs Hc Hc' Hq. unfold hav_a.
  destruct antipodes_arguments as (E1 & E2 & E3 & E4).
  rewrite E1, E2, E3, E4, Hs, Hc, Hc', Hq. vm_compute. reflexivity.
Qed.


End Haversine64Props.

(** C9. Between the opposite points (36.97, 0) and (-36.97, 180), both in
    range, the method returns NaN, which is neither non-negative nor
    equal to anything. With the sine and cosine of the latitude rounded
    to nearest, the sine of the quarter turn 1, and [Math.atan2] NaN on a
    NaN argument (as the language requires), the quantity [a] comes out
    as 1.0000000000000002: [1 - a] is negative and its square root is
    NaN. *)
Theorem calculateDistance_is_NaN_between_antipodes (engine : Haversine64.Engine) :
  Haversine64.Math_sin engine (Number.opp Haversine64.angle)
  = Number.opp Haversine64.sine ->
  Haversine64.Math_cos engine Haversine64.angle = Haversine64.cosine ->
  Haversine64.Math_cos engine (Number.opp Haversine64.angle) = Haversine64.cosine ->
  Haversine64.Math_sin engine Haversine64.quarter_turn = Number.of_Z 1 ->
  (forall y, Haversine64.Math_atan2 engine y Number.NaN = Number.NaN) ->
  let a :=
    Haversine64.hav_a engine Haversine64.north (Number.of_Z 0)
      Haversine64.south (Number.of_Z 180) in
  Haversine64.in_ranges Haversine64.north (Number.of_Z 0)
    Haversine64.south (Number.of_Z 180) = true /\
  a = Haversine64.above_one /\
  Number.lt (Number.of_Z 1) a = true /\
  Number.sqrt (Number.sub (Number.of_Z 1) a) = Number.NaN /\
  Haversine64.calculateDistance engine Haversine64.north (Number.of_Z 0)
    Haversine64.south (Number.of_Z 180) = Number.NaN /\
  Number.le (Number.of_Z 0)
    (Haversine64.calculateDistance engine Haversine64.north (Number.of_Z 0)
       Haversine64.south (Number.of_Z 180)) = false.
Proof.
  intros Hs Hc Hc' Hq Hn a.
  assert (Ha : a = Haversine64.above_one) by (apply hav_a_antipodes; assumption).
  assert (Hd : Haversine64.calculateDistance engine Haversine64.north (Number.of_Z 0)
                 Haversine64.south (Number.of_Z 180) = Number.NaN).
  { unfold Haversine64.calculateDistance. fold a. rewrite Ha.
    replace (Number.sqrt (Number.sub (Number.of_Z 1) Haversine64.above_one))
      with Number.NaN by (vm_compute; reflexivity).
    rewrite Hn. vm_compute. reflexivity. }
  split; [vm_compute; reflexivity|]. split; [exact Ha|].
  rewrite Hd, Ha. repeat split; vm_compute; reflexivity.
Qed.

Lemma calculateDistance_is_NaN_between_antipodes_witness :
  Haversine64.calculateDistance Haversine64.sample_engine Haversine64.north
    (Number.of_Z 0) Haversine64.south (Number.of_Z 180) = Number.NaN.
Proof.
  apply (calculateDistance_is_NaN_between_antipodes Haversine64.sample_engine);
    [vm_compute; reflexivity..|intros y; reflexivity].
Defined.





(** * Further properties of the services and routes *)

(** ** The order of numbers *)

Section NumberOrder.
Import Number.

Lemma lt_spec x y :
  lt x y = true <->
  is_NaN x = false /\ is_NaN y = false /\ key_lt (key x) (key y).
Proof.
  unfold lt, SpecFloat.SFltb, SpecFloat.SFcompare.
  destruct x as [sx|sx| |sx mx ex], y as [sy|sy| |sy my ey];
    try destruct sx; try destruct sy; cbn [is_NaN key key_lt];
    try (split; [intros H; try discriminate H; repeat split; lia
                |intros (H1 & H2 & H3); try discriminate H1; try discriminate H2;
                 try reflexivity; lia]).
  - change (Pos.compare_cont Eq mx my) with (Pos.compare mx my).
    destruct (Z.compare_spec ex ey); destruct (Pos.compare_spec mx my); cbn [CompOpp];
      (split; [intros Hc; try discriminate Hc; repeat split; lia
              |intros (_ & _ & Hk); try reflexivity; lia]).
  - change (Pos.compare_cont Eq mx my) with (Pos.compare mx my).
    destruct (Z.compare_spec ex ey); destruct (Pos.compare_spec mx my);
      (split; [intros Hc; try discriminate Hc; repeat split; lia
              |intros (_ & _ & Hk); try reflexivity; lia]).
Qed.

Lemma key_range x :
  let '(a, b, c) := key x in
  -2 <= a <= 2 /\ (a = 2 -> b = 0 /\ c = 0) /\ (a = 2 -> x = Infinity).
Proof. destruct x as [s|s| |s m e]; try destruct s; cbn [key]; repeat split; try lia; try reflexivity; intros; lia. Qed.

Lemma lt_irrefl x : lt x x = false.
Proof.
  destruct (lt x x) eqn:H; [|reflexivity].
  apply lt_spec in H as (_ & _ & H). destruct (key x) as [[a b] c].
  unfold key_lt in H. lia.
Qed.

Lemma lt_trans x y z : lt x y = true -> lt y z = true -> lt x z = true.
Proof.
  intros H1 H2. apply lt_spec in H1 as (Hx & _ & H1). apply lt_spec in H2 as (_ & Hz & H2).
  apply lt_spec. split; [exact Hx|]. split; [exact Hz|].
  destruct (key x) as [[a1 a2] a3], (key y) as [[b1 b2] b3], (key z) as [[c1 c2] c3].
  unfold key_lt in *. lia.
Qed.

Lemma lt_below x y : lt x y = true -> lt x Infinity = true.
Proof.
  intros H. apply lt_spec in H as (Hx & Hy & H). apply lt_spec.
  split; [exact Hx|]. split; [reflexivity|].
  pose proof (key_range y) as Hr.
  destruct (key x) as [[a1 a2] a3], (key y) as [[b1 b2] b3].
  cbn [key Infinity]. unfold key_lt in *. lia.
Qed.

(** [lt] decides the order of two numbers that are not NaN. *)
Lemma lt_pass w m a :
  lt w m = true -> lt a m = false -> lt a Infinity = true -> lt w a = true.
Proof.
  intros Hwm Ham Ha.
  apply lt_spec in Hwm as (Hw & Hm & Hwm). apply lt_spec in Ha as (Hna & _ & _).
  apply lt_spec. split; [exact Hw|]. split; [exact Hna|].
  assert (Hnot : ~ key_lt (key a) (key m)).
  { intros H. assert (lt a m = true) by (apply lt_spec; repeat split; assumption).
    congruence. }
  destruct (key w) as [[a1 a2] a3], (key m) as [[b1 b2] b3], (key a) as [[c1 c2] c3].
  unfold key_lt in *. lia.
Qed.

Lemma lt_Infinity_false x : lt Infinity x = false.
Proof.
  destruct (lt Infinity x) eqn:H; [|reflexivity].
  apply lt_spec in H as (_ & Hx & H). pose proof (key_range x) as Hr.
  destruct (key x) as [[b1 b2] b3]. cbn [key Infinity] in H. unfold key_lt in H. lia.
Qed.
End NumberOrder.

(** ** Choosing and dispatching a unit *)

Section DispatchProps.
Import AmbulanceService Dispatch.
Local Open Scope list_scope.
Variable calculateDistance : Q -> Q -> Q -> Q -> Number.number.

(** One round of the [forEach]. *)
Lemma is_nearest_step loc seen u nearest minDistance :
  is_nearest calculateDistance loc seen nearest minDistance ->
  is_nearest calculateDistance loc (seen ++ [u])
    (if is_available u then
       if Number.lt (distance_to calculateDistance loc u) minDistance
       then Some (length seen) else nearest
     else nearest)
    (if is_available u then
       if Number.lt (distance_to calculateDistance loc u) minDistance
       then distance_to calculateDistance loc u else minDistance
     else minDistance).
Proof.
  intros [Hmin Hbest].
  assert (Hlast : (seen ++ [u]) !! length seen = Some u).
  { rewrite lookup_app_r by lia. rewrite Nat.sub_diag. reflexivity. }
  assert (Hsplit : forall j v, (seen ++ [u]) !! j = Some v ->
            seen !! j = Some v \/ (j = length seen /\ v = u)).
  { intros j v Hj. destruct (decide (j < length seen)%nat) as [Hlt|Hge].
    - left. rewrite lookup_app_l in Hj by exact Hlt. exact Hj.
    - right. rewrite lookup_app_r in Hj by lia.
      destruct (j - length seen)%nat eqn:E; simpl in Hj; [|discriminate].
      injection Hj as <-. split; [lia|reflexivity]. }
  assert (Hkeep : match nearest with
                  | None => minDistance = Number.Infinity
                  | Some b =>
                      exists w, (seen ++ [u]) !! b = Some w /\ is_available w = true /\
                        minDistance = distance_to calculateDistance loc w /\
                        Number.lt minDistance Number.Infinity = true /\
                        (forall j v, (j < b)%nat -> (seen ++ [u]) !! j = Some v ->
                           is_available v = true ->
                           Number.lt (distance_to calculateDistance loc v)
                             Number.Infinity = true ->
                           Number.lt minDistance (distance_to calculateDistance loc v)
                           = true)
                  end).
  { destruct nearest as [b|]; [|exact Hbest].
    destruct Hbest as (w & Hw & Haw & Hd & Hinf & Hfirst).
    exists w. split; [apply lookup_app_l_Some; exact Hw|].
    split; [exact Haw|]. split; [exact Hd|]. split; [exact Hinf|].
    intros j v Hjb Hj Hv Hvi. destruct (Hsplit j v Hj) as [Hs|[-> _]];
      [eapply Hfirst; eassumption|].
    apply lookup_lt_Some in Hw. lia. }
  destruct (is_available u) eqn:Hu.
  - destruct (Number.lt (distance_to calculateDistance loc u) minDistance) eqn:Hlt.
    + split.
      * intros j v Hj Hv. destruct (Hsplit j v Hj) as [Hs|[_ ->]];
          [|apply lt_irrefl].
        destruct (Number.lt (distance_to calculateDistance loc v)
                    (distance_to calculateDistance loc u)) eqn:Hvu; [|reflexivity].
        rewrite <- (Hmin j v Hs Hv). symmetry. eapply lt_trans; eassumption.
      * exists u. split; [exact Hlast|]. split; [exact Hu|].
        split; [reflexivity|]. split; [eapply lt_below; exact Hlt|].
        intros j v Hjb Hj Hv Hvi. destruct (Hsplit j v Hj) as [Hs|[-> _]]; [|lia].
        eapply lt_pass; [exact Hlt| |exact Hvi]. eapply Hmin; eassumption.
    + split; [|exact Hkeep].
      intros j v Hj Hv. destruct (Hsplit j v Hj) as [Hs|[_ ->]];
        [eapply Hmin; eassumption|exact Hlt].
  - split; [|exact Hkeep].
    intros j v Hj Hv. destruct (Hsplit j v Hj) as [Hs|[_ ->]];
      [eapply Hmin; eassumption|congruence].
Qed.

Lemma nearest_from_spec loc rest : forall seen nearest minDistance,
  is_nearest calculateDistance loc seen nearest minDistance ->
  is_nearest calculateDistance loc (seen ++ rest)
    (fst (nearest_from calculateDistance loc (length seen) rest nearest minDistance))
    (snd (nearest_from calculateDistance loc (length seen) rest nearest minDistance)).
Proof.
  induction rest as [|u rest IH]; intros seen nearest minDistance Hbest; simpl.
  - rewrite app_nil_r. exact Hbest.
  - replace (seen ++ u :: rest) with ((seen ++ [u]) ++ rest)
      by (rewrite <- app_assoc; reflexivity).
    replace (S (length seen)) with (length (seen ++ [u]))
      by (rewrite length_app; simpl; lia).
    pose proof (is_nearest_step loc seen u nearest minDistance Hbest) as Hstep.
    unfold is_available, distance_to in Hstep.
    destruct (String.eqb (status u) "available"); [|apply IH; exact Hstep].
    destruct (Number.lt _ minDistance); apply IH; exact Hstep.
Qed.

Lemma nearest_from_start loc units :
  is_nearest calculateDistance loc units
    (fst (nearest_from calculateDistance loc 0 units None Number.Infinity))
    (snd (nearest_from calculateDistance loc 0 units None Number.Infinity)).
Proof.
  apply (nearest_from_spec loc units [] None Number.Infinity).
  split; [|reflexivity]. intros j v Hj. discriminate.
Qed.

Lemma is_available_true u : is_available u = true <-> status u = "available".
Proof. unfold is_available. apply String.eqb_eq. Qed.

Lemma count_available_insert units : forall i u v,
  units !! i = Some u ->
  (count_available (<[i := v]> units) + (if is_available u then 1 else 0)
   = count_available units + (if is_available v then 1 else 0))%nat.
Proof.
  unfold count_available.
  induction units as [|w units IH]; intros i u v Hi; [discriminate|].
  destruct i as [|i]; simpl in *.
  - injection Hi as ->. destruct (is_available u), (is_available v); simpl; lia.
  - specialize (IH i u v Hi). destruct (is_available w); simpl; lia.
Qed.

Lemma count_zero (f : Unit -> bool) units :
  length (List.filter f units) = 0%nat <->
  (forall j v, units !! j = Some v -> f v = false).
Proof.
  induction units as [|w units IH]; simpl.
  - split; [intros _ j v Hj; discriminate|reflexivity].
  - split.
    + intros H j v Hj. destruct (f w) eqn:Hw; [discriminate|].
      destruct j as [|j]; simpl in Hj; [congruence|].
      eapply (proj1 IH); eassumption.
    + intros H. rewrite (H 0%nat w eq_refl). apply IH.
      intros j v Hj. apply (H (S j) v Hj).
Qed.

(** The two ways [requestAmbulance] ends. *)
Lemma requestAmbulance_cases now emergencyId loc severity emergencyType units :
  (count_in_reach calculateDistance loc units = 0%nat /\
   findNearestAvailableAmbulance calculateDistance loc units = None /\
   requestAmbulance calculateDistance now emergencyId loc severity emergencyType units
   = (units, mkDispatchResult false None None)) \/
  (exists i u,
     units !! i = Some u /\ is_available u = true /\
     Number.lt (distance_to calculateDistance loc u) Number.Infinity = true /\
     (forall j v, units !! j = Some v -> is_available v = true ->
        Number.lt (distance_to calculateDistance loc v)
          (distance_to calculateDistance loc u) = false) /\
     (forall j v, (j < i)%nat -> units !! j = Some v -> is_available v = true ->
        Number.lt (distance_to calculateDistance loc v) Number.Infinity = true ->
        Number.lt (distance_to calculateDistance loc u)
          (distance_to calculateDistance loc v) = true) /\
     findNearestAvailableAmbulance calculateDistance loc units = Some i /\
     requestAmbulance calculateDistance now emergencyId loc severity emergencyType units
     = (<[i := dispatched now emergencyId loc severity emergencyType u]> units,
        mkDispatchResult true (Some (id u))
          (Some (Binary64.calculateETA (distance_to calculateDistance loc u) severity)))).
Proof.
  pose proof (nearest_from_start loc units) as [Hmin Hbest].
  unfold requestAmbulance, findNearestAvailableAmbulance.
  destruct (nearest_from calculateDistance loc 0 units None Number.Infinity)
    as [[i|] d]; cbn [fst snd] in *.
  - right. destruct Hbest as (u & Hu & Ha & -> & Hinf & Hfirst).
    exists i, u. rewrite Hu. unfold dispatchAmbulance. rewrite Hu.
    repeat split; assumption.
  - left. subst d. split; [|split; reflexivity].
    apply count_zero. intros j v Hj. unfold in_reach.
    destruct (is_available v) eqn:Hv; [|reflexivity].
    rewrite (Hmin j v Hj Hv). reflexivity.
Qed.

End DispatchProps.

(** X1. [findNearestAvailableAmbulance] returns null exactly when no
    available unit has a distance below [Infinity]: when none is
    available, and also when the distance method yields NaN for every
    available unit. Otherwise the unit it returns is available and its
    distance is below [Infinity]; no available unit has a smaller
    distance; and every available unit before it in the array whose
    distance is below [Infinity] is strictly farther: of several nearest
    units the first is taken. *)
Theorem findNearestAvailableAmbulance_picks_first_nearest
    (calculateDistance : Q -> Q -> Q -> Q -> Number.number)
    (loc : AmbulanceService.LatLon) (units : list AmbulanceService.Unit) :
  match AmbulanceService.findNearestAvailableAmbulance calculateDistance loc units with
  | None =>
      forall j v, units !! j = Some v -> AmbulanceService.status v = "available" ->
        Number.lt (Dispatch.distance_to calculateDistance loc v) Number.Infinity = false
  | Some i =>
      exists u,
        units !! i = Some u /\ AmbulanceService.status u = "available" /\
        Number.lt (Dispatch.distance_to calculateDistance loc u) Number.Infinity = true /\
        (forall j v, units !! j = Some v -> AmbulanceService.status v = "available" ->
           Number.lt (Dispatch.distance_to calculateDistance loc v)
             (Dispatch.distance_to calculateDistance loc u) = false) /\
        (forall j v, (j < i)%nat -> units !! j = Some v ->
           AmbulanceService.status v = "available" ->
           Number.lt (Dispatch.distance_to calculateDistance loc v) Number.Infinity = true ->
           Number.lt (Dispatch.distance_to calculateDistance loc u)
             (Dispatch.distance_to calculateDistance loc v) = true)
  end.
Proof.
  pose proof (nearest_from_start calculateDistance loc units) as [Hmin Hbest].
  unfold AmbulanceService.findNearestAvailableAmbulance.
  destruct (AmbulanceService.nearest_from calculateDistance loc 0 units None
              Number.Infinity) as [[i|] d]; cbn [fst snd] in *.
  - destruct Hbest as (u & Hu & Ha & -> & Hinf & Hfirst).
    exists u. split; [exact Hu|]. split; [apply is_available_true; exact Ha|].
    split; [exact Hinf|]. split.
    + intros j v Hj Hv. apply (Hmin j v Hj). apply is_available_true. exact Hv.
    + intros j v Hji Hj Hv. apply (Hfirst j v Hji Hj). apply is_available_true. exact Hv.
  - subst d. intros j v Hj Hv. apply (Hmin j v Hj). apply is_available_true. exact Hv.
Qed.

Lemma findNearestAvailableAmbulance_picks_first_nearest_witness :
  AmbulanceService.findNearestAvailableAmbulance Dispatch.grid_number
    Dispatch.caller CancelExample.units0 = Some 0%nat /\
  AmbulanceService.findNearestAvailableAmbulance Dispatch.grid_number
    Dispatch.caller
    (EmergencyRoutes.ambulanceUnits CancelExample.reserved) = Some 1%nat /\
  AmbulanceService.findNearestAvailableAmbulance Dispatch.no_distance
    Dispatch.caller CancelExample.units0 = None /\
  exists u,
    CancelExample.units0 !! 0%nat = Some u /\
    AmbulanceService.status u = "available".
Proof.
  split; [vm_compute; reflexivity|]. split; [vm_compute; reflexivity|].
  split; [vm_compute; reflexivity|].
  pose proof (findNearestAvailableAmbulance_picks_first_nearest Dispatch.grid_number
                Dispatch.caller CancelExample.units0) as H.
  replace (AmbulanceService.findNearestAvailableAmbulance Dispatch.grid_number
            Dispatch.caller CancelExample.units0) with (Some 0%nat) in H
    by (vm_compute; reflexivity).
  destruct H as (u & Hu & Ha & _). exists u. split; assumption.
Defined.

(** The outcome of one request, for the statements below. *)
Lemma requestAmbulance_outcome
    (calculateDistance : Q -> Q -> Q -> Q -> Number.number)
    (now : Time) (emergencyId : string)
    (loc : AmbulanceService.LatLon) (severity emergencyType : string)
    (units : list AmbulanceService.Unit) :
  let r := AmbulanceService.requestAmbulance calculateDistance now emergencyId loc
             severity emergencyType units in
  (AmbulanceService.success (snd r) = false /\
   Dispatch.count_in_reach calculateDistance loc units = 0%nat /\ fst r = units) \/
  (AmbulanceService.success (snd r) = true /\
   exists i u,
     units !! i = Some u /\ AmbulanceService.status u = "available" /\
     Number.lt (Dispatch.distance_to calculateDistance loc u) Number.Infinity = true /\
     AmbulanceService.findNearestAvailableAmbulance calculateDistance loc units = Some i /\
     fst r = <[i := AmbulanceService.dispatched now emergencyId loc severity
                      emergencyType u]> units /\
     AmbulanceService.ambulanceId (snd r) = Some (AmbulanceService.id u) /\
     AmbulanceService.estimatedArrival (snd r) =
       Some (AmbulanceService.Binary64.calculateETA
               (Dispatch.distance_to calculateDistance loc u) severity) /\
     (Dispatch.count_available (fst r) + 1 = Dispatch.count_available units)%nat).
Proof.
  intros r. subst r.
  destruct (requestAmbulance_cases calculateDistance now emergencyId loc severity
              emergencyType units)
    as [(H0 & _ & ->) | (i & u & Hu & Ha & Hinf & _ & _ & Hf & ->)].
  - left. repeat split; assumption.
  - right. split; [reflexivity|]. exists i, u. cbn [fst snd].
    split; [exact Hu|]. split; [apply is_available_true; exact Ha|].
    split; [exact Hinf|].
    split; [exact Hf|]. split; [reflexivity|]. split; [reflexivity|].
    split; [reflexivity|].
    pose proof (count_available_insert units i u
                  (AmbulanceService.dispatched now emergencyId loc severity
                     emergencyType u) Hu) as Hc.
    rewrite Ha in Hc. simpl in Hc. lia.
Qed.

(** X2. [requestAmbulance] either finds no available unit with a
    distance below [Infinity], and then reports failure and leaves the
    pool as it is, or it succeeds: the unit it names was available, its
    distance is a number, it is the one [findNearestAvailableAmbulance]
    returns, it becomes 'dispatched' and carries the emergency, its ETA is
    [calculateETA] of the distance to it, in double precision, no other
    position of the pool changes, and the number of available units goes
    down by exactly one. *)
Theorem requestAmbulance_takes_one_available_unit
    (calculateDistance : Q -> Q -> Q -> Q -> Number.number)
    (now : Time) (emergencyId : string)
    (loc : AmbulanceService.LatLon) (severity emergencyType : string)
    (units : list AmbulanceService.Unit) :
  let r := AmbulanceService.requestAmbulance calculateDistance now emergencyId loc
             severity emergencyType units in
  (AmbulanceService.success (snd r) = false /\
   Dispatch.count_in_reach calculateDistance loc units = 0%nat /\ fst r = units) \/
  (AmbulanceService.success (snd r) = true /\
   exists i u,
     units !! i = Some u /\ AmbulanceService.status u = "available" /\
     Number.lt (Dispatch.distance_to calculateDistance loc u) Number.Infinity = true /\
     AmbulanceService.findNearestAvailableAmbulance calculateDistance loc units = Some i /\
     fst r = <[i := AmbulanceService.dispatched now emergencyId loc severity
                      emergencyType u]> units /\
     AmbulanceService.ambulanceId (snd r) = Some (AmbulanceService.id u) /\
     AmbulanceService.estimatedArrival (snd r) =
       Some (AmbulanceService.Binary64.calculateETA
               (Dispatch.distance_to calculateDistance loc u) severity) /\
     (Dispatch.count_available (fst r) + 1 = Dispatch.count_available units)%nat).
Proof.
  exact (requestAmbulance_outcome calculateDistance now emergencyId loc severity
           emergencyType units).
Qed.

Lemma request_all_cons (calculateDistance : Q -> Q -> Q -> Q -> Number.number)
    (r : Dispatch.Request) (rest : list Dispatch.Request)
    (units : list AmbulanceService.Unit) :
  Dispatch.request_all calculateDistance (r :: rest) units =
  (fst (Dispatch.request_all calculateDistance rest
          (fst (AmbulanceService.requestAmbulance calculateDistance (Dispatch.r_now r)
                  (Dispatch.r_emergencyId r) (Dispatch.r_location r)
                  (Dispatch.r_severity r) (Dispatch.r_emergencyType r) units))),
   snd (AmbulanceService.requestAmbulance calculateDistance (Dispatch.r_now r)
          (Dispatch.r_emergencyId r) (Dispatch.r_location r)
          (Dispatch.r_severity r) (Dispatch.r_emergencyType r) units)
   :: snd (Dispatch.request_all calculateDistance rest
             (fst (AmbulanceService.requestAmbulance calculateDistance (Dispatch.r_now r)
                     (Dispatch.r_emergencyId r) (Dispatch.r_location r)
                     (Dispatch.r_severity r) (Dispatch.r_emergencyType r) units)))).
Proof.
  simpl. destruct (AmbulanceService.requestAmbulance _ _ _ _ _ _ _) as [units1 result].
  simpl. destruct (Dispatch.request_all _ rest units1). reflexivity.
Qed.

(** When every distance is a number, the units in reach are the
    available ones. *)
Lemma count_in_reach_available
    (calculateDistance : Q -> Q -> Q -> Q -> Number.number)
    (loc : AmbulanceService.LatLon) (units : list AmbulanceService.Unit) :
  (forall j u, units !! j = Some u ->
     Number.lt (Dispatch.distance_to calculateDistance loc u) Number.Infinity = true) ->
  Dispatch.count_in_reach calculateDistance loc units = Dispatch.count_available units.
Proof.
  unfold Dispatch.count_in_reach, Dispatch.count_available.
  induction units as [|w units IH]; intros H; [reflexivity|].
  specialize (IH (fun j u Hj => H (S j) u Hj)).
  simpl. unfold Dispatch.in_reach at 1. rewrite (H 0%nat w eq_refl), andb_true_r.
  destruct (Dispatch.is_available w); simpl; rewrite IH; reflexivity.
Qed.

(** X3. A unit is never assigned twice. When the distance is below
    [Infinity] (so not NaN) for every request and unit, then of
    a series of dispatch requests on a pool with k available units (and
    no release in between), exactly the first k succeed and all later
    ones fail; the pool keeps its size and ends with k minus the number
    of requests available units (0 if there were more requests). *)
Theorem request_all_serves_as_many_as_available
    (calculateDistance : Q -> Q -> Q -> Q -> Number.number)
    (requests : list Dispatch.Request) (units : list AmbulanceService.Unit) :
  (forall q j u, In q requests -> units !! j = Some u ->
     Number.lt (Dispatch.distance_to calculateDistance (Dispatch.r_location q) u)
       Number.Infinity = true) ->
  let r := Dispatch.request_all calculateDistance requests units in
  map AmbulanceService.success (snd r) =
    map (fun j => (j <? Dispatch.count_available units)%nat)
        (seq 0 (length requests)) /\
  Dispatch.count_available (fst r) =
    (Dispatch.count_available units - length requests)%nat /\
  length (fst r) = length units.
Proof.
  cbv zeta. revert units.
  induction requests as [|q requests IH]; intros units Hnum.
  - simpl. repeat split. lia.
  - rewrite request_all_cons. cbn [fst snd length].
    pose proof (requestAmbulance_outcome calculateDistance
                  (Dispatch.r_now q) (Dispatch.r_emergencyId q) (Dispatch.r_location q)
                  (Dispatch.r_severity q) (Dispatch.r_emergencyType q) units) as H.
    cbv zeta in H.
    set (r1 := AmbulanceService.requestAmbulance calculateDistance (Dispatch.r_now q)
                 (Dispatch.r_emergencyId q) (Dispatch.r_location q)
                 (Dispatch.r_severity q) (Dispatch.r_emergencyType q) units) in *.
    assert (Hnum1 : forall q' j u, In q' requests -> fst r1 !! j = Some u ->
              Number.lt (Dispatch.distance_to calculateDistance
                           (Dispatch.r_location q') u) Number.Infinity = true).
    { intros q' j u' Hq' Hj.
      destruct H as [(_ & _ & Hu) | (_ & i & u & Hi & _ & _ & _ & Hu & _)];
        rewrite Hu in Hj.
      - apply (Hnum q' j u' (or_intror Hq') Hj).
      - apply list_lookup_insert_Some in Hj as [(_ & <- & _) | (_ & Hj)].
        + apply (Hnum q' i u (or_intror Hq') Hi).
        + apply (Hnum q' j u' (or_intror Hq') Hj). }
    destruct (IH (fst r1) Hnum1) as (IHs & IHc & IHl).
    rewrite IHc, IHl. simpl map. rewrite IHs. rewrite <- seq_shift, map_map.
    destruct H as [(Hs & H0 & Hu) | (Hs & i & u & Hi & _ & _ & _ & Hu & _ & _ & Hc)].
    + rewrite (count_in_reach_available calculateDistance (Dispatch.r_location q) units)
        in H0 by (intros j u Hj; apply (Hnum q j u (or_introl eq_refl) Hj)).
      rewrite Hs, Hu, H0. repeat split.
    + rewrite Hs. split; [|split].
      * f_equal.
        -- symmetry. apply Nat.ltb_lt. lia.
        -- apply map_ext. intros j.
           destruct (Nat.ltb_spec j (Dispatch.count_available (fst r1)));
             destruct (Nat.ltb_spec (S j) (Dispatch.count_available units));
             try reflexivity; lia.
      * lia.
      * rewrite Hu. apply length_insert.
Qed.

Lemma request_all_serves_as_many_as_available_witness :
  map AmbulanceService.success
    (snd (Dispatch.request_all Dispatch.grid_number
            [Dispatch.mkRequest 1 "EMG-1" Dispatch.caller "critical" "cardiac";
             Dispatch.mkRequest 2 "EMG-2" Dispatch.caller "urgent" "stroke";
             Dispatch.mkRequest 3 "EMG-3" Dispatch.caller "moderate" "other"]
            CancelExample.units0))
  = [true; true; false].
Proof.
  destruct (request_all_serves_as_many_as_available Dispatch.grid_number
              [Dispatch.mkRequest 1 "EMG-1" Dispatch.caller "critical" "cardiac";
               Dispatch.mkRequest 2 "EMG-2" Dispatch.caller "urgent" "stroke";
               Dispatch.mkRequest 3 "EMG-3" Dispatch.caller "moderate" "other"]
              CancelExample.units0) as (Hs & _).
  - intros q j u Hq Hj.
    destruct Hq as [<-|[<-|[<-|[]]]];
      (destruct j as [|[|j]]; [| |discriminate Hj]; injection Hj as <-;
       vm_compute; reflexivity).
  - cbv zeta in Hs. rewrite Hs. vm_compute. reflexivity.
Defined.

(** ** Reserving and releasing a unit *)

Section ReserveRelease.
Import AmbulanceService Dispatch.
Local Open Scope list_scope.

Lemma reserved_id now emergencyId u : id (reserved now emergencyId u) = id u.
Proof. reflexivity. Qed.

Lemma reserveAmbulance_success now ambulanceId emergencyId units u :
  find_unit ambulanceId units = Some u ->
  status u = "available" ->
  reserveAmbulance now ambulanceId emergencyId units =
  Returned (update_found ambulanceId (reserved now emergencyId) units).
Proof.
  intros Hf Hs. unfold reserveAmbulance. rewrite Hf, Hs. reflexivity.
Qed.

Lemma update_found_twice ambulanceId f g units :
  (forall v, id (f v) = id v) ->
  update_found ambulanceId g (update_found ambulanceId f units) =
  update_found ambulanceId (fun v => g (f v)) units.
Proof.
  intros Hid. induction units as [|v rest IH]; simpl; [reflexivity|].
  destruct (has_id ambulanceId v) eqn:Hv; simpl.
  - unfold has_id in *. rewrite Hid, Hv. reflexivity.
  - rewrite Hv, IH. reflexivity.
Qed.

Lemma update_found_id ambulanceId f units u :
  find_unit ambulanceId units = Some u ->
  f u = u ->
  update_found ambulanceId f units = units.
Proof.
  unfold find_unit. induction units as [|v rest IH]; simpl; [discriminate|].
  destruct (has_id ambulanceId v) eqn:Hv.
  - intros [= ->] Hf. rewrite Hf. reflexivity.
  - intros Hfind Hf. rewrite IH by assumption. reflexivity.
Qed.

Lemma find_unit_id ambulanceId units u :
  find_unit ambulanceId units = Some u -> id u = ambulanceId.
Proof.
  unfold find_unit. intros H. apply find_some in H as [_ H].
  unfold has_id in H. apply String.eqb_eq in H. exact H.
Qed.

Lemma released_undoes u (f : Unit -> Unit) :
  idle u ->
  id (f u) = id u -> unit (f u) = unit u -> location (f u) = location u ->
  equipment (f u) = equipment u -> crew (f u) = crew u ->
  released (f u) = u.
Proof.
  intros (Hs & Hc & Hr & Ht) H1 H2 H3 H4 H5. unfold released.
  rewrite H1, H2, H3, H4, H5. destruct u; simpl in *. congruence.
Qed.

(** With distinct ids the first unit with the id of position [i] is the
    one at position [i]. *)
Lemma find_unit_at units : forall i u,
  NoDup (map id units) ->
  units !! i = Some u ->
  find_unit (id u) units = Some u.
Proof.
  unfold find_unit. induction units as [|w units IH]; intros i u Hnd Hi; [discriminate|].
  simpl in Hnd. apply NoDup_cons in Hnd as [Hnotin Hnd].
  destruct i as [|i]; simpl in *.
  - injection Hi as ->. unfold has_id. rewrite String.eqb_refl. reflexivity.
  - unfold has_id at 1. destruct (String.eqb_spec (id w) (id u)) as [E|_].
    + exfalso. apply Hnotin. rewrite E. apply list_elem_of_fmap.
      exists u. split; [reflexivity|]. eapply list_elem_of_lookup_2. exact Hi.
    + eapply IH; eassumption.
Qed.

Lemma update_found_at units : forall i u v f,
  NoDup (map id units) ->
  units !! i = Some u ->
  id v = id u ->
  update_found (id u) f (<[i := v]> units) = <[i := f v]> units.
Proof.
  induction units as [|w units IH]; intros i u v f Hnd Hi Hv; [discriminate|].
  simpl in Hnd. apply NoDup_cons in Hnd as [Hnotin Hnd].
  destruct i as [|i]; simpl in *.
  - injection Hi as ->. unfold has_id. rewrite Hv, String.eqb_refl. reflexivity.
  - unfold has_id at 1. destruct (String.eqb_spec (id w) (id u)) as [E|_].
    + exfalso. apply Hnotin. rewrite E. apply list_elem_of_fmap.
      exists u. split; [reflexivity|]. eapply list_elem_of_lookup_2. exact Hi.
    + f_equal. apply IH; assumption.
Qed.

End ReserveRelease.

(** X4. [reserveAmbulance] throws 'Ambulance not found' when no unit has
    the id and 'Ambulance not available' when the unit is not available.
    Otherwise that unit, and no other, becomes 'reserved' for the
    emergency with the reservation time set, and any further reservation
    of it is refused with 'Ambulance not available'. *)
Theorem reserveAmbulance_only_when_available
    (now : Time) (ambulanceId emergencyId : string)
    (units : list AmbulanceService.Unit) :
  match AmbulanceService.find_unit ambulanceId units with
  | None =>
      AmbulanceService.reserveAmbulance now ambulanceId emergencyId units
      = Thrown AmbulanceNotFound
  | Some u =>
      if String.eqb (AmbulanceService.status u) "available" then
        exists units',
          AmbulanceService.reserveAmbulance now ambulanceId emergencyId units
          = Returned units' /\
          AmbulanceService.find_unit ambulanceId units'
          = Some (Dispatch.reserved now emergencyId u) /\
          (forall other, other <> ambulanceId ->
             AmbulanceService.find_unit other units'
             = AmbulanceService.find_unit other units) /\
          length units' = length units /\
          (forall now' emergencyId',
             AmbulanceService.reserveAmbulance now' ambulanceId emergencyId' units'
             = Thrown AmbulanceNotAvailable)
      else
        AmbulanceService.reserveAmbulance now ambulanceId emergencyId units
        = Thrown AmbulanceNotAvailable
  end.
Proof.
  destruct (AmbulanceService.find_unit ambulanceId units) as [u|] eqn:Hf.
  - destruct (String.eqb_spec (AmbulanceService.status u) "available") as [Hs|Hs].
    + eexists. split; [apply (reserveAmbulance_success _ _ _ _ u Hf Hs)|].
      assert (Hfind : AmbulanceService.find_unit ambulanceId
                        (AmbulanceService.update_found ambulanceId
                           (Dispatch.reserved now emergencyId) units)
                      = Some (Dispatch.reserved now emergencyId u)).
      { apply find_update_found; [intros v; reflexivity|exact Hf]. }
      split; [exact Hfind|]. split; [|split].
      * intros other Hne. apply find_update_other; [intros v; reflexivity|exact Hne].
      * apply update_found_length.
      * intros now' emergencyId'. unfold AmbulanceService.reserveAmbulance.
        rewrite Hfind. reflexivity.
    + unfold AmbulanceService.reserveAmbulance. rewrite Hf.
      destruct (String.eqb_spec (AmbulanceService.status u) "available");
        [contradiction|reflexivity].
  - unfold AmbulanceService.reserveAmbulance. rewrite Hf. reflexivity.
Qed.

(** X5. Releasing undoes a reservation: when a unit that is available and
    carries no emergency or reservation is reserved and then released,
    the pool is exactly the pool before the reservation. *)
Theorem reserve_then_release_restores_pool
    (now : Time) (ambulanceId emergencyId : string)
    (units : list AmbulanceService.Unit) (u : AmbulanceService.Unit) :
  AmbulanceService.find_unit ambulanceId units = Some u ->
  Dispatch.idle u ->
  exists units',
    AmbulanceService.reserveAmbulance now ambulanceId emergencyId units
    = Returned units' /\
    AmbulanceService.releaseAmbulance ambulanceId units' = units.
Proof.
  intros Hf Hidle. eexists.
  split; [apply (reserveAmbulance_success _ _ _ _ u Hf (proj1 Hidle))|].
  rewrite (releaseAmbulance_known _ _ (Dispatch.reserved now emergencyId u))
    by (apply find_update_found; [intros v; reflexivity|exact Hf]).
  rewrite update_found_twice by (intros v; reflexivity).
  apply (update_found_id _ _ _ u Hf).
  apply (released_undoes u (Dispatch.reserved now emergencyId) Hidle); reflexivity.
Qed.

Lemma reserve_then_release_restores_pool_witness :
  exists units',
    AmbulanceService.reserveAmbulance 7 "AMB002" "EMG-00000002" CancelExample.units0
    = Returned units' /\
    AmbulanceService.releaseAmbulance "AMB002" units' = CancelExample.units0.
Proof.
  eapply (reserve_then_release_restores_pool 7 "AMB002" "EMG-00000002"
            CancelExample.units0).
  - reflexivity.
  - repeat split.
Defined.

(** X6. Releasing undoes a dispatch: in a pool whose ids are distinct and
    whose available units carry no emergency or reservation, a successful
    [requestAmbulance] followed by [releaseAmbulance] of the id it
    reports gives back exactly the pool before the request. *)
Theorem dispatch_then_release_restores_pool
    (calculateDistance : Q -> Q -> Q -> Q -> Number.number)
    (now : Time) (emergencyId : string)
    (loc : AmbulanceService.LatLon) (severity emergencyType : string)
    (units : list AmbulanceService.Unit) :
  NoDup (map AmbulanceService.id units) ->
  (forall j v, units !! j = Some v -> AmbulanceService.status v = "available" ->
     Dispatch.idle v) ->
  let r := AmbulanceService.requestAmbulance calculateDistance now emergencyId loc
             severity emergencyType units in
  AmbulanceService.success (snd r) = true ->
  exists ambulanceId,
    AmbulanceService.ambulanceId (snd r) = Some ambulanceId /\
    AmbulanceService.releaseAmbulance ambulanceId (fst r) = units.
Proof.
  intros Hnd Hidle r Hsucc. subst r.
  destruct (requestAmbulance_outcome calculateDistance now emergencyId loc severity
              emergencyType units)
    as [(Hs & _) | (_ & i & u & Hi & Ha & _ & _ & Hu & Hid & _)];
    [rewrite Hs in Hsucc; discriminate|].
  exists (AmbulanceService.id u). split; [exact Hid|]. rewrite Hu.
  set (v := AmbulanceService.dispatched now emergencyId loc severity emergencyType u).
  assert (Hlen : (i < length units)%nat) by (eapply lookup_lt_Some; exact Hi).
  assert (Hmap : map AmbulanceService.id (<[i := v]> units)
                 = map AmbulanceService.id units).
  { change (map AmbulanceService.id (<[i := v]> units))
      with (AmbulanceService.id <$> <[i := v]> units).
    rewrite list_fmap_insert. apply list_insert_id.
    rewrite list_lookup_fmap, Hi. reflexivity. }
  assert (Hfind : AmbulanceService.find_unit (AmbulanceService.id u) (<[i := v]> units)
                  = Some v).
  { apply (find_unit_at (<[i := v]> units) i v).
    - rewrite Hmap. exact Hnd.
    - apply list_lookup_insert_eq. exact Hlen. }
  rewrite (releaseAmbulance_known _ _ v Hfind).
  rewrite (update_found_at units i u v AmbulanceService.released Hnd Hi eq_refl).
  rewrite (released_undoes u _ (Hidle i u Hi Ha)) by reflexivity.
  apply list_insert_id. exact Hi.
Qed.

Lemma dispatch_then_release_restores_pool_witness :
  exists ambulanceId,
    AmbulanceService.ambulanceId
      (snd (AmbulanceService.requestAmbulance Dispatch.grid_number 7 "EMG-00000002"
              Dispatch.caller "critical" "cardiac" CancelExample.units0))
    = Some ambulanceId /\
    AmbulanceService.releaseAmbulance ambulanceId
      (fst (AmbulanceService.requestAmbulance Dispatch.grid_number 7 "EMG-00000002"
              Dispatch.caller "critical" "cardiac" CancelExample.units0))
    = CancelExample.units0.
Proof.
  apply (dispatch_then_release_restores_pool Dispatch.grid_number 7 "EMG-00000002"
           Dispatch.caller "critical" "cardiac" CancelExample.units0).
  - simpl. apply NoDup_cons_2; [|apply NoDup_singleton].
    apply not_elem_of_cons. split; [discriminate|apply not_elem_of_nil].
  - intros [|[|j]] v Hj _; simpl in Hj; try discriminate;
      injection Hj as <-; repeat split.
  - vm_compute. reflexivity.
Defined.

(** ** Arrival times *)

Lemma eta_minutes_mono (speed : Q) (d1 d2 : Q) :
  (0 < speed)%Q -> (d1 <= d2)%Q ->
  Qceiling (d1 / 1000 / speed * 60) <= Qceiling (d2 / 1000 / speed * 60).
Proof.
  intros Hs Hd. apply Qceiling_resp_le.
  apply Qmult_le_compat_r; [|discriminate].
  apply Qmult_le_compat_r; [|apply Qlt_le_weak, Qinv_lt_0_compat; exact Hs].
  apply Qmult_le_compat_r; [exact Hd|discriminate].
Qed.

Lemma eta_minutes_speed (d : Q) (slow fast : Q) :
  (0 <= d)%Q -> (0 < slow)%Q -> (slow <= fast)%Q ->
  Qceiling (d / 1000 / fast * 60) <= Qceiling (d / 1000 / slow * 60).
Proof.
  intros Hd Hs Hf. apply Qceiling_resp_le.
  apply Qmult_le_compat_r; [|discriminate].
  unfold Qdiv. rewrite !(Qmult_comm (d * / 1000)).
  apply Qmult_le_compat_r.
  - assert (Hfast : (0 < fast)%Q) by (eapply Qlt_le_trans; eassumption).
    apply Qle_shift_inv_l; [exact Hs|].
    rewrite Qmult_comm. apply Qle_shift_div_r; [exact Hfast|].
    rewrite Qmult_1_l. exact Hf.
  - apply Qmult_le_0_compat; [exact Hd|discriminate].
Qed.

(** X7. The ETA never gets smaller when the distance grows, and for the
    same distance a critical call never gets a later ETA than an urgent
    one, nor an urgent one a later ETA than any other severity. *)
Theorem calculateETA_monotone (d1 d2 : Q) (severity : string) :
  (0 <= d1)%Q -> (d1 <= d2)%Q ->
  AmbulanceService.calculateETA d1 severity <= AmbulanceService.calculateETA d2 severity /\
  AmbulanceService.calculateETA d1 "critical" <= AmbulanceService.calculateETA d1 "urgent" /\
  (severity <> "critical" ->
   AmbulanceService.calculateETA d1 "urgent" <= AmbulanceService.calculateETA d1 severity).
Proof.
  intros H0 Hd. unfold AmbulanceService.calculateETA.
  change ("critical" =? "critical")%string with true.
  change ("urgent" =? "critical")%string with false.
  change ("urgent" =? "urgent")%string with true. cbv iota.
  split; [|split].
  - apply Z.max_le_compat_r, Z.add_le_mono_r.
    destruct (String.eqb severity "critical");
      [|destruct (String.eqb severity "urgent");
        [|destruct (String.eqb severity "moderate")]];
      apply eta_minutes_mono; try reflexivity; exact Hd.
  - apply Z.max_le_compat_r, Z.add_le_mono_r.
    apply eta_minutes_speed; [exact H0|reflexivity|discriminate].
  - intros Hc. destruct (String.eqb_spec severity "critical") as [|_]; [contradiction|].
    apply Z.max_le_compat_r, Z.add_le_mono_r.
    destruct (String.eqb severity "urgent"); [|destruct (String.eqb severity "moderate")];
      try apply Z.le_refl; apply eta_minutes_speed; try exact H0; try reflexivity;
      discriminate.
Qed.

Lemma calculateETA_monotone_witness :
  AmbulanceService.calculateETA 3000 "moderate"
  <= AmbulanceService.calculateETA 12000 "moderate" /\
  AmbulanceService.calculateETA 3000 "critical"
  <= AmbulanceService.calculateETA 3000 "urgent" /\
  AmbulanceService.calculateETA 12000 "moderate" = 14.
Proof.
  destruct (calculateETA_monotone 3000 12000 "moderate") as (H1 & H2 & _);
    [discriminate|discriminate|].
  split; [exact H1|]. split; [exact H2|reflexivity].
Defined.

(** ** The three scores and the rank score *)

Section Scores.
Import Hospital HospitalService.

Lemma distance_ratio_mono (d1 d2 maxDistance : Q) :
  (0 <= d1)%Q -> (d1 <= d2)%Q -> (0 < maxDistance)%Q ->
  (0 <= d1 / maxDistance * 100 /\ d1 / maxDistance * 100 <= d2 / maxDistance * 100)%Q.
Proof.
  intros H0 Hd Hm.
  assert (Hinv : (0 <= / maxDistance)%Q) by (apply Qlt_le_weak, Qinv_lt_0_compat; exact Hm).
  split.
  - apply Qmult_le_0_compat; [|discriminate].
    apply Qmult_le_0_compat; assumption.
  - apply Qmult_le_compat_r; [|discriminate].
    apply Qmult_le_compat_r; assumption.
Qed.

Lemma calculateDistanceScore_far (d maxDistance : Q) :
  (maxDistance <= d)%Q -> calculateDistanceScore d maxDistance = 0%Q.
Proof.
  intros H. unfold calculateDistanceScore.
  apply Qle_bool_iff in H. rewrite H. reflexivity.
Qed.

Lemma calculateDistanceScore_near (d maxDistance : Q) :
  (d < maxDistance)%Q ->
  calculateDistanceScore d maxDistance = Qmax 0 (100 - d / maxDistance * 100).
Proof.
  intros H. unfold calculateDistanceScore.
  destruct (Qle_bool maxDistance d) eqn:E; [|reflexivity].
  apply Qle_bool_iff in E. exfalso. exact (Qlt_not_le _ _ H E).
Qed.

Lemma calculateDistanceScore_bounds (d maxDistance : Q) :
  (0 <= d)%Q -> (0 < maxDistance)%Q ->
  (0 <= calculateDistanceScore d maxDistance <= 100)%Q.
Proof.
  intros H0 Hm. destruct (Qlt_le_dec d maxDistance) as [Hlt|Hge].
  - rewrite (calculateDistanceScore_near _ _ Hlt).
    destruct (distance_ratio_mono d d maxDistance H0 (Qle_refl _) Hm) as [Hr _].
    split; [apply Q.le_max_l|].
    apply Q.max_lub; [discriminate|]. Lqa.lra.
  - rewrite (calculateDistanceScore_far _ _ Hge). split; discriminate.
Qed.

Lemma calculateDistanceScore_antitone (d1 d2 maxDistance : Q) :
  (0 <= d1)%Q -> (d1 <= d2)%Q -> (0 < maxDistance)%Q ->
  (calculateDistanceScore d2 maxDistance <= calculateDistanceScore d1 maxDistance)%Q.
Proof.
  intros H0 Hd Hm. destruct (Qlt_le_dec d2 maxDistance) as [Hlt|Hge].
  - rewrite (calculateDistanceScore_near _ _ Hlt).
    rewrite (calculateDistanceScore_near d1) by (eapply Qle_lt_trans; eassumption).
    destruct (distance_ratio_mono d1 d2 maxDistance H0 Hd Hm) as [_ Hr].
    apply Q.max_le_compat_l. Lqa.lra.
  - rewrite (calculateDistanceScore_far _ _ Hge).
    apply (calculateDistanceScore_bounds d1 maxDistance H0 Hm).
Qed.

Lemma qpts_nonneg b n : (0 <= n)%Q -> (0 <= qpts b n)%Q.
Proof. intros H. destruct b; [exact H|apply Qle_refl]. Qed.

Lemma calculateCapacityScore_bounds h :
  0 <= availableBeds (capacity h) -> 0 < totalBeds (capacity h) ->
  (0 <= calculateCapacityScore h <= 100)%Q.
Proof.
  intros Ha Ht. unfold calculateCapacityScore. split; [|apply Q.le_min_r].
  apply Q.min_glb; [|discriminate].
  assert (Hr : (0 <= inject_Z (availableBeds (capacity h))
                     / inject_Z (totalBeds (capacity h)) * 30)%Q).
  { apply Qmult_le_0_compat; [|discriminate].
    apply Qmult_le_0_compat.
    - change 0%Q with (inject_Z 0). rewrite <- Zle_Qle. exact Ha.
    - apply Qlt_le_weak, Qinv_lt_0_compat.
      change 0%Q with (inject_Z 0). rewrite <- Zlt_Qlt. exact Ht. }
  pose proof (qpts_nonneg (0 <? availableEmergencyRooms (capacity h)) 25).
  pose proof (qpts_nonneg (0 <? availableIcuBeds (capacity h)) 20).
  pose proof (qpts_nonneg (ctScan (equipment h)) 5).
  pose proof (qpts_nonneg (mriMachine (equipment h)) 5).
  pose proof (qpts_nonneg (0 <? ventilators (equipment h)) 5).
  pose proof (qpts_nonneg (0 <? defibrillators (equipment h)) 5).
  pose proof (qpts_nonneg (bloodBank (equipment h)) 5).
  assert (P25 : (0 <= 25)%Q) by discriminate.
  assert (P20 : (0 <= 20)%Q) by discriminate.
  assert (P5 : (0 <= 5)%Q) by discriminate.
  Lqa.lra.
Qed.

Lemma calculateEmergencyScore_bounds h emergencyType severity :
  0 <= calculateEmergencyScore h emergencyType severity <= 100.
Proof.
  unfold calculateEmergencyScore, pts.
  generalize (canHandleEmergency h emergencyType). intros can.
  destruct (0 <? availableBeds (capacity h)), (0 <? availableEmergencyRooms (capacity h)),
    can, (String.eqb severity "critical"), (traumaLevel (emergencyServices h)),
    (0 <? availableIcuBeds (capacity h)), (ctScan (equipment h)),
    (mriMachine (equipment h)), (0 <? ventilators (equipment h)); simpl; lia.
Qed.

End Scores.

(** X8. For a non-negative distance and a positive search radius the
    distance score lies between 0 and 100, never grows with the distance,
    is 0 from the radius on and 100 at distance 0. *)
Theorem calculateDistanceScore_range_and_order (d1 d2 maxDistance : Q) :
  (0 <= d1)%Q -> (d1 <= d2)%Q -> (0 < maxDistance)%Q ->
  (0 <= HospitalService.calculateDistanceScore d2 maxDistance)%Q /\
  (HospitalService.calculateDistanceScore d2 maxDistance
   <= HospitalService.calculateDistanceScore d1 maxDistance)%Q /\
  (HospitalService.calculateDistanceScore d1 maxDistance <= 100)%Q /\
  ((maxDistance <= d2)%Q -> HospitalService.calculateDistanceScore d2 maxDistance = 0%Q) /\
  (HospitalService.calculateDistanceScore 0 maxDistance == 100)%Q.
Proof.
  intros H0 Hd Hm.
  assert (H2 : (0 <= d2)%Q) by (eapply Qle_trans; eassumption).
  split; [apply (calculateDistanceScore_bounds d2 maxDistance H2 Hm)|].
  split; [apply (calculateDistanceScore_antitone d1 d2 maxDistance H0 Hd Hm)|].
  split; [apply (calculateDistanceScore_bounds d1 maxDistance H0 Hm)|].
  split; [apply calculateDistanceScore_far|].
  rewrite (calculateDistanceScore_near 0 maxDistance Hm).
  assert (E : (100 - 0 / maxDistance * 100 == 100)%Q).
  { unfold Qdiv. rewrite Qmult_0_l. reflexivity. }
  rewrite E. apply Q.max_r. discriminate.
Qed.

Lemma calculateDistanceScore_range_and_order_witness :
  (HospitalService.calculateDistanceScore 2000 50000 == 96)%Q /\
  (HospitalService.calculateDistanceScore 60000 50000
   <= HospitalService.calculateDistanceScore 2000 50000)%Q /\
  HospitalService.calculateDistanceScore 60000 50000 = 0%Q.
Proof.
  destruct (calculateDistanceScore_range_and_order 2000 60000 50000)
    as (_ & Hle & _ & Hfar & _); try discriminate; try reflexivity.
  split; [reflexivity|]. split; [exact Hle|]. apply Hfar. discriminate.
Defined.

(** X9. The emergency score of a hospital is always between 0 and 100
    (the cap is needed: the parts add up to 115). A critical severity
    never lowers it, any other severity keeps it at 90 or below, and a
    hospital with a free bed that can handle the emergency type scores at
    least 55. *)
Theorem calculateEmergencyScore_range (h : Hospital.t) (emergencyType severity : string) :
  0 <= Hospital.calculateEmergencyScore h emergencyType severity <= 100 /\
  Hospital.calculateEmergencyScore h emergencyType severity
  <= Hospital.calculateEmergencyScore h emergencyType "critical" /\
  (severity <> "critical" ->
   Hospital.calculateEmergencyScore h emergencyType severity <= 90) /\
  (0 < Hospital.availableBeds (Hospital.capacity h) ->
   Hospital.canHandleEmergency h emergencyType = true ->
   55 <= Hospital.calculateEmergencyScore h emergencyType severity).
Proof.
  split; [apply calculateEmergencyScore_bounds|].
  unfold Hospital.calculateEmergencyScore, Hospital.pts.
  change ("critical" =? "critical")%string with true. cbv iota.
  generalize (Hospital.canHandleEmergency h emergencyType). intros can.
  split; [|split].
  - destruct (0 <? Hospital.availableBeds (Hospital.capacity h)),
      (0 <? Hospital.availableEmergencyRooms (Hospital.capacity h)),
      can, (String.eqb severity "critical"),
      (Hospital.traumaLevel (Hospital.emergencyServices h)),
      (0 <? Hospital.availableIcuBeds (Hospital.capacity h)),
      (Hospital.ctScan (Hospital.equipment h)),
      (Hospital.mriMachine (Hospital.equipment h)),
      (0 <? Hospital.ventilators (Hospital.equipment h)); simpl; lia.
  - intros Hs. destruct (String.eqb_spec severity "critical") as [|_]; [contradiction|].
    destruct (0 <? Hospital.availableBeds (Hospital.capacity h)),
      (0 <? Hospital.availableEmergencyRooms (Hospital.capacity h)),
      can, (Hospital.ctScan (Hospital.equipment h)),
      (Hospital.mriMachine (Hospital.equipment h)),
      (0 <? Hospital.ventilators (Hospital.equipment h)); simpl; lia.
  - intros Hb ->. apply Z.ltb_lt in Hb. rewrite Hb.
    destruct (0 <? Hospital.availableEmergencyRooms (Hospital.capacity h)),
      (String.eqb severity "critical"),
      (Hospital.traumaLevel (Hospital.emergencyServices h)),
      (0 <? Hospital.availableIcuBeds (Hospital.capacity h)),
      (Hospital.ctScan (Hospital.equipment h)),
      (Hospital.mriMachine (Hospital.equipment h)),
      (0 <? Hospital.ventilators (Hospital.equipment h)); simpl; lia.
Qed.

Lemma calculateEmergencyScore_range_witness :
  Hospital.calculateEmergencyScore CapacityRegistry.sample "cardiac" "critical" = 100 /\
  Hospital.calculateEmergencyScore CapacityRegistry.sample "cardiac" "urgent" = 90 /\
  55 <= Hospital.calculateEmergencyScore CapacityRegistry.sample "cardiac" "urgent".
Proof.
  split; [reflexivity|]. split; [reflexivity|].
  apply (calculateEmergencyScore_range CapacityRegistry.sample "cardiac" "urgent");
    reflexivity.
Defined.

(** X10. The rank score of a candidate is an integer between 0 and 100,
    provided the hospital has beds ([totalBeds > 0], no negative
    [availableBeds]), the search radius is positive and the distance
    computed for it is not negative. *)
Theorem rank_score_between_0_and_100
    (calculateDistance : Q -> Q -> Q -> Q -> Q) (longitude latitude : Q)
    (emergencyType severity : string) (maxDistance : Q) (h : Hospital.t) :
  0 <= Hospital.availableBeds (Hospital.capacity h) ->
  0 < Hospital.totalBeds (Hospital.capacity h) ->
  (0 < maxDistance)%Q ->
  (0 <= calculateDistance latitude longitude
          (snd (Hospital.coordinates h)) (fst (Hospital.coordinates h)))%Q ->
  0 <= HospitalService.score
         (HospitalService.scoreHospital calculateDistance longitude latitude
            emergencyType severity maxDistance h) <= 100.
Proof.
  intros Ha Ht Hm Hd. unfold HospitalService.scoreHospital. cbn [HospitalService.score].
  pose proof (calculateEmergencyScore_bounds h emergencyType severity) as [E0 E1].
  pose proof (calculateDistanceScore_bounds _ maxDistance Hd Hm) as [D0 D1].
  pose proof (calculateCapacityScore_bounds h Ha Ht) as [C0 C1].
  rewrite Zle_Qle in E0, E1.
  set (e := inject_Z (Hospital.calculateEmergencyScore h emergencyType severity)) in *.
  set (d := HospitalService.calculateDistanceScore _ maxDistance) in *.
  set (c := HospitalService.calculateCapacityScore h) in *.
  change (inject_Z 0) with 0%Q in E0. change (inject_Z 100) with 100%Q in E1.
  unfold HospitalService.Math_round. split.
  - change 0 with (Qfloor (0 + (1 # 2))). apply Qfloor_resp_le. Lqa.lra.
  - change 100 with (Qfloor (100 + (1 # 2))). apply Qfloor_resp_le. Lqa.lra.
Qed.

Lemma rank_score_between_0_and_100_witness :
  0 <= HospitalService.score
         (HospitalService.scoreHospital Dispatch.grid_distance (-73986 # 1000)
            (40748 # 1000) "cardiac" "critical" 50000 CapacityRegistry.sample) <= 100 /\
  HospitalService.score
    (HospitalService.scoreHospital Dispatch.grid_distance (-73986 # 1000)
       (40748 # 1000) "cardiac" "critical" 50000 CapacityRegistry.sample) = 96.
Proof.
  split; [|reflexivity].
  apply (rank_score_between_0_and_100 Dispatch.grid_distance);
    try reflexivity; discriminate.
Defined.



(** ** Availability, repeated reservations and capacity updates *)

Section CapacityMore.
Import Hospital HospitalService CapacityRegistry HospitalQueries.

Lemma validate_with_updatedAt now h : validate (with_updatedAt now h) = validate h.
Proof. reflexivity. Qed.

(** One successful reservation, with what it writes. *)
Lemma reserveBed_step now hospitals hospitalId emergencyId emergencyType h :
  hospitals !! hospitalId = Some h ->
  stored h ->
  availableBeds (capacity h) <> 0 ->
  exists h' r,
    reserveBed now hospitals hospitalId emergencyId emergencyType
    = Returned (<[hospitalId := h']> hospitals, r) /\
    stored h' /\
    capacity h' = take_bed emergencyType (capacity h) /\
    name h' = name h /\ status h' = status h.
Proof.
  intros Hl Hs Hne. eexists _, _. split.
  - apply (reserveBed_success now hospitals hospitalId emergencyId emergencyType h Hl Hs Hne).
  - split; [|repeat split].
    pose proof (take_bed_valid emergencyType h Hs Hne) as Hv.
    pose proof (take_bed_fields emergencyType (capacity h)) as (F1 & F2 & F3 & F4 & F5 & F6).
    destruct Hs as [_ (B1 & B2 & B3)].
    split; [rewrite validate_with_updatedAt; exact Hv|].
    unfold capacity_inv. cbn [capacity with_updatedAt with_capacity].
    rewrite F1, F2, F3, F4, F5, F6.
    destruct (is_icu_type emergencyType && (0 <? availableIcuBeds (capacity h))) eqn:E.
    + apply andb_true_iff in E as [_ E]. apply Z.ltb_lt in E. lia.
    + lia.
Qed.

Lemma clamp_min available cap : clamp available cap = Z.min available cap.
Proof. unfold clamp. destruct (Z.ltb_spec cap available); lia. Qed.

Lemma optional_min0_assign v old : optional_min0 v = true -> 0 <= old -> 0 <= assign v old.
Proof. destruct v as [x|]; simpl; [intros H _; apply Z.leb_le; exact H|auto]. Qed.

Lemma updateCapacity_valid now d h :
  stored h -> body_nonneg d = true ->
  updateCapacity now d h =
  Returned (pre_save now (with_lastCapacityUpdate now
      (with_capacity (with_lastUpdated now (assign_capacity (capacity h) d)) h))).
Proof.
  intros [Hv Hinv] Hd. unfold updateCapacity, save.
  assert (Hval : validate (with_lastCapacityUpdate now
             (with_capacity (with_lastUpdated now (assign_capacity (capacity h) d)) h))
           = true).
  { unfold validate in *.
    apply andb_true_iff in Hv as [Hv Hn]. apply andb_true_iff in Hv as [Hv Hr].
    apply andb_true_iff in Hv as [Hc Hco].
    destruct h as [n co c sp es eq ra st lc ua].
    cbn [name capacity coordinates rating with_capacity with_lastCapacityUpdate] in *.
    rewrite Hco, Hr, Hn, !andb_true_r. apply capacity_valid_spec.
    apply capacity_valid_spec in Hc. destruct Hc as (C1 & C2 & C3 & C4 & C5 & C6).
    unfold body_nonneg in Hd. rewrite !andb_true_iff in Hd.
    destruct Hd as (((((D1 & D2) & D3) & D4) & D5) & D6).
    cbn [with_lastUpdated assign_capacity totalBeds availableBeds icuBeds
         availableIcuBeds emergencyRooms availableEmergencyRooms].
    repeat split; apply optional_min0_assign; assumption. }
  rewrite Hval. reflexivity.
Qed.

End CapacityMore.

(** ** Reservation and availability with counters that are numbers *)

Section NumberCounters.
Import HospitalNumbers.
Local Open Scope Q_scope.

Lemma positive_spec x : positive x = true <-> 0 < x.
Proof.
  unfold positive. rewrite negb_true_iff. split.
  - intros H. apply Qnot_le_lt. intros Hle. apply Qle_bool_iff in Hle. congruence.
  - intros H. destruct (Qle_bool x 0) eqn:E; [|reflexivity].
    apply Qle_bool_iff in E. exfalso. Lqa.lra.
Qed.

Lemma capacity_valid_num c :
  capacity_valid c = true <->
  0 <= totalBeds c /\ 0 <= availableBeds c /\ 0 <= icuBeds c /\
  0 <= availableIcuBeds c /\ 0 <= emergencyRooms c /\
  0 <= availableEmergencyRooms c.
Proof. unfold capacity_valid. rewrite !andb_true_iff, !Qle_bool_iff. tauto. Qed.

Lemma clamp_num_within available cap : available <= cap -> clamp available cap = available.
Proof. intros H. unfold clamp. apply Qle_bool_iff in H. rewrite H. reflexivity. Qed.

Lemma take_bed_num_fields emergencyType c :
  totalBeds (take_bed emergencyType c) = totalBeds c /\
  availableBeds (take_bed emergencyType c) = availableBeds c - 1 /\
  icuBeds (take_bed emergencyType c) = icuBeds c /\
  availableIcuBeds (take_bed emergencyType c) =
    (if HospitalService.is_icu_type emergencyType && positive (availableIcuBeds c)
     then availableIcuBeds c - 1 else availableIcuBeds c) /\
  emergencyRooms (take_bed emergencyType c) = emergencyRooms c /\
  availableEmergencyRooms (take_bed emergencyType c) = availableEmergencyRooms c.
Proof.
  unfold take_bed. destruct (HospitalService.is_icu_type emergencyType); simpl;
    [destruct (positive (availableIcuBeds c)); simpl|]; repeat split; reflexivity.
Qed.

(** The document after the two decrements passes validation exactly when
    neither decrement went below 0. *)
Lemma take_bed_num_valid emergencyType h :
  stored h ->
  validate (mkHospital (take_bed emergencyType (capacity h)) (other h)) = true <->
  1 <= availableBeds (capacity h) /\
  (takes_icu emergencyType h = true -> 1 <= availableIcuBeds (capacity h)).
Proof.
  intros [Hv _]. unfold validate in *. cbn [capacity other].
  apply andb_true_iff in Hv as [Hv Hn]. apply andb_true_iff in Hv as [Hv Hr].
  apply andb_true_iff in Hv as [Hc Hco].
  rewrite Hco, Hr, Hn, !andb_true_r. rewrite capacity_valid_num.
  apply capacity_valid_num in Hc. destruct Hc as (C1 & C2 & C3 & C4 & C5 & C6).
  pose proof (take_bed_num_fields emergencyType (capacity h)) as (F1 & F2 & F3 & F4 & F5 & F6).
  rewrite F1, F2, F3, F4, F5, F6. unfold takes_icu.
  destruct (HospitalService.is_icu_type emergencyType && positive (availableIcuBeds (capacity h))).
  - split.
    + intros (_ & H2 & _ & H4 & _). split; [|intros _]; Lqa.lra.
    + intros [H1 H2]. specialize (H2 eq_refl). repeat split; Lqa.lra.
  - split.
    + intros (_ & H2 & _). split; [Lqa.lra|discriminate].
    + intros [H1 _]. repeat split; Lqa.lra.
Qed.

Lemma pre_save_num_within now h :
  availableBeds (capacity h) <= totalBeds (capacity h) ->
  availableIcuBeds (capacity h) <= icuBeds (capacity h) ->
  availableEmergencyRooms (capacity h) <= emergencyRooms (capacity h) ->
  pre_save now h = mkHospital (capacity h) (Hospital.with_updatedAt now (other h)).
Proof.
  intros H1 H2 H3. unfold pre_save. rewrite !clamp_num_within by assumption.
  destruct h as [c o]. destruct c. reflexivity.
Qed.

Lemma reserveBed_num_none now hospitals hospitalId emergencyId emergencyType h :
  hospitals !! hospitalId = Some h ->
  availableBeds (capacity h) == 0 ->
  reserveBed now hospitals hospitalId emergencyId emergencyType = Thrown NoAvailableBeds.
Proof.
  intros Hl H0. unfold reserveBed. rewrite Hl.
  apply Qeq_bool_iff in H0. rewrite H0. reflexivity.
Qed.

Lemma reserveBed_num_invalid now hospitals hospitalId emergencyId emergencyType h :
  hospitals !! hospitalId = Some h ->
  stored h ->
  ~ availableBeds (capacity h) == 0 ->
  availableBeds (capacity h) < 1 \/
  (takes_icu emergencyType h = true /\ availableIcuBeds (capacity h) < 1) ->
  reserveBed now hospitals hospitalId emergencyId emergencyType = Thrown ValidationError.
Proof.
  intros Hl Hs Hne Hpart. unfold reserveBed. rewrite Hl.
  destruct (Qeq_bool (availableBeds (capacity h)) 0) eqn:E.
  { apply Qeq_bool_iff in E. contradiction. }
  unfold save.
  destruct (validate (mkHospital (take_bed emergencyType (capacity h)) (other h))) eqn:Hv;
    [|reflexivity].
  apply (take_bed_num_valid emergencyType h Hs) in Hv. destruct Hv as [H1 H2].
  exfalso. destruct Hpart as [Hp|[Ht Hp]]; [|specialize (H2 Ht)]; Lqa.lra.
Qed.

Lemma reserveBed_num_success now hospitals hospitalId emergencyId emergencyType h :
  hospitals !! hospitalId = Some h ->
  stored h ->
  1 <= availableBeds (capacity h) ->
  (takes_icu emergencyType h = true -> 1 <= availableIcuBeds (capacity h)) ->
  reserveBed now hospitals hospitalId emergencyId emergencyType =
  Returned
    (<[hospitalId := mkHospital (take_bed emergencyType (capacity h))
                       (Hospital.with_updatedAt now (other h))]> hospitals,
     HospitalService.mkReservation (Hospital.name (other h)) "general" now).
Proof.
  intros Hl Hs H1 H2. unfold reserveBed. rewrite Hl.
  destruct (Qeq_bool (availableBeds (capacity h)) 0) eqn:E.
  { apply Qeq_bool_iff in E. exfalso. Lqa.lra. }
  unfold save.
  rewrite (proj2 (take_bed_num_valid emergencyType h Hs) (conj H1 H2)).
  pose proof (take_bed_num_fields emergencyType (capacity h)) as (F1 & F2 & F3 & F4 & F5 & F6).
  destruct Hs as (_ & B1 & B2 & B3).
  rewrite pre_save_num_within; cbn [capacity other].
  - destruct (other h); reflexivity.
  - rewrite F1, F2. Lqa.lra.
  - rewrite F3, F4.
    destruct (HospitalService.is_icu_type emergencyType && positive (availableIcuBeds (capacity h)));
      Lqa.lra.
  - rewrite F5, F6. Lqa.lra.
Qed.

(** What a successful reservation writes is again a stored document. *)
Lemma take_bed_num_stored now emergencyType h :
  stored h ->
  1 <= availableBeds (capacity h) ->
  (takes_icu emergencyType h = true -> 1 <= availableIcuBeds (capacity h)) ->
  stored (mkHospital (take_bed emergencyType (capacity h))
            (Hospital.with_updatedAt now (other h))).
Proof.
  intros Hs H1 H2.
  pose proof (proj2 (take_bed_num_valid emergencyType h Hs) (conj H1 H2)) as Hv.
  pose proof (take_bed_num_fields emergencyType (capacity h)) as (F1 & F2 & F3 & F4 & F5 & F6).
  destruct Hs as (_ & B1 & B2 & B3).
  split; [|cbn [capacity]; rewrite F1, F2, F3, F4, F5, F6; repeat split].
  - unfold validate in *. cbn [capacity other] in *. destruct (other h); exact Hv.
  - Lqa.lra.
  - destruct (HospitalService.is_icu_type emergencyType && positive (availableIcuBeds (capacity h)));
      Lqa.lra.
  - Lqa.lra.
Qed.

Lemma Qfloor_unique x z : inject_Z z <= x -> x < inject_Z (z + 1) -> Qfloor x = z.
Proof.
  intros Hlo Hhi.
  pose proof (Qfloor_le x) as Fl. pose proof (Qlt_floor x) as Fh.
  assert (A : (Qfloor x < z + 1)%Z).
  { rewrite Zlt_Qlt. Lqa.lra. }
  assert (B : (z < Qfloor x + 1)%Z).
  { rewrite Zlt_Qlt. Lqa.lra. }
  lia.
Qed.

Lemma Qfloor_minus_one x : Qfloor (x - 1) = (Qfloor x - 1)%Z.
Proof.
  pose proof (Qfloor_le x) as Fl. pose proof (Qlt_floor x) as Fh.
  rewrite inject_Z_plus in Fh. change (inject_Z 1) with 1 in Fh.
  apply Qfloor_unique.
  - unfold Z.sub. rewrite inject_Z_plus, inject_Z_opp. change (inject_Z 1) with 1. Lqa.lra.
  - replace (Qfloor x - 1 + 1)%Z with (Qfloor x) by lia. Lqa.lra.
Qed.

Lemma whole_spec x : whole x = true <-> x == inject_Z (Qfloor x).
Proof.
  unfold whole. rewrite Qeq_bool_iff. split; intros H; symmetry; exact H.
Qed.

Lemma whole_minus_one x : whole (x - 1) = whole x.
Proof.
  apply eq_true_iff_eq. rewrite !whole_spec, Qfloor_minus_one.
  unfold Z.sub. rewrite inject_Z_plus, inject_Z_opp. change (inject_Z 1) with 1.
  split; intros H; Lqa.lra.
Qed.

Lemma whole_zero x : x == 0 -> whole x = true.
Proof.
  intros H. apply whole_spec. rewrite (Qfloor_comp x 0 H). exact H.
Qed.

Lemma part_not_whole x : 0 < x -> x < 1 -> whole x = false.
Proof.
  intros H0 H1. destruct (whole x) eqn:E; [|reflexivity].
  apply whole_spec in E.
  rewrite (Qfloor_unique x 0) in E.
  - change (inject_Z 0) with 0 in E. exfalso. Lqa.lra.
  - change (inject_Z 0) with 0. Lqa.lra.
  - change (inject_Z (0 + 1)) with 1. Lqa.lra.
Qed.

(** A whole positive counter holds at least one. *)
Lemma whole_positive x : whole x = true -> 0 < x -> 1 <= x.
Proof.
  intros Hw Hp. apply whole_spec in Hw.
  assert (A : (0 < Qfloor x)%Z).
  { rewrite Zlt_Qlt. change (inject_Z 0) with 0. Lqa.lra. }
  assert (B : (1 <= Qfloor x)%Z) by lia.
  rewrite Zle_Qle in B. change (inject_Z 1) with 1 in B. Lqa.lra.
Qed.

Lemma icu_counter_whole_takes emergencyType h :
  icu_counter_whole emergencyType h ->
  takes_icu emergencyType h = true -> 1 <= availableIcuBeds (capacity h).
Proof.
  intros Hw Ht. unfold takes_icu in Ht. apply andb_true_iff in Ht as [Hty Hp].
  destruct Hw as [Hn|Hw]; [congruence|].
  apply whole_positive; [exact Hw|apply positive_spec; exact Hp].
Qed.

Lemma clamp_num_bounds available cap :
  0 <= available -> 0 <= cap -> 0 <= clamp available cap /\ clamp available cap <= cap.
Proof.
  intros Ha Hc. unfold clamp. destruct (Qle_bool available cap) eqn:E; simpl.
  - apply Qle_bool_iff in E. split; assumption.
  - split; [assumption|Lqa.lra].
Qed.

(** Whatever [save] writes passes the validators, with the available
    counters within their capacities. *)
Lemma save_num_stored now h h' : save now h = Returned h' -> stored h'.
Proof.
  unfold save. destruct (validate h) eqn:Hv; [|discriminate].
  intros [= <-]. unfold validate in Hv.
  apply andb_true_iff in Hv as [Hv Hn]. apply andb_true_iff in Hv as [Hv Hr].
  apply andb_true_iff in Hv as [Hc Hco].
  pose proof (proj1 (capacity_valid_num _) Hc) as (H1 & H2 & H3 & H4 & H5 & H6).
  destruct (clamp_num_bounds _ _ H2 H1). destruct (clamp_num_bounds _ _ H4 H3).
  destruct (clamp_num_bounds _ _ H6 H5).
  split; [|cbn [pre_save capacity totalBeds availableBeds icuBeds availableIcuBeds
                emergencyRooms availableEmergencyRooms]; repeat split; assumption].
  unfold validate. cbn [pre_save capacity other].
  destruct (other h); cbn in *. rewrite Hco, Hr, Hn, !andb_true_r.
  apply capacity_valid_num. cbn. repeat split; assumption.
Qed.

Lemma all_stored_num_insert hs hospitalId h :
  all_stored hs -> stored h -> all_stored (<[hospitalId := h]> hs).
Proof.
  intros Hall Hs i x. destruct (decide (i = hospitalId)) as [->|Hne].
  - rewrite lookup_insert_eq. intros [= <-]. exact Hs.
  - rewrite lookup_insert_ne by congruence. apply Hall.
Qed.

Lemma reserveBed_num_stored now hs hospitalId emergencyId emergencyType hs' r :
  all_stored hs ->
  reserveBed now hs hospitalId emergencyId emergencyType = Returned (hs', r) ->
  all_stored hs'.
Proof.
  intros Hall. unfold reserveBed.
  destruct (hs !! hospitalId) as [h|]; [|discriminate].
  destruct (Qeq_bool (availableBeds (capacity h)) 0); [discriminate|].
  destruct (save now _) as [h'|] eqn:Hsave; [|discriminate].
  intros [= <- _]. apply all_stored_num_insert; [exact Hall|].
  eapply save_num_stored. exact Hsave.
Qed.

Lemma reserve_times_num_stored n now hs hospitalId emergencyId emergencyType hs' :
  all_stored hs ->
  reserve_times n now hs hospitalId emergencyId emergencyType = Returned hs' ->
  all_stored hs'.
Proof.
  revert hs. induction n as [|n IH]; intros hs Hall; simpl.
  - intros [= <-]. exact Hall.
  - destruct (reserveBed now hs hospitalId emergencyId emergencyType) as [[hs1 r]|] eqn:Hr;
      [|discriminate].
    apply IH. eapply reserveBed_num_stored; eassumption.
Qed.

Lemma patch_capacity_num_stored now hs hospitalId body :
  all_stored hs -> all_stored (snd (patch_capacity now hs hospitalId body)).
Proof.
  intros Hall. unfold patch_capacity.
  destruct (negb _); [exact Hall|].
  unfold updateHospitalCapacity.
  destruct (hs !! hospitalId) as [h|]; [|exact Hall].
  destruct (updateCapacity now body h) as [h'|] eqn:Hu; [|exact Hall].
  simpl. apply all_stored_num_insert; [exact Hall|].
  unfold updateCapacity in Hu. eapply save_num_stored. exact Hu.
Qed.

Lemma of_whole_stored h : CapacityRegistry.stored h -> stored (of_whole h).
Proof.
  intros [Hv (B1 & B2 & B3)]. unfold Hospital.validate in Hv.
  apply andb_true_iff in Hv as [Hv Hn]. apply andb_true_iff in Hv as [Hv Hr].
  apply andb_true_iff in Hv as [Hc Hco].
  unfold Hospital.capacity_valid in Hc. rewrite !andb_true_iff, !Z.leb_le in Hc.
  destruct Hc as (((((C1 & C2) & C3) & C4) & C5) & C6).
  split.
  - unfold validate. cbn [of_whole capacity other]. rewrite Hco, Hr, Hn, !andb_true_r.
    apply capacity_valid_num. cbn.
    repeat split; change 0 with (inject_Z 0); rewrite <- Zle_Qle; assumption.
  - cbn. repeat split; rewrite <- Zle_Qle; lia.
Qed.

Lemma after_all_stored n : all_stored (after n).
Proof.
  assert (H : all_stored halved).
  { apply patch_capacity_num_stored. intros i h Hl.
    unfold sample_store in Hl. apply lookup_singleton_Some in Hl as [_ <-].
    apply of_whole_stored. split; [reflexivity|].
    unfold CapacityRegistry.capacity_inv. simpl. lia. }
  unfold after.
  destruct (reserve_times n 2%Z halved "H1" "EMG-00000002" "other") as [hs|] eqn:E; [|exact H].
  eapply reserve_times_num_stored; eassumption.
Qed.

End NumberCounters.

(** X27. [reserveBed] on a stored hospital whose counters are numbers up
    to 2^53: with [availableBeds] equal to 0 it throws 'No available
    beds'; with at least one bed free, and at least one ICU bed where the
    reservation takes one, it succeeds and writes [availableBeds] one
    lower, [availableIcuBeds] one lower exactly when the type is cardiac,
    stroke or trauma and the ICU counter is positive, and the other
    counters as they were; with part of a bed free (more than 0, less
    than 1), or part of an ICU bed where the reservation takes one, it
    fails in [save] with a validation error. *)
Theorem reserveBed_on_number_counters
    (now : Time) (hospitals : gmap string HospitalNumbers.t)
    (hospitalId emergencyId emergencyType : string) (h : HospitalNumbers.t) :
  hospitals !! hospitalId = Some h ->
  HospitalNumbers.stored h ->
  HospitalNumbers.countable h ->
  let c := HospitalNumbers.capacity h in
  let reserve :=
    HospitalNumbers.reserveBed now hospitals hospitalId emergencyId emergencyType in
  let icu := HospitalNumbers.takes_icu emergencyType h in
  (HospitalNumbers.availableBeds c == 0 -> reserve = Thrown NoAvailableBeds)%Q /\
  (1 <= HospitalNumbers.availableBeds c ->
   (icu = true -> 1 <= HospitalNumbers.availableIcuBeds c) ->
   exists h' r,
     reserve = Returned (<[hospitalId := h']> hospitals, r) /\
     HospitalNumbers.stored h' /\
     let c' := HospitalNumbers.capacity h' in
     HospitalNumbers.availableBeds c' = HospitalNumbers.availableBeds c - 1 /\
     HospitalNumbers.availableIcuBeds c' =
       (if icu then HospitalNumbers.availableIcuBeds c - 1
        else HospitalNumbers.availableIcuBeds c) /\
     HospitalNumbers.totalBeds c' = HospitalNumbers.totalBeds c /\
     HospitalNumbers.icuBeds c' = HospitalNumbers.icuBeds c /\
     HospitalNumbers.emergencyRooms c' = HospitalNumbers.emergencyRooms c /\
     HospitalNumbers.availableEmergencyRooms c' =
       HospitalNumbers.availableEmergencyRooms c)%Q /\
  (HospitalNumbers.part_of_one (HospitalNumbers.availableBeds c) \/
   (~ HospitalNumbers.availableBeds c == 0 /\ icu = true /\
    HospitalNumbers.availableIcuBeds c < 1) ->
   reserve = Thrown ValidationError)%Q.
Proof.
  intros Hl Hs _ c reserve icu. split; [|split].
  - intros H0. eapply reserveBed_num_none; eassumption.
  - intros H1 H2. eexists _, _. split.
    + apply (reserveBed_num_success now hospitals hospitalId emergencyId emergencyType h
               Hl Hs H1 H2).
    + split; [apply take_bed_num_stored; assumption|].
      pose proof (take_bed_num_fields emergencyType c) as (F1 & F2 & F3 & F4 & F5 & F6).
      cbn [HospitalNumbers.capacity]. fold c.
      repeat split; assumption.
  - intros Hpart.
    apply (reserveBed_num_invalid now hospitals hospitalId emergencyId emergencyType h Hl Hs).
    + destruct Hpart as [[Hp _]|[Hne _]]; [|exact Hne].
      intros H0. fold c in H0. Lqa.lra.
    + destruct Hpart as [[_ Hp]|(_ & Ht & Hp)]; [left; exact Hp|right; split; assumption].
Qed.

Lemma sample_number_stored :
  HospitalNumbers.stored (HospitalNumbers.of_whole CapacityRegistry.sample).
Proof.
  split; [reflexivity|]. repeat split; apply Qle_bool_iff; reflexivity.
Qed.

Lemma sample_number_countable :
  HospitalNumbers.countable (HospitalNumbers.of_whole CapacityRegistry.sample).
Proof. split; apply Qle_bool_iff; reflexivity. Qed.

Lemma reserveBed_on_number_counters_witness :
  (exists h' r,
     HospitalNumbers.reserveBed 7
       HospitalNumbers.sample_store "H1" "EMG-00000002" "cardiac"
     = Returned (<["H1" := h']> HospitalNumbers.sample_store, r) /\
     HospitalNumbers.availableBeds (HospitalNumbers.capacity h') = (5 - 1)%Q /\
     HospitalNumbers.availableIcuBeds (HospitalNumbers.capacity h') = (1 - 1)%Q) /\
  HospitalNumbers.reserveBed 2 (HospitalNumbers.after 2) "H1" "EMG-00000002" "other"
  = Thrown ValidationError.
Proof.
  split.
  - destruct (reserveBed_on_number_counters 7 HospitalNumbers.sample_store
                "H1" "EMG-00000002" "cardiac"
                (HospitalNumbers.of_whole CapacityRegistry.sample) eq_refl
                sample_number_stored sample_number_countable) as (_ & H & _).
    destruct H as (h' & r & Hr & _ & Hb & Hi & _).
    + apply Qle_bool_iff. reflexivity.
    + intros _. apply Qle_bool_iff. reflexivity.
    + exists h', r. split; [exact Hr|]. split; [exact Hb|exact Hi].
  - destruct (HospitalNumbers.after 2 !! "H1") as [h|] eqn:Hl; [|discriminate].
    refine (proj2 (proj2 (reserveBed_on_number_counters 2 (HospitalNumbers.after 2)
             "H1" "EMG-00000002" "other" h Hl (after_all_stored 2 "H1" h Hl) _)) _);
      injection Hl as <-.
    + split; apply Qle_bool_iff; reflexivity.
    + left. split; reflexivity.
Defined.

(** X12. When [checkAvailability] reports a stored hospital as available,
    that hospital is active, [availableBeds] is above 0 and it can handle
    the emergency type, and the reported urgent-severity score lies
    between 55 and 90. A [reserveBed] for it on the same collection
    succeeds when a whole bed is free (and a whole ICU bed, where the
    reservation takes one); with less than one bed free the hospital is
    reported available and the reservation fails with a validation
    error. *)
Theorem checkAvailability_available_can_reserve
    (averageWaitTime : HospitalNumbers.t -> Z) (hospitals : gmap string HospitalNumbers.t)
    (hospitalId emergencyType : string)
    (c : HospitalNumbers.Capacity) (waitTime emergencyScore : Z) :
  HospitalNumbers.all_stored hospitals ->
  HospitalNumbers.checkAvailability averageWaitTime hospitals hospitalId emergencyType
  = HospitalNumbers.Available c waitTime emergencyScore ->
  exists h,
    hospitals !! hospitalId = Some h /\
    Hospital.status (HospitalNumbers.other h) = Hospital.Active /\
    HospitalNumbers.capacity h = c /\ (0 < HospitalNumbers.availableBeds c)%Q /\
    Hospital.canHandleEmergency (HospitalNumbers.other h) emergencyType = true /\
    55 <= emergencyScore <= 90 /\
    forall now emergencyId,
      ((1 <= HospitalNumbers.availableBeds c)%Q ->
       (HospitalNumbers.takes_icu emergencyType h = true ->
        (1 <= HospitalNumbers.availableIcuBeds c)%Q) ->
       exists hospitals' r,
         HospitalNumbers.reserveBed now hospitals hospitalId emergencyId emergencyType
         = Returned (hospitals', r)) /\
      ((HospitalNumbers.availableBeds c < 1)%Q ->
       HospitalNumbers.reserveBed now hospitals hospitalId emergencyId emergencyType
       = Thrown ValidationError).
Proof.
  intros Hall Hc. unfold HospitalNumbers.checkAvailability in Hc.
  destruct (hospitals !! hospitalId) as [h|] eqn:Hl; [|discriminate].
  destruct (Hospital.status (HospitalNumbers.other h)) eqn:Hst; try discriminate.
  destruct (Qeq_bool (HospitalNumbers.availableBeds (HospitalNumbers.capacity h)) 0)
    eqn:Hne; [discriminate|].
  destruct (Hospital.canHandleEmergency (HospitalNumbers.other h) emergencyType) eqn:Hcan;
    [|discriminate].
  simpl in Hc. injection Hc as <- _ <-.
  pose proof (Hall hospitalId h Hl) as Hs.
  apply Qeq_bool_neq in Hne.
  assert (Hpos : (0 < HospitalNumbers.availableBeds (HospitalNumbers.capacity h))%Q).
  { destruct Hs as [Hv _]. unfold HospitalNumbers.validate in Hv.
    rewrite !andb_true_iff in Hv. destruct Hv as (((Hv & _) & _) & _).
    apply capacity_valid_num in Hv. destruct Hv as (_ & Hv & _).
    apply Qle_lt_or_eq in Hv. destruct Hv as [Hv|Hv]; [exact Hv|].
    exfalso. apply Hne. symmetry. exact Hv. }
  exists h. repeat split; try assumption.
  - unfold HospitalNumbers.calculateEmergencyScore, Hospital.pts. rewrite Hcan.
    apply positive_spec in Hpos. rewrite Hpos.
    change ("urgent" =? "critical")%string with false. cbv iota.
    destruct (HospitalNumbers.positive
                (HospitalNumbers.availableEmergencyRooms (HospitalNumbers.capacity h))),
      (Hospital.ctScan (Hospital.equipment (HospitalNumbers.other h))),
      (Hospital.mriMachine (Hospital.equipment (HospitalNumbers.other h))),
      (0 <? Hospital.ventilators (Hospital.equipment (HospitalNumbers.other h))); simpl; lia.
  - unfold HospitalNumbers.calculateEmergencyScore, Hospital.pts. rewrite Hcan.
    apply positive_spec in Hpos. rewrite Hpos.
    change ("urgent" =? "critical")%string with false. cbv iota.
    destruct (HospitalNumbers.positive
                (HospitalNumbers.availableEmergencyRooms (HospitalNumbers.capacity h))),
      (Hospital.ctScan (Hospital.equipment (HospitalNumbers.other h))),
      (Hospital.mriMachine (Hospital.equipment (HospitalNumbers.other h))),
      (0 <? Hospital.ventilators (Hospital.equipment (HospitalNumbers.other h))); simpl; lia.
  - intros H1 H2. eexists _, _.
    apply (reserveBed_num_success now hospitals hospitalId emergencyId emergencyType h
             Hl Hs H1 H2).
  - intros H1.
    apply (reserveBed_num_invalid now hospitals hospitalId emergencyId emergencyType h
             Hl Hs Hne).
    left. exact H1.
Qed.


Lemma checkAvailability_available_can_reserve_witness :
  (exists c,
     HospitalNumbers.checkAvailability (fun _ => 30) (HospitalNumbers.after 2) "H1" "other"
     = HospitalNumbers.Available c 30 90 /\
     HospitalNumbers.availableBeds c = (1 # 2)%Q) /\
  HospitalNumbers.reserveBed 2 (HospitalNumbers.after 2) "H1" "EMG-00000002" "other"
  = Thrown ValidationError /\
  exists hospitals' r,
    HospitalNumbers.reserveBed 2 (HospitalNumbers.after 1) "H1" "EMG-00000002" "other"
    = Returned (hospitals', r).
Proof.
  split; [eexists; split; reflexivity|]. split.
  - destruct (checkAvailability_available_can_reserve (fun _ => 30)
                (HospitalNumbers.after 2) "H1" "other" _ 30 90 (after_all_stored 2) eq_refl)
      as (h & _ & _ & _ & _ & _ & _ & H).
    apply (proj2 (H 2 "EMG-00000002")). reflexivity.
  - destruct (checkAvailability_available_can_reserve (fun _ => 30)
                (HospitalNumbers.after 1) "H1" "other" _ 30 90 (after_all_stored 1) eq_refl)
      as (h & Hl & _ & _ & _ & _ & _ & H).
    apply (proj1 (H 2 "EMG-00000002")).
    + apply Qle_bool_iff. reflexivity.
    + injection Hl as <-. discriminate.
Defined.

(** X13. Reserving bed after bed. For a stored hospital with
    [availableBeds] free beds (a number up to 2^53, of which k is the
    whole part) and a reservation that touches no part of an ICU bed, n
    successive [reserveBed] calls all succeed when n <= k and leave
    [availableBeds] lower by n, the total and every other hospital
    untouched; when n > k the series ends with 'No available beds' if
    [availableBeds] was a whole number and with a validation error if it
    was not. *)
Theorem reserve_times_until_full
    (n : nat) (now : Time) (hospitals : gmap string HospitalNumbers.t)
    (hospitalId emergencyId emergencyType : string) (h : HospitalNumbers.t) :
  hospitals !! hospitalId = Some h ->
  HospitalNumbers.stored h ->
  HospitalNumbers.countable h ->
  HospitalNumbers.icu_counter_whole emergencyType h ->
  let free := HospitalNumbers.availableBeds (HospitalNumbers.capacity h) in
  let k := Qfloor free in
  (Z.of_nat n <= k ->
   exists hospitals' h',
     HospitalNumbers.reserve_times n now hospitals hospitalId emergencyId emergencyType
     = Returned hospitals' /\
     hospitals' !! hospitalId = Some h' /\
     (HospitalNumbers.availableBeds (HospitalNumbers.capacity h')
      == free - inject_Z (Z.of_nat n))%Q /\
     HospitalNumbers.totalBeds (HospitalNumbers.capacity h')
     = HospitalNumbers.totalBeds (HospitalNumbers.capacity h) /\
     (forall other, other <> hospitalId -> hospitals' !! other = hospitals !! other)) /\
  (k < Z.of_nat n ->
   HospitalNumbers.reserve_times n now hospitals hospitalId emergencyId emergencyType
   = Thrown (if HospitalNumbers.whole free then NoAvailableBeds else ValidationError)).
Proof.
  intros Hl Hs _ Hw. revert hospitals h Hl Hs Hw.
  induction n as [|n IH]; intros hospitals h Hl Hs Hw free k.
  - assert (Hk : 0 <= k).
    { destruct Hs as [Hv _]. unfold HospitalNumbers.validate in Hv.
      rewrite !andb_true_iff in Hv. destruct Hv as (((Hv & _) & _) & _).
      apply capacity_valid_num in Hv. destruct Hv as (_ & Hv & _).
      apply (Qfloor_resp_le 0 _ Hv). }
    split.
    + intros _. exists hospitals, h. split; [reflexivity|]. split; [exact Hl|].
      split; [|split; [reflexivity|intros; reflexivity]].
      subst free. change (inject_Z (Z.of_nat 0)) with 0%Q. Lqa.lra.
    + intros Hn. simpl in Hn. lia.
  - assert (Hnn : (0 <= free)%Q).
    { destruct Hs as [Hv _]. unfold HospitalNumbers.validate in Hv.
      rewrite !andb_true_iff in Hv. destruct Hv as (((Hv & _) & _) & _).
      apply capacity_valid_num in Hv. destruct Hv as (_ & Hv & _). exact Hv. }
    pose proof (Qfloor_le free) as Fl. pose proof (Qlt_floor free) as Fh. fold k in Fl, Fh.
    rewrite inject_Z_plus in Fh. change (inject_Z 1) with 1%Q in Fh.
    assert (Hk : 0 <= k) by apply (Qfloor_resp_le 0 _ Hnn).
    destruct (Z.eq_dec k 0) as [H0|Hne].
    + split; [intros Hn; lia|]. intros _.
      rewrite H0 in Fl, Fh. change (inject_Z 0) with 0%Q in Fl, Fh.
      cbn [HospitalNumbers.reserve_times].
      destruct (Qeq_dec free 0) as [Hz|Hz].
      * rewrite (reserveBed_num_none now hospitals hospitalId emergencyId emergencyType h
                   Hl Hz).
        rewrite (whole_zero free Hz). reflexivity.
      * rewrite (reserveBed_num_invalid now hospitals hospitalId emergencyId emergencyType h
                   Hl Hs Hz); [|left; fold free; Lqa.lra].
        rewrite (part_not_whole free); [reflexivity| |Lqa.lra].
        apply Qle_lt_or_eq in Hnn. destruct Hnn as [Hp|He]; [exact Hp|].
        exfalso. apply Hz. symmetry. exact He.
    + assert (H1 : (1 <= free)%Q).
      { assert (B : 1 <= k) by lia. rewrite Zle_Qle in B.
        change (inject_Z 1) with 1%Q in B. Lqa.lra. }
      pose proof (icu_counter_whole_takes emergencyType h Hw) as H2.
      pose proof (reserveBed_num_success now hospitals hospitalId emergencyId emergencyType h
                    Hl Hs H1 H2) as Hr.
      pose proof (take_bed_num_stored now emergencyType h Hs H1 H2) as Hs1.
      pose proof (take_bed_num_fields emergencyType (HospitalNumbers.capacity h))
        as (F1 & F2 & _ & F4 & _).
      set (h1 := HospitalNumbers.mkHospital
                   (HospitalNumbers.take_bed emergencyType (HospitalNumbers.capacity h))
                   (Hospital.with_updatedAt now (HospitalNumbers.other h))) in *.
      assert (Hl1 : <[hospitalId := h1]> hospitals !! hospitalId = Some h1)
        by apply lookup_insert_eq.
      assert (Hw1 : HospitalNumbers.icu_counter_whole emergencyType h1).
      { destruct Hw as [Hn|Hw]; [left; exact Hn|right].
        unfold h1. cbn [HospitalNumbers.capacity]. rewrite F4.
        destruct (_ && _); [rewrite whole_minus_one|]; exact Hw. }
      destruct (IH (<[hospitalId := h1]> hospitals) h1 Hl1 Hs1 Hw1) as [IHok IHfail].
      unfold h1 in IHok, IHfail. cbn [HospitalNumbers.capacity] in IHok, IHfail.
      rewrite F2 in IHok, IHfail. fold free in IHok, IHfail.
      rewrite Qfloor_minus_one, whole_minus_one in IHfail.
      rewrite Qfloor_minus_one in IHok. fold k in IHok, IHfail.
      cbn [HospitalNumbers.reserve_times]. rewrite Hr. split.
      * intros Hn. destruct IHok as (hs' & h' & Hrt & Hl' & Ha & Ht & Ho); [lia|].
        exists hs', h'. split; [exact Hrt|]. split; [exact Hl'|]. split; [|split].
        -- rewrite Ha. rewrite Nat2Z.inj_succ. unfold Z.succ.
           rewrite inject_Z_plus. change (inject_Z 1) with 1%Q. Lqa.lra.
        -- rewrite Ht. exact F1.
        -- intros other Hother. rewrite (Ho other Hother).
           apply lookup_insert_ne. congruence.
      * intros Hn. apply IHfail. lia.
Qed.

Lemma reserve_times_until_full_witness :
  (exists hospitals',
     HospitalNumbers.reserve_times 5 7 HospitalNumbers.sample_store "H1"
       "EMG-00000002" "cardiac" = Returned hospitals' /\
     exists free, HospitalNumbers.free_beds hospitals' "H1" = Some free /\ (free == 0)%Q) /\
  HospitalNumbers.reserve_times 6 7 HospitalNumbers.sample_store "H1"
    "EMG-00000002" "cardiac" = Thrown NoAvailableBeds /\
  HospitalNumbers.reserve_times 3 2 HospitalNumbers.halved "H1"
    "EMG-00000002" "other" = Thrown ValidationError.
Proof.
  assert (Hw : forall ty, HospitalNumbers.icu_counter_whole ty
                 (HospitalNumbers.of_whole CapacityRegistry.sample)).
  { intros ty. right. reflexivity. }
  split; [|split].
  - destruct (reserve_times_until_full 5 7 HospitalNumbers.sample_store "H1"
                "EMG-00000002" "cardiac" (HospitalNumbers.of_whole CapacityRegistry.sample)
                eq_refl sample_number_stored sample_number_countable (Hw _))
      as [Hok _].
    destruct Hok as (hs' & h' & Hr & Hl & Ha & _); [apply Z.leb_le; reflexivity|].
    exists hs'. split; [exact Hr|].
    unfold HospitalNumbers.free_beds. rewrite Hl. simpl. eexists. split; [reflexivity|].
    rewrite Ha. reflexivity.
  - apply (reserve_times_until_full 6 7 HospitalNumbers.sample_store "H1"
             "EMG-00000002" "cardiac" (HospitalNumbers.of_whole CapacityRegistry.sample)
             eq_refl sample_number_stored sample_number_countable (Hw _)).
    apply Z.ltb_lt. reflexivity.
  - assert (Hex : exists h, HospitalNumbers.halved !! "H1" = Some h /\
               HospitalNumbers.countable h /\
               HospitalNumbers.icu_counter_whole "other" h /\
               HospitalNumbers.whole
                 (HospitalNumbers.availableBeds (HospitalNumbers.capacity h)) = false /\
               (Qfloor (HospitalNumbers.availableBeds (HospitalNumbers.capacity h))
                <? Z.of_nat 3) = true).
    { eexists. split; [reflexivity|]. split; [|split; [left|split]; reflexivity].
      split; apply Qle_bool_iff; reflexivity. }
    destruct Hex as (h & Hl & Hc & Hi & Hp & Hk).
    apply Z.ltb_lt in Hk.
    pose proof (proj2 (reserve_times_until_full 3 2 HospitalNumbers.halved "H1"
                         "EMG-00000002" "other" h Hl (after_all_stored 0 "H1" h Hl) Hc Hi)
                  Hk) as H.
    rewrite Hp in H. exact H.
Defined.

Section CapacityUpdate.
Import Hospital HospitalService CapacityRegistry HospitalQueries.

Lemma body_nonneg_of_valid d c :
  capacity_valid (with_lastUpdated 0 (assign_capacity c d)) = true \/
  capacity_valid (assign_capacity c d) = true ->
  0 <= totalBeds c -> 0 <= availableBeds c -> 0 <= icuBeds c ->
  0 <= availableIcuBeds c -> 0 <= emergencyRooms c -> 0 <= availableEmergencyRooms c ->
  body_nonneg d = true.
Proof.
  intros H _ _ _ _ _ _.
  assert (Hv : capacity_valid (assign_capacity c d) = true) by (destruct H; assumption).
  apply capacity_valid_spec in Hv. simpl in Hv.
  destruct Hv as (V1 & V2 & V3 & V4 & V5 & V6).
  unfold body_nonneg, optional_min0.
  destruct d as [[a|] [b|] [e|] [f|] [g|] [i|]]; simpl in *;
    rewrite ?andb_true_iff; repeat split; try apply Z.leb_le; assumption.
Qed.

Lemma updateCapacity_negative now d h :
  body_nonneg d = false -> stored h ->
  updateCapacity now d h = Thrown ValidationError.
Proof.
  intros Hd [Hv _]. unfold updateCapacity, save.
  destruct (validate (with_lastCapacityUpdate now
              (with_capacity (with_lastUpdated now (assign_capacity (capacity h) d)) h)))
    eqn:E; [|reflexivity]. exfalso.
  unfold validate in E, Hv.
  apply andb_true_iff in E as [E _]. apply andb_true_iff in E as [E _].
  apply andb_true_iff in E as [E _].
  apply andb_true_iff in Hv as [Hv _]. apply andb_true_iff in Hv as [Hv _].
  apply andb_true_iff in Hv as [Hv _]. apply capacity_valid_spec in Hv.
  destruct Hv as (C1 & C2 & C3 & C4 & C5 & C6).
  destruct h as [n co c sp es eq ra st lc ua].
  cbn [capacity with_capacity with_lastCapacityUpdate] in *.
  assert (Hb : body_nonneg d = true).
  { apply (body_nonneg_of_valid d c); try assumption. right.
    apply capacity_valid_spec. apply capacity_valid_spec in E. exact E. }
  congruence.
Qed.

Lemma updateHospitalCapacity_unknown now hospitals hospitalId d :
  hospitals !! hospitalId = None ->
  updateHospitalCapacity now hospitals hospitalId d = Thrown HospitalNotFound.
Proof. intros H. unfold updateHospitalCapacity. rewrite H. reflexivity. Qed.

Lemma updateHospitalCapacity_stored now hospitals hospitalId d hospitals' :
  all_stored hospitals ->
  updateHospitalCapacity now hospitals hospitalId d = Returned hospitals' ->
  all_stored hospitals'.
Proof.
  intros Hall H. apply (step_all_stored hospitals hospitals' Hall).
  eapply step_updateCapacity. exact H.
Qed.

End CapacityUpdate.

(** X14. A capacity update of a stored hospital with non-negative values
    writes the given capacities as they are and each available counter
    as the smaller of its (given or previous) value and its capacity, so
    lowering [totalBeds] below [availableBeds] pulls [availableBeds]
    down; repeating the same update leaves the six counters as they are.
    With a negative value the update is rejected by validation. *)
Theorem updateHospitalCapacity_cuts_to_capacity
    (now : Time) (hospitals : gmap string Hospital.t) (hospitalId : string)
    (d : Hospital.CapacityData) (h : Hospital.t) :
  hospitals !! hospitalId = Some h ->
  CapacityRegistry.stored h ->
  (HospitalQueries.body_nonneg d = false ->
   HospitalService.updateHospitalCapacity now hospitals hospitalId d
   = Thrown ValidationError) /\
  (HospitalQueries.body_nonneg d = true ->
   exists h',
     HospitalService.updateHospitalCapacity now hospitals hospitalId d
     = Returned (<[hospitalId := h']> hospitals) /\
     let c := Hospital.capacity h in
     let c' := Hospital.capacity h' in
     Hospital.totalBeds c' = Hospital.assign (Hospital.d_totalBeds d) (Hospital.totalBeds c) /\
     Hospital.icuBeds c' = Hospital.assign (Hospital.d_icuBeds d) (Hospital.icuBeds c) /\
     Hospital.emergencyRooms c'
     = Hospital.assign (Hospital.d_emergencyRooms d) (Hospital.emergencyRooms c) /\
     Hospital.availableBeds c'
     = Z.min (Hospital.assign (Hospital.d_availableBeds d) (Hospital.availableBeds c))
             (Hospital.totalBeds c') /\
     Hospital.availableIcuBeds c'
     = Z.min (Hospital.assign (Hospital.d_availableIcuBeds d) (Hospital.availableIcuBeds c))
             (Hospital.icuBeds c') /\
     Hospital.availableEmergencyRooms c'
     = Z.min (Hospital.assign (Hospital.d_availableEmergencyRooms d)
                (Hospital.availableEmergencyRooms c))
             (Hospital.emergencyRooms c') /\
     Hospital.lastUpdated c' = now /\
     (forall now',
        exists h'',
          Hospital.updateCapacity now' d h' = Returned h'' /\
          let c'' := Hospital.capacity h'' in
          Hospital.totalBeds c'' = Hospital.totalBeds c' /\
          Hospital.availableBeds c'' = Hospital.availableBeds c' /\
          Hospital.icuBeds c'' = Hospital.icuBeds c' /\
          Hospital.availableIcuBeds c'' = Hospital.availableIcuBeds c' /\
          Hospital.emergencyRooms c'' = Hospital.emergencyRooms c' /\
          Hospital.availableEmergencyRooms c'' = Hospital.availableEmergencyRooms c')).
Proof.
  intros Hl Hs. split.
  - intros Hd. unfold HospitalService.updateHospitalCapacity. rewrite Hl.
    rewrite (updateCapacity_negative now d h Hd Hs). reflexivity.
  - intros Hd. eexists. split.
    + unfold HospitalService.updateHospitalCapacity. rewrite Hl.
      rewrite (updateCapacity_valid now d h Hs Hd). reflexivity.
    + cbv zeta. cbn [Hospital.capacity Hospital.pre_save Hospital.with_capacity
                     Hospital.with_updatedAt Hospital.with_lastCapacityUpdate
                     Hospital.with_lastUpdated Hospital.assign_capacity
                     Hospital.totalBeds Hospital.availableBeds Hospital.icuBeds
                     Hospital.availableIcuBeds Hospital.emergencyRooms
                     Hospital.availableEmergencyRooms Hospital.lastUpdated].
      rewrite !clamp_min.
      repeat (split; [reflexivity|]).
      intros now'.
      match goal with |- context [Hospital.updateCapacity now' d ?x] => set (h1 := x) end.
      assert (Hs1 : CapacityRegistry.stored h1).
      { eapply (save_stored now). exact (updateCapacity_valid now d h Hs Hd). }
      eexists. split; [apply (updateCapacity_valid now' d h1 Hs1 Hd)|].
      cbv zeta. subst h1.
      cbn [Hospital.capacity Hospital.pre_save Hospital.with_capacity
           Hospital.with_updatedAt Hospital.with_lastCapacityUpdate
           Hospital.with_lastUpdated Hospital.assign_capacity
           Hospital.totalBeds Hospital.availableBeds Hospital.icuBeds
           Hospital.availableIcuBeds Hospital.emergencyRooms
           Hospital.availableEmergencyRooms Hospital.lastUpdated].
      rewrite !clamp_min.
      destruct d as [[a|] [b|] [e|] [f|] [g|] [i|]]; simpl; repeat split; lia.
Qed.

Lemma updateHospitalCapacity_cuts_to_capacity_witness :
  (exists h',
     HospitalService.updateHospitalCapacity 8 CapacityRegistry.sample_store "H1"
       (Hospital.mkCapacityData (Some 3) None None None None None)
     = Returned (<["H1" := h']> CapacityRegistry.sample_store) /\
     Hospital.totalBeds (Hospital.capacity h') = 3 /\
     Hospital.availableBeds (Hospital.capacity h') = 3) /\
  HospitalService.updateHospitalCapacity 8 CapacityRegistry.sample_store "H1"
    (Hospital.mkCapacityData None (Some (-1)) None None None None)
  = Thrown ValidationError.
Proof.
  split.
  - destruct (updateHospitalCapacity_cuts_to_capacity 8 CapacityRegistry.sample_store
                "H1" (Hospital.mkCapacityData (Some 3) None None None None None)
                CapacityRegistry.sample eq_refl sample_stored) as [_ H].
    destruct (H eq_refl) as (h' & Hr & Ht & _ & _ & Ha & _).
    exists h'. split; [exact Hr|]. split; [exact Ht|]. rewrite Ha, Ht. reflexivity.
  - apply (updateHospitalCapacity_cuts_to_capacity 8 CapacityRegistry.sample_store
             "H1" (Hospital.mkCapacityData None (Some (-1)) None None None None)
             CapacityRegistry.sample eq_refl sample_stored).
    reflexivity.
Defined.

(** X15. The capacity route answers 400 when one of the three available
    counters in the body is negative, and 500, not 404, when the hospital
    is unknown or when the body carries a negative capacity. Whenever the
    answer is not 200 the collection is unchanged, and after an answer
    200 every hospital of the collection still has its available
    counters within their capacities. *)
Theorem patch_capacity_answers
    (now : Time) (hospitals : gmap string Hospital.t) (hospitalId : string)
    (body : Hospital.CapacityData) :
  CapacityRegistry.all_stored hospitals ->
  let r := HospitalQueries.patch_capacity now hospitals hospitalId body in
  (HospitalQueries.capacity_body_valid body = false ->
   r = (EmergencyRoutes.BadRequest400, hospitals)) /\
  (HospitalQueries.capacity_body_valid body = true ->
   hospitals !! hospitalId = None ->
   r = (EmergencyRoutes.ServerError500, hospitals)) /\
  (HospitalQueries.capacity_body_valid body = true ->
   HospitalQueries.body_nonneg body = false ->
   r = (EmergencyRoutes.ServerError500, hospitals)) /\
  (HospitalQueries.body_nonneg body = true ->
   is_Some (hospitals !! hospitalId) ->
   fst r = EmergencyRoutes.Ok200) /\
  (fst r <> EmergencyRoutes.Ok200 -> snd r = hospitals) /\
  (forall other h, snd r !! other = Some h ->
     CapacityRegistry.capacity_inv (Hospital.capacity h)).
Proof.
  intros Hall r. subst r. unfold HospitalQueries.patch_capacity.
  split; [intros ->; reflexivity|].
  split; [intros -> Hl; simpl;
          rewrite (updateHospitalCapacity_unknown now hospitals hospitalId body Hl);
          reflexivity|].
  split.
  { intros -> Hd. simpl.
    destruct (hospitals !! hospitalId) as [h|] eqn:Hl.
    - unfold HospitalService.updateHospitalCapacity. rewrite Hl.
      rewrite (updateCapacity_negative now body h Hd (Hall hospitalId h Hl)).
      reflexivity.
    - rewrite (updateHospitalCapacity_unknown now hospitals hospitalId body Hl).
      reflexivity. }
  split.
  { intros Hd [h Hl].
    assert (Hv : HospitalQueries.capacity_body_valid body = true).
    { unfold HospitalQueries.body_nonneg in Hd.
      unfold HospitalQueries.capacity_body_valid.
      rewrite !andb_true_iff in *. tauto. }
    rewrite Hv. simpl. unfold HospitalService.updateHospitalCapacity. rewrite Hl.
    rewrite (updateCapacity_valid now body h (Hall hospitalId h Hl) Hd). reflexivity. }
  destruct (HospitalQueries.capacity_body_valid body); simpl.
  - destruct (HospitalService.updateHospitalCapacity now hospitals hospitalId body)
      as [hospitals'|e] eqn:Hu; simpl.
    + split; [intros H; contradiction|].
      intros other h Hl.
      apply (updateHospitalCapacity_stored now hospitals hospitalId body hospitals'
               Hall Hu other h Hl).
    + split; [reflexivity|]. intros other h Hl. apply (Hall other h Hl).
  - split; [reflexivity|]. intros other h Hl. apply (Hall other h Hl).
Qed.

Lemma patch_capacity_answers_witness :
  HospitalQueries.patch_capacity 8 CapacityRegistry.sample_store "H9"
    (Hospital.mkCapacityData None (Some 4) None None None None)
  = (EmergencyRoutes.ServerError500, CapacityRegistry.sample_store) /\
  HospitalQueries.patch_capacity 8 CapacityRegistry.sample_store "H1"
    (Hospital.mkCapacityData None (Some (-4)) None None None None)
  = (EmergencyRoutes.BadRequest400, CapacityRegistry.sample_store) /\
  fst (HospitalQueries.patch_capacity 8 CapacityRegistry.sample_store "H1"
         (Hospital.mkCapacityData None (Some 40) None None None None))
  = EmergencyRoutes.Ok200 /\
  CancelExample.free_beds
    (EmergencyRoutes.mkState ∅
       (snd (HospitalQueries.patch_capacity 8 CapacityRegistry.sample_store "H1"
               (Hospital.mkCapacityData None (Some 40) None None None None))) [])
    "H1" = Some 10.
Proof.
  assert (Hall : CapacityRegistry.all_stored CapacityRegistry.sample_store).
  { intros i h. unfold CapacityRegistry.sample_store.
    rewrite lookup_insert. case_decide.
    - intros [= <-]. exact sample_full_stored.
    - rewrite lookup_singleton. case_decide; [|discriminate].
      intros [= <-]. exact sample_stored. }
  split; [|split; [|split]].
  - destruct (patch_capacity_answers 8 CapacityRegistry.sample_store "H9"
                (Hospital.mkCapacityData None (Some 4) None None None None) Hall)
      as (_ & H & _).
    apply H; reflexivity.
  - destruct (patch_capacity_answers 8 CapacityRegistry.sample_store "H1"
                (Hospital.mkCapacityData None (Some (-4)) None None None None) Hall)
      as (H & _).
    apply H. reflexivity.
  - destruct (patch_capacity_answers 8 CapacityRegistry.sample_store "H1"
                (Hospital.mkCapacityData None (Some 40) None None None None) Hall)
      as (_ & _ & _ & H & _).
    apply H; [reflexivity|eexists; reflexivity].
  - vm_compute. reflexivity.
Defined.

(** ** The emergency record over series of requests *)

Section EmergencyLogProps.
Import Emergency EmergencyRoutes EmergencyLog.
Local Open Scope list_scope.











End EmergencyLogProps.








Section StatusView.
Import Emergency EmergencyRoutes EmergencyLog.
Local Open Scope list_scope.




End StatusView.


(** ** Address components *)

Section GeocodingProps.
Import Geocoding.

Lemma parse_component_get k p c :
  get k (parse_component p c) =
  match contribution k c with Some v => Some v | None => get k p end.
Proof.
  unfold parse_component, contribution, key_of, keys. simpl.
  destruct (Hospital.includes "street_number" (types c));
    [destruct k; reflexivity|].
  destruct (Hospital.includes "route" (types c)); [destruct k; reflexivity|].
  destruct (Hospital.includes "locality" (types c)); [destruct k; reflexivity|].
  destruct (Hospital.includes "administrative_area_level_1" (types c));
    [destruct k; reflexivity|].
  destruct (Hospital.includes "postal_code" (types c)); [destruct k; reflexivity|].
  destruct (Hospital.includes "country" (types c)); destruct k; reflexivity.
Qed.

Lemma fold_parse_get k cs : forall p,
  get k (fold_left parse_component cs p) =
  match last (omap (contribution k) cs) with Some v => Some v | None => get k p end.
Proof.
  induction cs as [|c cs IH]; intros p; simpl; [reflexivity|].
  rewrite IH, parse_component_get. clear IH.
  destruct (contribution k c) as [v|]; [|reflexivity].
  rewrite last_cons.
  change (list_omap Component string (contribution k) cs)
    with (omap (contribution k) cs).
  destruct (last (omap (contribution k) cs)); reflexivity.
Qed.

End GeocodingProps.

(** X21. [parseGoogleComponents] files every component under one key at
    most, the first of street number, route, locality, state, postal code
    and country that is among its types, and each key of the result holds
    the name (the short name for the state, the long name otherwise) of
    the last component filed under it; a key no component is filed under
    is absent. *)
Theorem parseGoogleComponents_last_component_wins
    (k : Geocoding.Key) (components : list Geocoding.Component) :
  Geocoding.get k (Geocoding.parseGoogleComponents components) =
  last (omap (Geocoding.contribution k) components).
Proof.
  unfold Geocoding.parseGoogleComponents. rewrite fold_parse_get.
  destruct (last _); [reflexivity|destruct k; reflexivity].
Qed.

(** ** More on the Haversine distance *)

Section HaversineMore.
Import Haversine.
Local Open Scope R_scope.

Lemma atan2_quadrant y x : 0 <= y -> 0 <= x -> atan2 y x <= PI / 2.
Proof.
  intros Hy Hx. unfold atan2. pose proof PI_RGT_0 as HPI.
  destruct (Rlt_dec 0 x) as [Hpos|Hnpos].
  - pose proof (atan_bound (y / x)). lra.
  - destruct (Rlt_dec x 0); [lra|].
    destruct (Rlt_dec 0 y); [lra|]. destruct (Rlt_dec y 0); lra.
Qed.

Lemma sin_shift_PI x : sin (x - PI) = - sin x.
Proof. rewrite sin_minus, cos_PI, sin_PI. ring. Qed.

Lemma hav_a_lon_turn lat1 lon1 lat2 lon2 :
  hav_a lat1 (lon1 + 360) lat2 lon2 = hav_a lat1 lon1 lat2 lon2.
Proof.
  unfold hav_a.
  replace (toRadians (lon2 - (lon1 + 360)) / 2)
    with (toRadians (lon2 - lon1) / 2 - PI) by (unfold toRadians; field).
  rewrite sin_shift_PI. ring.
Qed.

Lemma hav_a_lon_shift lat1 lon1 lat2 lon2 k :
  hav_a lat1 (lon1 + k) lat2 (lon2 + k) = hav_a lat1 lon1 lat2 lon2.
Proof.
  unfold hav_a. replace (lon2 + k - (lon1 + k)) with (lon2 - lon1) by ring.
  reflexivity.
Qed.

End HaversineMore.

(** X22. The Haversine distance never exceeds half the circumference of
    the Earth sphere of the method, 6371000 x PI meters (over the real
    numbers). *)
Theorem calculateDistance_at_most_half_circumference (lat1 lon1 lat2 lon2 : R) :
  (Haversine.calculateDistance lat1 lon1 lat2 lon2 <= 6371000 * PI)%R.
Proof.
  unfold Haversine.calculateDistance.
  pose proof (atan2_quadrant (sqrt (Haversine.hav_a lat1 lon1 lat2 lon2))
                (sqrt (1 - Haversine.hav_a lat1 lon1 lat2 lon2))
                (sqrt_pos _) (sqrt_pos _)) as H.
  lra.
Qed.

(** X23. The Haversine distance depends on the longitudes only through
    their difference, and a full turn of a longitude (360 degrees) does
    not change it (over the real numbers). *)
Theorem calculateDistance_longitude_invariance (lat1 lon1 lat2 lon2 k : R) :
  Haversine.calculateDistance lat1 (lon1 + k) lat2 (lon2 + k)
  = Haversine.calculateDistance lat1 lon1 lat2 lon2 /\
  Haversine.calculateDistance lat1 (lon1 + 360) lat2 lon2
  = Haversine.calculateDistance lat1 lon1 lat2 lon2.
Proof.
  unfold Haversine.calculateDistance.
  rewrite hav_a_lon_shift, hav_a_lon_turn. split; reflexivity.
Qed.

(** X28. Along a meridian the Haversine distance is the length of the
    arc between the two latitudes on the sphere of radius 6371000 m, for
    every difference of latitudes below 180 degrees, in range or not: one
    degree is 6371000 x PI / 180 meters (over the real numbers). *)
Theorem calculateDistance_along_a_meridian (lat1 lat2 lon : R) :
  (Rabs (lat2 - lat1) < 180)%R ->
  Haversine.calculateDistance lat1 lon lat2 lon
  = (6371000 * (Rabs (lat2 - lat1) * (PI / 180)))%R.
Proof.
  intros H. unfold Rabs in *. destruct (Rcase_abs (lat2 - lat1)) as [Hn|Hp].
  - rewrite calculateDistance_sym. rewrite meridian_arc by lra.
    unfold Haversine.toRadians. lra.
  - rewrite meridian_arc by lra. unfold Haversine.toRadians. lra.
Qed.

Lemma calculateDistance_along_a_meridian_witness :
  Haversine.calculateDistance 10 20 11 20 = (6371000 * (PI / 180))%R.
Proof.
  rewrite (calculateDistance_along_a_meridian 10 11 20).
  - replace (11 - 10)%R with 1%R by lra. rewrite Rabs_R1. lra.
  - replace (11 - 10)%R with 1%R by lra. rewrite Rabs_R1. lra.
Defined.

(** ** The status route of the ambulances *)

Section AmbulanceStatus.
Import AmbulanceService.





End AmbulanceStatus.

